(** * linear-mcp: the Linear GraphQL client, embedded in Rocq

    A shallow embedding of package [linear]: the transport
    ([ExecuteGraphQL]), the defensive accessors ([safeGetString],
    [safeGetInt], [safeGetFloat64]) and the per-operation functions that
    build a request and walk the decoded response tree.

    Go values of type [interface{}] are an inductive [value]; Go maps
    [map[string]interface{}] are [gmap string value]; a Go result pair
    [(T, error)] is a pair of options, since both components may be
    non-nil at once.  The HTTP peer is a function of the requests seen so
    far, and every operation threads the log of requests put on the wire. *)

From Stdlib Require Import ZArith String Ascii List Bool Lia.
From Stdlib Require Import Floats.SpecFloat.
From stdpp Require Import base option list gmap strings pretty.

Set Warnings "-register-all".
Local Open Scope string_scope.
Local Open Scope Z_scope.

(** ** Dynamic values *)

(** [float64]: IEEE 754 binary64, as the Standard Library's specification
    floats with precision 53 and maximal exponent 1024. *)
Definition float64 : Type := spec_float.

(** What an [interface{}] holds in this program: the shapes produced by
    [encoding/json] into [interface{}] (nil, bool, float64, string,
    []interface{}, map[string]interface{}) and the two further types the
    client itself stores in request variables (int, []string). *)
Inductive value : Type :=
| VNil
| VBool (b : bool)
| VInt (n : Z)
| VFloat (f : float64)
| VString (s : string)
| VStrings (l : list string)
| VList (l : list value)
| VMap (m : gmap string value).

(** [m[key]] on a Go map: the zero value (a nil interface) when absent. *)
Definition index (m : gmap string value) (key : string) : value :=
  default VNil (m !! key).

(** Checked type assertions [v, ok := x.(T)]. *)
Definition as_map (v : value) : option (gmap string value) :=
  match v with VMap m => Some m | _ => None end.

Definition as_list (v : value) : option (list value) :=
  match v with VList l => Some l | _ => None end.

Definition as_bool (v : value) : option bool :=
  match v with VBool b => Some b | _ => None end.

Definition as_string (v : value) : option string :=
  match v with VString s => Some s | _ => None end.

(** ** Numeric conversions *)

Definition min_int : Z := - 2 ^ 63.
Definition max_int : Z := 2 ^ 63 - 1.

(** [int(v)] for a float64 [v]: truncation toward zero.  Outside the range
    of int (and for NaN and the infinities) Go leaves the result to the
    implementation; amd64 yields the minimal int. *)
Definition int_of_float64 (f : float64) : Z :=
  match f with
  | S754_zero _ => 0
  | S754_finite s m e =>
      let mag := if 0 <=? e then Z.pos m * 2 ^ e else Z.pos m / 2 ^ (- e) in
      let n := if s then - mag else mag in
      if (min_int <=? n) && (n <=? max_int) then n else min_int
  | S754_infinity _ | S754_nan => min_int
  end.

(** [float64(v)] for an int [v]: rounding to the nearest binary64. *)
Definition float64_of_int (n : Z) : float64 :=
  binary_normalize 53 1024 n 0 false.

Definition float64_zero : float64 := S754_zero false.

(** ** Helper functions for safely extracting values from maps *)

Definition safeGetString (m : gmap string value) (key : string) : string :=
  match m !! key with
  | Some (VString strVal) => strVal
  | _ => ""
  end.

Definition safeGetInt (m : gmap string value) (key : string) : Z :=
  match m !! key with
  | Some (VInt v) => v
  | Some (VFloat v) => int_of_float64 v
  | _ => 0
  end.

Definition safeGetFloat64 (m : gmap string value) (key : string) : float64 :=
  match m !! key with
  | Some (VFloat v) => v
  | Some (VInt v) => float64_of_int v
  | _ => float64_zero
  end.

(** ** Domain records *)

Record WorkflowState : Type := mkWorkflowState {
  WorkflowState_ID : string;
  WorkflowState_Name : string
}.

Record User : Type := mkUser {
  User_ID : string;
  User_Name : string;
  User_Email : string
}.

Record Team : Type := mkTeam {
  Team_ID : string;
  Team_Name : string;
  Team_Key : string
}.

Record ProjectStatus : Type := mkProjectStatus {
  ProjectStatus_ID : string;
  ProjectStatus_Name : string
}.

Record TeamProject : Type := mkTeamProject {
  TeamProject_ID : string;
  TeamProject_Name : string;
  TeamProject_SlugID : string;
  TeamProject_Status : option ProjectStatus
}.

(** Pointers are options; a slice is an option of a list, [None] being the
    nil slice that a struct literal leaves behind for an unset field. *)
Inductive Issue : Type := mkIssue {
  Issue_ID : string;
  Issue_Identifier : string;
  Issue_Title : string;
  Issue_Description : string;
  Issue_State : option WorkflowState;
  Issue_Assignee : option User;
  Issue_Project : option Project;
  Issue_Parent : option Issue;
  Issue_Children : option (list Issue);
  Issue_Priority : Z;
  Issue_CreatedAt : string;
  Issue_UpdatedAt : string;
  Issue_URL : string;
  Issue_BranchName : string
}
with Project : Type := mkProject {
  Project_ID : string;
  Project_Name : string;
  Project_Description : string;
  Project_Icon : string;
  Project_Color : string;
  Project_State : string;
  Project_Status : option ProjectStatus;
  Project_Lead : option User;
  Project_Teams : option (list Team);
  Project_Issues : option (list Issue);
  Project_CreatedAt : string;
  Project_UpdatedAt : string;
  Project_StartedAt : string;
  Project_TargetDate : string;
  Project_SortOrder : float64;
  Project_URL : string
}.

Record ProjectWithIssues : Type := mkProjectWithIssues {
  ProjectWithIssues_ID : string;
  ProjectWithIssues_Status : option ProjectStatus;
  ProjectWithIssues_Issues : option (list Issue)
}.

(** ** Errors *)

(** The places of [ExecuteGraphQL] that wrap a library error. *)
Inductive TransportStep : Type :=
| MarshalRequestBody
| CreateRequest
| MakeRequest
| DecodeResponse.

(** An error value, one constructor per family of [fmt.Errorf] calls of
    the package; [Error] below gives the text each one carries. *)
Inductive error : Type :=
| LibraryError (msg : string)
| TransportError (step : TransportStep) (cause : error)
| HTTPStatusError (status : string)
| GraphQLErrors (joined : string)
| MalformedResponseError (what : string)
| MutationFailedError (what : string)
| QueryLoadError (label : string) (cause : error)
| ChildrenLoadError (cause : error).

Definition TransportStep_text (s : TransportStep) : string :=
  match s with
  | MarshalRequestBody => "failed to marshal request body"
  | CreateRequest => "failed to create request"
  | MakeRequest => "failed to make request"
  | DecodeResponse => "failed to decode response"
  end.

(** [err.Error()]. *)
Fixpoint Error (e : error) : string :=
  match e with
  | LibraryError msg => msg
  | TransportError step cause => TransportStep_text step +:+ ": " +:+ Error cause
  | HTTPStatusError status => "received non-OK response: " +:+ status
  | GraphQLErrors joined => "GraphQL errors: " +:+ joined
  | MalformedResponseError what => "invalid " +:+ what +:+ " format"
  | MutationFailedError what => what +:+ " was not successful"
  | QueryLoadError label cause =>
      "failed to load " +:+ label +:+ " query: " +:+ Error cause
  | ChildrenLoadError cause => "failed to load children: " +:+ Error cause
  end.

(** [strings.Join]. *)
Definition strings_Join (elems : list string) (sep : string) : string :=
  String.concat sep elems.

(** ** Embedded query documents *)

(** What the package reads from its surroundings: the embedded file set
    [graphqlFS] (the [graphql/*.graphql] documents, path to contents) and
    the verdict of [net/url] on an endpoint, which decides whether
    [http.NewRequest] accepts it. *)
Record Env : Type := mkEnv {
  graphqlFS : gmap string string;
  url_Parse_error : string -> option error
}.

Definition is_separator (c : ascii) : bool :=
  if decide (c = "/"%char) then true else false.

Fixpoint drop_separators (l : list ascii) : list ascii :=
  match l with
  | c :: l' => if is_separator c then drop_separators l' else l
  | [] => []
  end.

Fixpoint take_element (l : list ascii) : list ascii :=
  match l with
  | c :: l' => if is_separator c then [] else c :: take_element l'
  | [] => []
  end.

(** [filepath.Base]: the last element of the path, trailing separators
    removed; "." for the empty path and "/" for a path of separators. *)
Definition filepath_Base (path : string) : string :=
  match path with
  | EmptyString => "."
  | _ =>
      let stripped := drop_separators (rev (list_ascii_of_string path)) in
      match rev (take_element stripped) with
      | [] => "/"
      | last => string_of_list_ascii last
      end
  end.

(** [getGraphQLQuery] loads a GraphQL query by filename. *)
Definition getGraphQLQuery (env : Env) (filename : string)
  : string * option error :=
  let filename := filepath_Base filename in
  match graphqlFS env !! ("graphql/" +:+ filename) with
  | Some data => (data, None)
  | None =>
      ("", Some (LibraryError
                   ("open graphql/" +:+ filename +:+ ": file does not exist")))
  end.

(** ** Requests, responses and the client *)

Record GraphQLRequest : Type := mkGraphQLRequest {
  Query : string;
  Variables : option (gmap string value)
}.

Record GraphQLError : Type := mkGraphQLError {
  Message : string
}.

Record GraphQLResponse : Type := mkGraphQLResponse {
  Data : gmap string value;
  Errors : list GraphQLError
}.

(** The request put on the wire: method, endpoint, the two headers set by
    [ExecuteGraphQL], and the body before its JSON encoding. *)
Record Request : Type := mkRequest {
  Method : string;
  URL : string;
  ContentType : string;
  Authorization : string;
  Body : GraphQLRequest
}.

(** What [json.NewDecoder(resp.Body).Decode(&result)] makes of a body. *)
Inductive Decoding : Type :=
| Undecodable (err : error)
| Decoded (result : GraphQLResponse).

Record Response : Type := mkResponse {
  StatusCode : Z;
  Status : string;
  ResponseBody : Decoding
}.

(** What [httpCli.Do] returns. *)
Inductive RoundTrip : Type :=
| DoFailed (err : error)
| DoReturned (resp : Response).

Definition StatusOK : Z := 200.

(** The client.  [httpCli] answers a request given the requests that
    reached it before. *)
Record Client : Type := mkClient {
  apiKey : string;
  apiURL : string;
  httpCli : list Request -> Request -> RoundTrip
}.

(** ** Computations *)

(** A call either returns or panics; it extends the log of requests sent. *)
Inductive outcome (A : Type) : Type :=
| Returned (a : A)
| Panicked.
Arguments Returned {A} a.
Arguments Panicked {A}.

Definition M (A : Type) : Type := list Request -> outcome A * list Request.

#[global] Instance M_ret : MRet M := fun A a sent => (Returned a, sent).

#[global] Instance M_bind : MBind M := fun A B f m sent =>
  match m sent with
  | (Returned a, sent') => f a sent'
  | (Panicked, sent') => (Panicked, sent')
  end.

Definition panic {A : Type} : M A := fun sent => (Panicked, sent).

(** A step that touches no request. *)
Definition of_outcome {A : Type} (o : outcome A) : M A := fun sent => (o, sent).

(** [c.httpCli.Do(req)] *)
Definition Do (c : Client) (req : Request) : M RoundTrip :=
  fun sent => (Returned (httpCli c sent req), (sent ++ [req])%list).

(** A Go result pair [(T, error)]. *)
Definition result (T : Type) : Type := (option T * option error)%type.

(** ** JSON encoding of the request body *)

Definition unsupported_float (f : float64) : option string :=
  match f with
  | S754_nan => Some "NaN"
  | S754_infinity false => Some "+Inf"
  | S754_infinity true => Some "-Inf"
  | _ => None
  end.

(** [json.Marshal] rejects a value tree holding a float that is NaN or
    infinite, and nothing else that a [value] can hold.  The float named
    in the error is the first one met; maps are walked in the order of
    [map_fold] here and in sorted key order by Go. *)
Fixpoint json_unsupported (v : value) : option string :=
  match v with
  | VFloat f => unsupported_float f
  | VList l =>
      fold_right (fun x acc =>
                    match json_unsupported x with
                    | Some t => Some t
                    | None => acc
                    end) None l
  | VMap m =>
      map_fold (fun _ x acc =>
                  match acc with
                  | Some t => Some t
                  | None => json_unsupported x
                  end) None m
  | _ => None
  end.

Definition json_Marshal_error (reqBody : GraphQLRequest) : option error :=
  match Variables reqBody with
  | None => None
  | Some variables =>
      match json_unsupported (VMap variables) with
      | Some t => Some (LibraryError ("json: unsupported value: " +:+ t))
      | None => None
      end
  end.

(** ** ExecuteGraphQL *)

(** The request [ExecuteGraphQL] builds once [http.NewRequest] accepted
    the endpoint: a POST of the encoded body with the two headers set. *)
Definition NewRequest (c : Client) (reqBody : GraphQLRequest) : Request :=
  {| Method := "POST"; URL := apiURL c;
     ContentType := "application/json";
     Authorization := apiKey c;
     Body := reqBody |}.

(** The loop collecting [err.Message] of every entry of [result.Errors]. *)
Definition errorMsgs_of (errors : list GraphQLError) : list string :=
  fold_left (fun errorMsgs err => (errorMsgs ++ [Message err])%list) errors [].

(** [ExecuteGraphQL] makes a GraphQL request to the Linear API. *)
Definition ExecuteGraphQL (env : Env) (c : Client) (query : string)
    (variables : option (gmap string value)) : M (result GraphQLResponse) :=
  let reqBody := {| Query := query; Variables := variables |} in
  match json_Marshal_error reqBody with
  | Some err => mret (None, Some (TransportError MarshalRequestBody err))
  | None =>
  match url_Parse_error env (apiURL c) with
  | Some err => mret (None, Some (TransportError CreateRequest err))
  | None =>
      let req := NewRequest c reqBody in
      rt ← Do c req;
      match rt with
      | DoFailed err => mret (None, Some (TransportError MakeRequest err))
      | DoReturned resp =>
          match ResponseBody resp with
          | Undecodable err =>
              if negb (StatusCode resp =? StatusOK)
              then mret (None, Some (HTTPStatusError (Status resp)))
              else mret (None, Some (TransportError DecodeResponse err))
          | Decoded result =>
              if (0 <? Z.of_nat (length (Errors result)))
              then
                let errorMsgs := errorMsgs_of (Errors result) in
                mret (Some result,
                      Some (GraphQLErrors (strings_Join errorMsgs "; ")))
              else mret (Some result, None)
          end
      end
  end
  end.

(** ** Query documents written inline in the package *)

(** The format string of [GetProjects], with its one [%s] verb. *)
Definition GetProjects_format : string :=
  "query GetProjects($first: Int!) {
		projects(first: $first%s) {
			nodes {
				id
				name
				description
				icon
				color
				state
				createdAt
				updatedAt
				startedAt
				targetDate
				sortOrder
				url
				lead {
					id
					name
					email
				}
				teams {
					nodes {
						id
						name
						key
					}
				}
			}
		}
	}".

(** The mutation document of [CreateProject]. *)
Definition CreateProject_query : string :=
  "mutation CreateProject($input: ProjectCreateInput!) {
		projectCreate(input: $input) {
			success
			project {
				id
				name
				description
				icon
				color
				state
				createdAt
				updatedAt
				startedAt
				targetDate
				sortOrder
				url
				lead {
					id
					name
					email
				}
				teams {
					nodes {
						id
						name
						key
					}
				}
			}
		}
	}".

(** The mutation document of [UpdateProject]. *)
Definition UpdateProject_query : string :=
  "mutation UpdateProject($id: String!, $input: ProjectUpdateInput!) {
		projectUpdate(id: $id, input: $input) {
			success
			project {
				id
				name
				description
				icon
				color
				state
				createdAt
				updatedAt
				startedAt
				targetDate
				sortOrder
				url
				lead {
					id
					name
					email
				}
				teams {
					nodes {
						id
						name
						key
					}
				}
			}
		}
	}".

(** The query document of [GetViewer]. *)
Definition GetViewer_query : string :=
  "query {
		viewer {
			id
			name
			email
		}
	}".

(** The query document of [GetTeams]. *)
Definition GetTeams_query : string :=
  "query {
		teams {
			nodes {
				id
				name
				key
			}
		}
	}".

(** ** Blocks shared by the mappers

    The source repeats these blocks inline in every operation; each is
    written once here.  [m[key].(map[string]interface{})] guards each of
    them, and a failed assertion leaves the pointer nil. *)

(** [&WorkflowState{ID: ..., Name: ...}] from [m["state"]]. *)
Definition state_block (m : gmap string value) : option WorkflowState :=
  match as_map (index m "state") with
  | Some stateMap =>
      Some {| WorkflowState_ID := safeGetString stateMap "id";
              WorkflowState_Name := safeGetString stateMap "name" |}
  | None => None
  end.

(** [&ProjectStatus{ID: ..., Name: ...}] from [m["status"]]. *)
Definition status_block (m : gmap string value) : option ProjectStatus :=
  match as_map (index m "status") with
  | Some statusMap =>
      Some {| ProjectStatus_ID := safeGetString statusMap "id";
              ProjectStatus_Name := safeGetString statusMap "name" |}
  | None => None
  end.

(** [&User{ID: ..., Name: ..., Email: ...}] from [m[key]], for the keys
    "assignee" and "lead". *)
Definition user_block (m : gmap string value) (key : string) : option User :=
  match as_map (index m key) with
  | Some userMap =>
      Some {| User_ID := safeGetString userMap "id";
              User_Name := safeGetString userMap "name";
              User_Email := safeGetString userMap "email" |}
  | None => None
  end.

(** [&User{ID: ..., Name: ...}] from [m["assignee"]], as the two issue
    mutations build it: the Email field keeps its zero value. *)
Definition assignee_block_mutation (m : gmap string value) : option User :=
  match as_map (index m "assignee") with
  | Some assigneeMap =>
      Some {| User_ID := safeGetString assigneeMap "id";
              User_Name := safeGetString assigneeMap "name";
              User_Email := "" |}
  | None => None
  end.

(** [&Issue{ID: ..., Identifier: ..., Title: ...}] from [m["parent"]]. *)
Definition parent_block (m : gmap string value) : option Issue :=
  match as_map (index m "parent") with
  | Some parentMap =>
      Some {| Issue_ID := safeGetString parentMap "id";
              Issue_Identifier := safeGetString parentMap "identifier";
              Issue_Title := safeGetString parentMap "title";
              Issue_Description := ""; Issue_State := None;
              Issue_Assignee := None; Issue_Project := None;
              Issue_Parent := None; Issue_Children := None;
              Issue_Priority := 0; Issue_CreatedAt := "";
              Issue_UpdatedAt := ""; Issue_URL := ""; Issue_BranchName := "" |}
  | None => None
  end.

(** [&Project{ID: ..., Name: ...}] from [m["project"]]. *)
Definition project_block (m : gmap string value) : option Project :=
  match as_map (index m "project") with
  | Some projectMap =>
      Some {| Project_ID := safeGetString projectMap "id";
              Project_Name := safeGetString projectMap "name";
              Project_Description := ""; Project_Icon := "";
              Project_Color := ""; Project_State := "";
              Project_Status := None; Project_Lead := None;
              Project_Teams := None; Project_Issues := None;
              Project_CreatedAt := ""; Project_UpdatedAt := "";
              Project_StartedAt := ""; Project_TargetDate := "";
              Project_SortOrder := float64_zero; Project_URL := "" |}
  | None => None
  end.

(** The loop over [teamsNodes]: a node that is not an object is skipped. *)
Fixpoint teams_loop (teamsNodes : list value) (teams : list Team) : list Team :=
  match teamsNodes with
  | [] => teams
  | teamNode :: rest =>
      match as_map teamNode with
      | None => teams_loop rest teams
      | Some teamMap =>
          let team := {| Team_ID := safeGetString teamMap "id";
                         Team_Name := safeGetString teamMap "name";
                         Team_Key := safeGetString teamMap "key" |} in
          teams_loop rest (teams ++ [team])%list
      end
  end.

(** [project.Teams] from [m["teams"]["nodes"]]; nil unless both are of the
    expected shape. *)
Definition teams_block (m : gmap string value) : option (list Team) :=
  match as_map (index m "teams") with
  | Some teamsMap =>
      match as_list (index teamsMap "nodes") with
      | Some teamsNodes => Some (teams_loop teamsNodes [])
      | None => None
      end
  | None => None
  end.

(** The struct literal shared by the list of team issues and the list of
    children, followed by the state and assignee blocks. *)
Definition list_issue_of (nodeMap : gmap string value) : Issue :=
  {| Issue_ID := safeGetString nodeMap "id";
     Issue_Identifier := safeGetString nodeMap "identifier";
     Issue_Title := safeGetString nodeMap "title";
     Issue_Description := safeGetString nodeMap "description";
     Issue_State := state_block nodeMap;
     Issue_Assignee := user_block nodeMap "assignee";
     Issue_Project := None;
     Issue_Parent := None;
     Issue_Children := None;
     Issue_Priority := safeGetInt nodeMap "priority";
     Issue_CreatedAt := safeGetString nodeMap "createdAt";
     Issue_UpdatedAt := safeGetString nodeMap "updatedAt";
     Issue_URL := "";
     Issue_BranchName := safeGetString nodeMap "branchName" |}.

(** The struct literal of [GetIssue], with its state, assignee and parent
    blocks. *)
Definition detailed_issue_of (issueData : gmap string value) : Issue :=
  {| Issue_ID := safeGetString issueData "id";
     Issue_Identifier := safeGetString issueData "identifier";
     Issue_Title := safeGetString issueData "title";
     Issue_Description := safeGetString issueData "description";
     Issue_State := state_block issueData;
     Issue_Assignee := user_block issueData "assignee";
     Issue_Project := None;
     Issue_Parent := parent_block issueData;
     Issue_Children := None;
     Issue_Priority := safeGetInt issueData "priority";
     Issue_CreatedAt := safeGetString issueData "createdAt";
     Issue_UpdatedAt := safeGetString issueData "updatedAt";
     Issue_URL := safeGetString issueData "url";
     Issue_BranchName := safeGetString issueData "branchName" |}.

(** The struct literal of [CreateIssue] and [UpdateIssue], with their
    state, assignee, project and parent blocks. *)
Definition mutated_issue_of (issueData : gmap string value) : Issue :=
  {| Issue_ID := safeGetString issueData "id";
     Issue_Identifier := safeGetString issueData "identifier";
     Issue_Title := safeGetString issueData "title";
     Issue_Description := safeGetString issueData "description";
     Issue_State := state_block issueData;
     Issue_Assignee := assignee_block_mutation issueData;
     Issue_Project := project_block issueData;
     Issue_Parent := parent_block issueData;
     Issue_Children := None;
     Issue_Priority := safeGetInt issueData "priority";
     Issue_CreatedAt := "";
     Issue_UpdatedAt := "";
     Issue_URL := safeGetString issueData "url";
     Issue_BranchName := safeGetString issueData "branchName" |}.

(** The struct literal shared by the project operations, with their lead
    and teams blocks. *)
Definition project_of (projectData : gmap string value) : Project :=
  {| Project_ID := safeGetString projectData "id";
     Project_Name := safeGetString projectData "name";
     Project_Description := safeGetString projectData "description";
     Project_Icon := safeGetString projectData "icon";
     Project_Color := safeGetString projectData "color";
     Project_State := safeGetString projectData "state";
     Project_Status := None;
     Project_Lead := user_block projectData "lead";
     Project_Teams := teams_block projectData;
     Project_Issues := None;
     Project_CreatedAt := safeGetString projectData "createdAt";
     Project_UpdatedAt := safeGetString projectData "updatedAt";
     Project_StartedAt := safeGetString projectData "startedAt";
     Project_TargetDate := safeGetString projectData "targetDate";
     Project_SortOrder := safeGetFloat64 projectData "sortOrder";
     Project_URL := safeGetString projectData "url" |}.

(** [issue.Children = children] *)
Definition set_Children (issue : Issue) (children : option (list Issue)) : Issue :=
  {| Issue_ID := Issue_ID issue;
     Issue_Identifier := Issue_Identifier issue;
     Issue_Title := Issue_Title issue;
     Issue_Description := Issue_Description issue;
     Issue_State := Issue_State issue;
     Issue_Assignee := Issue_Assignee issue;
     Issue_Project := Issue_Project issue;
     Issue_Parent := Issue_Parent issue;
     Issue_Children := children;
     Issue_Priority := Issue_Priority issue;
     Issue_CreatedAt := Issue_CreatedAt issue;
     Issue_UpdatedAt := Issue_UpdatedAt issue;
     Issue_URL := Issue_URL issue;
     Issue_BranchName := Issue_BranchName issue |}.

(** ** Issue operations *)

(** [GetTeamIssuesOptions] contains optional parameters for getting team
    issues. *)
Record GetTeamIssuesOptions : Type := mkGetTeamIssuesOptions {
  GetTeamIssuesOptions_First : Z
}.

(** The loop of [GetTeamIssues] over [nodesData]; a node that is not an
    object aborts the call. *)
Fixpoint GetTeamIssues_loop (nodesData : list value) (issues : list Issue)
  : result (list Issue) :=
  match nodesData with
  | [] => (Some issues, None)
  | node :: rest =>
      match as_map node with
      | None => (None, Some (MalformedResponseError "issue node"))
      | Some nodeMap =>
          GetTeamIssues_loop rest (issues ++ [list_issue_of nodeMap])%list
      end
  end.

(** [GetTeamIssues] returns issues for a specific team. *)
Definition GetTeamIssues (env : Env) (c : Client) (teamID : string)
    (opts : option GetTeamIssuesOptions) : M (result (list Issue)) :=
  let variables : gmap string value := {[ "teamId" := VString teamID ]} in
  let first :=
    match opts with
    | Some o =>
        if (0 <? GetTeamIssuesOptions_First o)
           && (GetTeamIssuesOptions_First o <=? 100)
        then GetTeamIssuesOptions_First o else 50
    | None => 50
    end in
  let variables := <[ "first" := VInt first ]> variables in
  match getGraphQLQuery env "get_team_issues.graphql" with
  | (_, Some err) => mret (None, Some (QueryLoadError "GetTeamIssues" err))
  | (query, None) =>
      r ← ExecuteGraphQL env c query (Some variables);
      match r with
      | (_, Some err) => mret (None, Some err)
      | (None, None) => panic
      | (Some resp, None) =>
          match as_map (index (Data resp) "team") with
          | None => mret (None, Some (MalformedResponseError "team data"))
          | Some teamData =>
          match as_map (index teamData "issues") with
          | None => mret (None, Some (MalformedResponseError "issues data"))
          | Some issuesData =>
          match as_list (index issuesData "nodes") with
          | None => mret (None, Some (MalformedResponseError "issues nodes"))
          | Some nodesData => mret (GetTeamIssues_loop nodesData [])
          end end end
      end
  end.

(** [GetIssueChildrenOptions] contains optional parameters for getting
    issue children. *)
Record GetIssueChildrenOptions : Type := mkGetIssueChildrenOptions {
  GetIssueChildrenOptions_First : Z
}.

(** The loop of [GetIssueChildren] over [nodesData]. *)
Fixpoint GetIssueChildren_loop (nodesData : list value) (children : list Issue)
  : result (list Issue) :=
  match nodesData with
  | [] => (Some children, None)
  | node :: rest =>
      match as_map node with
      | None => (None, Some (MalformedResponseError "child node"))
      | Some nodeMap =>
          GetIssueChildren_loop rest (children ++ [list_issue_of nodeMap])%list
      end
  end.

(** [GetIssueChildren] returns child issues (sub-issues) for a specific
    issue. *)
Definition GetIssueChildren (env : Env) (c : Client) (issueID : string)
    (opts : option GetIssueChildrenOptions) : M (result (list Issue)) :=
  let variables : gmap string value := {[ "id" := VString issueID ]} in
  let first :=
    match opts with
    | Some o =>
        if (0 <? GetIssueChildrenOptions_First o)
           && (GetIssueChildrenOptions_First o <=? 100)
        then GetIssueChildrenOptions_First o else 50
    | None => 50
    end in
  let variables := <[ "first" := VInt first ]> variables in
  match getGraphQLQuery env "get_issue_children.graphql" with
  | (_, Some err) => mret (None, Some (QueryLoadError "GetIssueChildren" err))
  | (query, None) =>
      r ← ExecuteGraphQL env c query (Some variables);
      match r with
      | (_, Some err) => mret (None, Some err)
      | (None, None) => panic
      | (Some resp, None) =>
          match as_map (index (Data resp) "issue") with
          | None => mret (None, Some (MalformedResponseError "issue data"))
          | Some issueData =>
          match as_map (index issueData "children") with
          | None => mret (None, Some (MalformedResponseError "children data"))
          | Some childrenData =>
          match as_list (index childrenData "nodes") with
          | None => mret (None, Some (MalformedResponseError "children nodes"))
          | Some nodesData => mret (GetIssueChildren_loop nodesData [])
          end end end
      end
  end.

(** [GetIssueOptions] contains optional parameters for getting issue
    details. *)
Record GetIssueOptions : Type := mkGetIssueOptions {
  IncludeChildren : bool;
  ChildrenFirst : Z
}.

(** [GetIssue] returns details of a specific issue by ID. *)
Definition GetIssue (env : Env) (c : Client) (issueID : string)
    (opts : option GetIssueOptions) : M (result Issue) :=
  let variables : gmap string value := {[ "id" := VString issueID ]} in
  match getGraphQLQuery env "get_issue.graphql" with
  | (_, Some err) => mret (None, Some (QueryLoadError "GetIssue" err))
  | (query, None) =>
      r ← ExecuteGraphQL env c query (Some variables);
      match r with
      | (_, Some err) => mret (None, Some err)
      | (None, None) => panic
      | (Some resp, None) =>
          match as_map (index (Data resp) "issue") with
          | None => mret (None, Some (MalformedResponseError "issue data"))
          | Some issueData =>
              let issue := detailed_issue_of issueData in
              (* opts != nil && opts.IncludeChildren *)
              match opts with
              | Some o =>
                  if IncludeChildren o then
                    let childrenOpts :=
                      {| GetIssueChildrenOptions_First :=
                           if (0 <? ChildrenFirst o) && (ChildrenFirst o <=? 100)
                           then ChildrenFirst o else 50 |} in
                    rc ← GetIssueChildren env c issueID (Some childrenOpts);
                    match rc with
                    | (_, Some err) =>
                        mret (Some issue, Some (ChildrenLoadError err))
                    | (children, None) =>
                        mret (Some (set_Children issue children), None)
                    end
                  else mret (Some issue, None)
              | None => mret (Some issue, None)
              end
          end
      end
  end.

(** [CreateIssueInput] represents input for creating a new issue. *)
Record CreateIssueInput : Type := mkCreateIssueInput {
  CreateIssueInput_TeamID : string;
  CreateIssueInput_Title : string;
  CreateIssueInput_Description : string;
  CreateIssueInput_Priority : Z;
  CreateIssueInput_StateID : string;
  CreateIssueInput_AssigneeID : string;
  CreateIssueInput_ProjectID : string;
  CreateIssueInput_ParentID : string
}.

(** [if s != "" { inputObj[key] = s }] *)
Definition put_nonempty (key s : string) (inputObj : gmap string value)
  : gmap string value :=
  if decide (s = "") then inputObj else <[ key := VString s ]> inputObj.

(** [if p != nil { inputObj[key] = *p }] *)
Definition put_present (key : string) (p : option string)
    (inputObj : gmap string value) : gmap string value :=
  match p with
  | Some s => <[ key := VString s ]> inputObj
  | None => inputObj
  end.

(** [if len(ids) > 0 { inputObj["teamIds"] = ids }] *)
Definition put_teamIds (ids : list string) (inputObj : gmap string value)
  : gmap string value :=
  if (0 <? Z.of_nat (length ids)) then <[ "teamIds" := VStrings ids ]> inputObj
  else inputObj.

(** The variables of [CreateIssue].  [inputObj] aliases the map stored
    under "input", so the optional fields land inside [variables]. *)
Definition CreateIssue_variables (input : CreateIssueInput) : gmap string value :=
  let inputObj : gmap string value :=
    {[ "teamId" := VString (CreateIssueInput_TeamID input);
       "title" := VString (CreateIssueInput_Title input);
       "description" := VString (CreateIssueInput_Description input) ]} in
  let inputObj :=
    if 0 <? CreateIssueInput_Priority input
    then <[ "priority" := VInt (CreateIssueInput_Priority input) ]> inputObj
    else inputObj in
  let inputObj := put_nonempty "stateId" (CreateIssueInput_StateID input) inputObj in
  let inputObj := put_nonempty "assigneeId" (CreateIssueInput_AssigneeID input) inputObj in
  let inputObj := put_nonempty "projectId" (CreateIssueInput_ProjectID input) inputObj in
  let inputObj := put_nonempty "parentId" (CreateIssueInput_ParentID input) inputObj in
  {[ "input" := VMap inputObj ]}.

(** The part of the two issue mutations after [ExecuteGraphQL] returned
    without error: the container, its [success] flag, then the issue. *)
Definition issue_mutation_result (resp : GraphQLResponse)
    (container what : string) : result Issue :=
  match as_map (index (Data resp) container) with
  | None => (None, Some (MalformedResponseError (container +:+ " data")))
  | Some mutationData =>
      match as_bool (index mutationData "success") with
      | Some true =>
          match as_map (index mutationData "issue") with
          | None => (None, Some (MalformedResponseError "issue data"))
          | Some issueData => (Some (mutated_issue_of issueData), None)
          end
      | _ => (None, Some (MutationFailedError what))
      end
  end.

(** [CreateIssue] creates a new issue in Linear. *)
Definition CreateIssue (env : Env) (c : Client) (input : CreateIssueInput)
  : M (result Issue) :=
  let variables := CreateIssue_variables input in
  match getGraphQLQuery env "create_issue.graphql" with
  | (_, Some err) => mret (None, Some (QueryLoadError "CreateIssue" err))
  | (query, None) =>
      r ← ExecuteGraphQL env c query (Some variables);
      match r with
      | (_, Some err) => mret (None, Some err)
      | (None, None) => panic
      | (Some resp, None) =>
          mret (issue_mutation_result resp "issueCreate" "issue creation")
      end
  end.

(** [UpdateIssueInput] represents input for updating an issue. *)
Record UpdateIssueInput : Type := mkUpdateIssueInput {
  UpdateIssueInput_Title : option string;
  UpdateIssueInput_Description : option string;
  UpdateIssueInput_Priority : option Z;
  UpdateIssueInput_StateID : option string;
  UpdateIssueInput_AssigneeID : option string;
  UpdateIssueInput_ProjectID : option string;
  UpdateIssueInput_ParentID : option string
}.

Definition UpdateIssue_variables (issueID : string) (input : UpdateIssueInput)
  : gmap string value :=
  let inputObj : gmap string value := ∅ in
  let inputObj := put_present "title" (UpdateIssueInput_Title input) inputObj in
  let inputObj := put_present "description" (UpdateIssueInput_Description input) inputObj in
  let inputObj :=
    match UpdateIssueInput_Priority input with
    | Some p => <[ "priority" := VInt p ]> inputObj
    | None => inputObj
    end in
  let inputObj := put_present "stateId" (UpdateIssueInput_StateID input) inputObj in
  let inputObj := put_present "assigneeId" (UpdateIssueInput_AssigneeID input) inputObj in
  let inputObj := put_present "projectId" (UpdateIssueInput_ProjectID input) inputObj in
  let inputObj := put_present "parentId" (UpdateIssueInput_ParentID input) inputObj in
  {[ "id" := VString issueID; "input" := VMap inputObj ]}.

(** [UpdateIssue] updates an existing issue in Linear. *)
Definition UpdateIssue (env : Env) (c : Client) (issueID : string)
    (input : UpdateIssueInput) : M (result Issue) :=
  let variables := UpdateIssue_variables issueID input in
  match getGraphQLQuery env "update_issue.graphql" with
  | (_, Some err) => mret (None, Some (QueryLoadError "UpdateIssue" err))
  | (query, None) =>
      r ← ExecuteGraphQL env c query (Some variables);
      match r with
      | (_, Some err) => mret (None, Some err)
      | (None, None) => panic
      | (Some resp, None) =>
          mret (issue_mutation_result resp "issueUpdate" "issue update")
      end
  end.

(** ** Project operations *)

Definition percent : ascii := "%"%char.
Definition verb_s : ascii := "s"%char.

(** [fmt.Sprintf(format, arg)] with one string operand, for formats whose
    verbs are [%s] and [%%]: the first [%s] is replaced by the operand, a
    later one has no operand left, and an operand that no verb consumed
    is reported after the text. *)
Fixpoint Sprintf1 (format : string) (arg : option string) : string :=
  match format with
  | EmptyString =>
      match arg with
      | Some a => "%!(EXTRA string=" +:+ a +:+ ")"
      | None => ""
      end
  | String c rest =>
      if Ascii.eqb c percent then
        match rest with
        | String d rest' =>
            if Ascii.eqb d verb_s then
              match arg with
              | Some a => a +:+ Sprintf1 rest' None
              | None => "%!s(MISSING)" +:+ Sprintf1 rest' None
              end
            else if Ascii.eqb d percent then String percent (Sprintf1 rest' arg)
            else String c (Sprintf1 rest arg)
        | EmptyString => "%!(NOVERB)" +:+ Sprintf1 rest arg
        end
      else String c (Sprintf1 rest arg)
  end.

(** The double quote character. *)
Definition dquote : string := String (ascii_of_nat 34) EmptyString.

(** [GetProjectsOptions] contains optional parameters for listing
    projects. *)
Record GetProjectsOptions : Type := mkGetProjectsOptions {
  GetProjectsOptions_First : Z;
  GetProjectsOptions_State : string
}.

(** [filterClause] of [GetProjects]. *)
Definition GetProjects_filterClause (opts : option GetProjectsOptions) : string :=
  match opts with
  | Some o =>
      if decide (GetProjectsOptions_State o = "") then ""
      else ", filter: { state: { eq: " +:+ dquote
           +:+ GetProjectsOptions_State o +:+ dquote +:+ " } }"
  | None => ""
  end.

(** [query] of [GetProjects]. *)
Definition GetProjects_query (opts : option GetProjectsOptions) : string :=
  Sprintf1 GetProjects_format (Some (GetProjects_filterClause opts)).

(** The loop of [GetProjects] over [nodesData]. *)
Fixpoint GetProjects_loop (nodesData : list value) (projects : list Project)
  : result (list Project) :=
  match nodesData with
  | [] => (Some projects, None)
  | node :: rest =>
      match as_map node with
      | None => (None, Some (MalformedResponseError "project node"))
      | Some nodeMap =>
          GetProjects_loop rest (projects ++ [project_of nodeMap])%list
      end
  end.

(** [GetProjects] returns all projects in the Linear workspace with
    optional filtering. *)
Definition GetProjects (env : Env) (c : Client)
    (opts : option GetProjectsOptions) : M (result (list Project)) :=
  let variables : gmap string value := ∅ in
  let first :=
    match opts with
    | Some o =>
        if (0 <? GetProjectsOptions_First o)
           && (GetProjectsOptions_First o <=? 100)
        then GetProjectsOptions_First o else 50
    | None => 50
    end in
  let variables := <[ "first" := VInt first ]> variables in
  let query := GetProjects_query opts in
  r ← ExecuteGraphQL env c query (Some variables);
  match r with
  | (_, Some err) => mret (None, Some err)
  | (None, None) => panic
  | (Some resp, None) =>
      match as_map (index (Data resp) "projects") with
      | None => mret (None, Some (MalformedResponseError "projects data"))
      | Some projectsData =>
      match as_list (index projectsData "nodes") with
      | None => mret (None, Some (MalformedResponseError "projects nodes"))
      | Some nodesData => mret (GetProjects_loop nodesData [])
      end end
  end.

(** [CreateProjectInput] represents input for creating a new project. *)
Record CreateProjectInput : Type := mkCreateProjectInput {
  CreateProjectInput_Name : string;
  CreateProjectInput_Description : string;
  CreateProjectInput_Icon : string;
  CreateProjectInput_Color : string;
  CreateProjectInput_State : string;
  CreateProjectInput_TeamIDs : list string;
  CreateProjectInput_LeadID : string;
  CreateProjectInput_StartDate : string;
  CreateProjectInput_TargetDate : string
}.

Definition CreateProject_variables (input : CreateProjectInput)
  : gmap string value :=
  let inputObj : gmap string value :=
    {[ "name" := VString (CreateProjectInput_Name input);
       "description" := VString (CreateProjectInput_Description input) ]} in
  let inputObj := put_nonempty "icon" (CreateProjectInput_Icon input) inputObj in
  let inputObj := put_nonempty "color" (CreateProjectInput_Color input) inputObj in
  let inputObj := put_nonempty "state" (CreateProjectInput_State input) inputObj in
  let inputObj := put_teamIds (CreateProjectInput_TeamIDs input) inputObj in
  let inputObj := put_nonempty "leadId" (CreateProjectInput_LeadID input) inputObj in
  let inputObj := put_nonempty "startDate" (CreateProjectInput_StartDate input) inputObj in
  let inputObj := put_nonempty "targetDate" (CreateProjectInput_TargetDate input) inputObj in
  {[ "input" := VMap inputObj ]}.

(** The part of the two project mutations after [ExecuteGraphQL] returned
    without error. *)
Definition project_mutation_result (resp : GraphQLResponse)
    (container what : string) : result Project :=
  match as_map (index (Data resp) container) with
  | None => (None, Some (MalformedResponseError (container +:+ " data")))
  | Some mutationData =>
      match as_bool (index mutationData "success") with
      | Some true =>
          match as_map (index mutationData "project") with
          | None => (None, Some (MalformedResponseError "project data"))
          | Some projectData => (Some (project_of projectData), None)
          end
      | _ => (None, Some (MutationFailedError what))
      end
  end.

(** [CreateProject] creates a new project in Linear. *)
Definition CreateProject (env : Env) (c : Client) (input : CreateProjectInput)
  : M (result Project) :=
  let variables := CreateProject_variables input in
  let query := CreateProject_query in
  r ← ExecuteGraphQL env c query (Some variables);
  match r with
  | (_, Some err) => mret (None, Some err)
  | (None, None) => panic
  | (Some resp, None) =>
      mret (project_mutation_result resp "projectCreate" "project creation")
  end.

(** [UpdateProjectInput] represents input for updating an existing
    project. *)
Record UpdateProjectInput : Type := mkUpdateProjectInput {
  UpdateProjectInput_Name : option string;
  UpdateProjectInput_Description : option string;
  UpdateProjectInput_Icon : option string;
  UpdateProjectInput_Color : option string;
  UpdateProjectInput_State : option string;
  UpdateProjectInput_TeamIDs : list string;
  UpdateProjectInput_LeadID : option string;
  UpdateProjectInput_StartDate : option string;
  UpdateProjectInput_TargetDate : option string
}.

Definition UpdateProject_variables (projectID : string)
    (input : UpdateProjectInput) : gmap string value :=
  let inputObj : gmap string value := ∅ in
  let inputObj := put_present "name" (UpdateProjectInput_Name input) inputObj in
  let inputObj := put_present "description" (UpdateProjectInput_Description input) inputObj in
  let inputObj := put_present "icon" (UpdateProjectInput_Icon input) inputObj in
  let inputObj := put_present "color" (UpdateProjectInput_Color input) inputObj in
  let inputObj := put_present "state" (UpdateProjectInput_State input) inputObj in
  let inputObj := put_teamIds (UpdateProjectInput_TeamIDs input) inputObj in
  let inputObj := put_present "leadId" (UpdateProjectInput_LeadID input) inputObj in
  let inputObj := put_present "startDate" (UpdateProjectInput_StartDate input) inputObj in
  let inputObj := put_present "targetDate" (UpdateProjectInput_TargetDate input) inputObj in
  {[ "id" := VString projectID; "input" := VMap inputObj ]}.

(** [UpdateProject] updates an existing project in Linear. *)
Definition UpdateProject (env : Env) (c : Client) (projectID : string)
    (input : UpdateProjectInput) : M (result Project) :=
  let variables := UpdateProject_variables projectID input in
  let query := UpdateProject_query in
  r ← ExecuteGraphQL env c query (Some variables);
  match r with
  | (_, Some err) => mret (None, Some err)
  | (None, None) => panic
  | (Some resp, None) =>
      mret (project_mutation_result resp "projectUpdate" "project update")
  end.

(** [GetProjectIssuesOptions] contains optional parameters for fetching
    project issues. *)
Record GetProjectIssuesOptions : Type := mkGetProjectIssuesOptions {
  GetProjectIssuesOptions_First : Z
}.

(** The loop of [GetProjectIssues] over [nodesData]: a node that is not an
    object is skipped. *)
Fixpoint GetProjectIssues_loop (nodesData : list value) (issues : list Issue)
  : list Issue :=
  match nodesData with
  | [] => issues
  | node :: rest =>
      match as_map node with
      | None => GetProjectIssues_loop rest issues
      | Some nodeMap =>
          let issue :=
            {| Issue_ID := safeGetString nodeMap "id";
               Issue_Identifier := "";
               Issue_Title := safeGetString nodeMap "title";
               Issue_Description := safeGetString nodeMap "description";
               Issue_State := None;
               Issue_Assignee := user_block nodeMap "assignee";
               Issue_Project := None; Issue_Parent := None;
               Issue_Children := None; Issue_Priority := 0;
               Issue_CreatedAt := ""; Issue_UpdatedAt := "";
               Issue_URL := ""; Issue_BranchName := "" |} in
          GetProjectIssues_loop rest (issues ++ [issue])%list
      end
  end.

(** [GetProjectIssues] returns issues for a specific project. *)
Definition GetProjectIssues (env : Env) (c : Client) (projectID : string)
    (opts : option GetProjectIssuesOptions) : M (result ProjectWithIssues) :=
  match getGraphQLQuery env "get_project_issues.graphql" with
  | (_, Some err) => mret (None, Some (QueryLoadError "GraphQL" err))
  | (query, None) =>
      let variables : gmap string value :=
        {[ "projectId" := VString projectID ]} in
      r ← ExecuteGraphQL env c query (Some variables);
      match r with
      | (_, Some err) => mret (None, Some err)
      | (None, None) => panic
      | (Some resp, None) =>
          match as_map (index (Data resp) "project") with
          | None => mret (None, Some (MalformedResponseError "project data"))
          | Some projectData =>
              let project :=
                {| ProjectWithIssues_ID := safeGetString projectData "id";
                   ProjectWithIssues_Status := status_block projectData;
                   ProjectWithIssues_Issues :=
                     match as_map (index projectData "issues") with
                     | Some issuesData =>
                         match as_list (index issuesData "nodes") with
                         | Some nodesData =>
                             Some (GetProjectIssues_loop nodesData [])
                         | None => None
                         end
                     | None => None
                     end |} in
              mret (Some project, None)
          end
      end
  end.

(** ** User and team operations *)

(** [GetViewer] returns information about the authenticated user.  The
    three fields are read with unchecked assertions [x.(string)], which
    panic on anything but a string. *)
Definition GetViewer (env : Env) (c : Client) : M (result User) :=
  let query := GetViewer_query in
  r ← ExecuteGraphQL env c query None;
  match r with
  | (_, Some err) => mret (None, Some err)
  | (None, None) => panic
  | (Some resp, None) =>
      match as_map (index (Data resp) "viewer") with
      | None => mret (None, Some (MalformedResponseError "viewer data"))
      | Some viewerData =>
          match as_string (index viewerData "id") with
          | None => panic
          | Some id =>
          match as_string (index viewerData "name") with
          | None => panic
          | Some name =>
          match as_string (index viewerData "email") with
          | None => panic
          | Some email =>
              mret (Some {| User_ID := id; User_Name := name;
                            User_Email := email |}, None)
          end end end
      end
  end.

(** The loop of [GetTeams] over [nodesData], with the same unchecked
    assertions on the three fields of a team. *)
Fixpoint GetTeams_loop (nodesData : list value) (teams : list Team)
  : outcome (result (list Team)) :=
  match nodesData with
  | [] => Returned (Some teams, None)
  | node :: rest =>
      match as_map node with
      | None => Returned (None, Some (MalformedResponseError "team node"))
      | Some nodeMap =>
          match as_string (index nodeMap "id") with
          | None => Panicked
          | Some id =>
          match as_string (index nodeMap "name") with
          | None => Panicked
          | Some name =>
          match as_string (index nodeMap "key") with
          | None => Panicked
          | Some key =>
              let team := {| Team_ID := id; Team_Name := name;
                             Team_Key := key |} in
              GetTeams_loop rest (teams ++ [team])%list
          end end end
      end
  end.

(** [GetTeams] returns all teams in the Linear workspace. *)
Definition GetTeams (env : Env) (c : Client) : M (result (list Team)) :=
  let query := GetTeams_query in
  r ← ExecuteGraphQL env c query None;
  match r with
  | (_, Some err) => mret (None, Some err)
  | (None, None) => panic
  | (Some resp, None) =>
      match as_map (index (Data resp) "teams") with
      | None => mret (None, Some (MalformedResponseError "teams data"))
      | Some teamsData =>
      match as_list (index teamsData "nodes") with
      | None => mret (None, Some (MalformedResponseError "teams nodes"))
      | Some nodesData => of_outcome (GetTeams_loop nodesData [])
      end end
  end.

(** [GetTeamProjectsOptions] contains optional parameters for listing team
    projects. *)
Record GetTeamProjectsOptions : Type := mkGetTeamProjectsOptions {
  GetTeamProjectsOptions_First : Z
}.

(** The loop of [GetTeamProjects] over [nodesData]. *)
Fixpoint GetTeamProjects_loop (nodesData : list value)
    (projects : list TeamProject) : result (list TeamProject) :=
  match nodesData with
  | [] => (Some projects, None)
  | node :: rest =>
      match as_map node with
      | None => (None, Some (MalformedResponseError "project node"))
      | Some nodeMap =>
          let project :=
            {| TeamProject_ID := safeGetString nodeMap "id";
               TeamProject_Name := safeGetString nodeMap "name";
               TeamProject_SlugID := safeGetString nodeMap "slugId";
               TeamProject_Status := status_block nodeMap |} in
          GetTeamProjects_loop rest (projects ++ [project])%list
      end
  end.

(** [GetTeamProjects] returns all projects for a specific team. *)
Definition GetTeamProjects (env : Env) (c : Client) (teamID : string)
    (opts : option GetTeamProjectsOptions) : M (result (list TeamProject)) :=
  match getGraphQLQuery env "get_team_projects.graphql" with
  | (_, Some err) => mret (None, Some (QueryLoadError "GraphQL" err))
  | (query, None) =>
      let variables : gmap string value := {[ "teamId" := VString teamID ]} in
      r ← ExecuteGraphQL env c query (Some variables);
      match r with
      | (_, Some err) => mret (None, Some err)
      | (None, None) => panic
      | (Some resp, None) =>
          match as_map (index (Data resp) "team") with
          | None => mret (None, Some (MalformedResponseError "team data"))
          | Some teamData =>
          match as_map (index teamData "projects") with
          | None => mret (None, Some (MalformedResponseError "projects data"))
          | Some projectsData =>
          match as_list (index projectsData "nodes") with
          | None => mret (None, Some (MalformedResponseError "projects nodes"))
          | Some nodesData => mret (GetTeamProjects_loop nodesData [])
          end end end
      end
  end.

(** ** Vocabulary of the statements *)

(** The requests a call puts on the wire, given those sent before it. *)
Definition issued {A : Type} (m : M A) (sent : list Request) : list Request :=
  drop (length sent) (snd (m sent)).

(** The request carries the variable [first] with the value [n]. *)
Definition sends_first (n : Z) (req : Request) : Prop :=
  exists variables,
    Variables (Body req) = Some variables /\ variables !! "first" = Some (VInt n).

(** The request carries variables, and no variable [first] among them. *)
Definition sends_no_first (req : Request) : Prop :=
  exists variables,
    Variables (Body req) = Some variables /\ variables !! "first" = None.

(** The page size the list operations compute from [opts.First]; [None]
    stands for nil options. *)
Definition page_size (First : option Z) : Z :=
  match First with
  | Some n => if (0 <? n) && (n <=? 100) then n else 50
  | None => 50
  end.

(** Following a chain of keys through nested objects. *)
Fixpoint descend (data : gmap string value) (path : list string)
  : option (gmap string value) :=
  match path with
  | [] => Some data
  | key :: rest =>
      match as_map (index data key) with
      | Some m => descend m rest
      | None => None
      end
  end.

(** The [nodes] array of the container reached by [path], when the
    container and the array are both there and of the expected shape. *)
Definition nodes_at (data : gmap string value) (path : list string)
  : option (list value) :=
  match descend data path with
  | Some container => as_list (index container "nodes")
  | None => None
  end.

(** The name by which the error text refers to the first element that is
    absent or of the wrong shape on the way to a [nodes] array: [path]
    pairs each key with the name of its container, [nodes_name] names the
    array. *)
Fixpoint first_missing (data : gmap string value)
    (path : list (string * string)) (nodes_name : string) : string :=
  match path with
  | [] => nodes_name
  | (key, name) :: rest =>
      match as_map (index data key) with
      | Some m => first_missing m rest nodes_name
      | None => name
      end
  end.

(** The kinds of the error taxonomy. *)
Definition is_MalformedResponseError (e : error) : Prop :=
  match e with MalformedResponseError _ => True | _ => False end.

Definition is_MutationFailedError (e : error) : Prop :=
  match e with MutationFailedError _ => True | _ => False end.


(** The text of the format of [GetProjects] before and after its verb. *)
Definition GetProjects_before : string :=
  "query GetProjects($first: Int!) {
		projects(first: $first".

Definition GetProjects_after : string :=
  ") {
			nodes {
				id
				name
				description
				icon
				color
				state
				createdAt
				updatedAt
				startedAt
				targetDate
				sortOrder
				url
				lead {
					id
					name
					email
				}
				teams {
					nodes {
						id
						name
						key
					}
				}
			}
		}
	}".

(** What [ExecuteGraphQL] makes of the answer to its request. *)
Definition reading (rt : RoundTrip) : result GraphQLResponse :=
  match rt with
  | DoFailed err => (None, Some (TransportError MakeRequest err))
  | DoReturned resp =>
      match ResponseBody resp with
      | Undecodable err =>
          if StatusCode resp =? StatusOK
          then (None, Some (TransportError DecodeResponse err))
          else (None, Some (HTTPStatusError (Status resp)))
      | Decoded result =>
          match Errors result with
          | [] => (Some result, None)
          | _ :: _ =>
              (Some result,
               Some (GraphQLErrors
                       (strings_Join (map Message (Errors result)) "; ")))
          end
      end
  end.

(** A computation that puts nothing on the wire. *)
Definition quiet {A : Type} (m : M A) : Prop :=
  forall sent, snd (m sent) = sent.

(** The text holds no percent sign. *)
Fixpoint no_percent (s : string) : bool :=
  match s with
  | EmptyString => true
  | String c rest => negb (Ascii.eqb c percent) && no_percent rest
  end.

(** The error an operation reports for a decoded response that passed
    through [ExecuteGraphQL]: the combined GraphQL error when the response
    lists errors, and [otherwise], the verdict of the mapper, when not. *)
Definition failure_of (resp : GraphQLResponse) (otherwise : error) : error :=
  match Errors resp with
  | [] => otherwise
  | _ :: _ => GraphQLErrors (strings_Join (map Message (Errors resp)) "; ")
  end.

(** The two requests of [GetIssue]: the primary fetch, and the fetch of
    the children with a page size. *)
Definition primary_request (c : Client) (query issueID : string) : Request :=
  NewRequest c (mkGraphQLRequest query (Some {[ "id" := VString issueID ]})).

Definition children_request (c : Client) (query issueID : string) (first : Z)
  : Request :=
  NewRequest c
    (mkGraphQLRequest query
       (Some (<[ "first" := VInt first ]> {[ "id" := VString issueID ]}))).

(** The options [GetIssue] hands to [GetIssueChildren]. *)
Definition childrenOpts_of (o : GetIssueOptions) : GetIssueChildrenOptions :=
  {| GetIssueChildrenOptions_First := page_size (Some (ChildrenFirst o)) |}.

(** ** Sample surroundings, for the concrete instances below *)

(** An embedded file set holding every document the operations load. *)
Definition sample_env : Env :=
  {| graphqlFS :=
       list_to_map
         [("graphql/get_team_issues.graphql", "query GetTeamIssues");
          ("graphql/get_issue.graphql", "query GetIssue");
          ("graphql/get_issue_children.graphql", "query GetIssueChildren");
          ("graphql/create_issue.graphql", "mutation CreateIssue");
          ("graphql/update_issue.graphql", "mutation UpdateIssue");
          ("graphql/get_project_issues.graphql", "query GetProjectIssues");
          ("graphql/get_team_projects.graphql", "query GetTeamProjects")];
     url_Parse_error := fun _ => None |}.

(** A peer that answers the n-th request it sees with the n-th entry of
    a script, and drops the connection once the script is used up. *)
Definition scripted (answers : list RoundTrip) : list Request -> Request -> RoundTrip :=
  fun sent _ =>
    nth (length sent) answers (DoFailed (LibraryError "connection reset")).

Definition sample_client (answers : list RoundTrip) : Client :=
  {| apiKey := "lin_api_key";
     apiURL := "https://api.linear.app/graphql";
     httpCli := scripted answers |}.

(** An endpoint that [net/url] rejects. *)
Definition broken_url_env : Env :=
  {| graphqlFS := graphqlFS sample_env;
     url_Parse_error := fun _ =>
       Some (LibraryError "parse: first path segment in URL cannot contain colon") |}.

(** Answers with a body that is no JSON, under status 200 and under 502;
    an answer with a JSON body under status 500. *)
Definition garbled_200 : Response :=
  {| StatusCode := 200; Status := "200 OK";
     ResponseBody := Undecodable (LibraryError "invalid character '<'") |}.

Definition garbled_502 : Response :=
  {| StatusCode := 502; Status := "502 Bad Gateway";
     ResponseBody := Undecodable (LibraryError "invalid character '<'") |}.

(** An answer with a body that is no JSON under a success status other
    than 200. *)
Definition garbled_204 : Response :=
  {| StatusCode := 204; Status := "204 No Content";
     ResponseBody := Undecodable (LibraryError "EOF") |}.

Definition decoded_500 : Response :=
  {| StatusCode := 500; Status := "500 Internal Server Error";
     ResponseBody := Decoded (mkGraphQLResponse ∅ []) |}.

(** A mutation container that reports failure and still carries a
    populated issue and a populated project. *)
Definition refusal : gmap string value :=
  {[ "success" := VBool false;
     "issue" := VMap {[ "id" := VString "issue-1"; "title" := VString "Fix" ]};
     "project" := VMap {[ "id" := VString "project-1"; "name" := VString "Q3" ]} ]}.

(** A response with that container under the key of each mutation. *)
Definition refusing_data : gmap string value :=
  {[ "issueCreate" := VMap refusal; "issueUpdate" := VMap refusal;
     "projectCreate" := VMap refusal; "projectUpdate" := VMap refusal ]}.

Definition sample_CreateIssueInput : CreateIssueInput :=
  {| CreateIssueInput_TeamID := "team-1"; CreateIssueInput_Title := "Fix";
     CreateIssueInput_Description := ""; CreateIssueInput_Priority := 2;
     CreateIssueInput_StateID := ""; CreateIssueInput_AssigneeID := "";
     CreateIssueInput_ProjectID := ""; CreateIssueInput_ParentID := "" |}.

Definition sample_UpdateIssueInput : UpdateIssueInput :=
  {| UpdateIssueInput_Title := Some "Fix"; UpdateIssueInput_Description := None;
     UpdateIssueInput_Priority := None; UpdateIssueInput_StateID := None;
     UpdateIssueInput_AssigneeID := None; UpdateIssueInput_ProjectID := None;
     UpdateIssueInput_ParentID := None |}.

Definition sample_CreateProjectInput : CreateProjectInput :=
  {| CreateProjectInput_Name := "Q3"; CreateProjectInput_Description := "";
     CreateProjectInput_Icon := ""; CreateProjectInput_Color := "";
     CreateProjectInput_State := "planned";
     CreateProjectInput_TeamIDs := ["team-1"];
     CreateProjectInput_LeadID := ""; CreateProjectInput_StartDate := "";
     CreateProjectInput_TargetDate := "" |}.

Definition sample_UpdateProjectInput : UpdateProjectInput :=
  {| UpdateProjectInput_Name := None; UpdateProjectInput_Description := None;
     UpdateProjectInput_Icon := None; UpdateProjectInput_Color := None;
     UpdateProjectInput_State := Some "started";
     UpdateProjectInput_TeamIDs := [];
     UpdateProjectInput_LeadID := None; UpdateProjectInput_StartDate := None;
     UpdateProjectInput_TargetDate := None |}.

(** A project object without its [issues] container. *)
Definition bare_project : gmap string value :=
  {[ "project" := VMap {[ "id" := VString "project-1" ]} ]}.

(** A viewer whose id arrived as a number, and a team without its key. *)
Definition numeric_id_viewer : gmap string value :=
  {[ "viewer" := VMap {[ "id" := VFloat (float64_of_int 42);
                         "name" := VString "Ada";
                         "email" := VString "ada@example.com" ]} ]}.

Definition keyless_team : gmap string value :=
  {[ "teams" := VMap {[ "nodes" := VList [VMap {[ "id" := VString "team-1";
                                                  "name" := VString "Core" ]}] ]} ]}.

(** An issue, and a list of two children for it. *)
Definition issue_data : gmap string value :=
  {[ "issue" := VMap {[ "id" := VString "issue-1";
                        "identifier" := VString "ENG-1";
                        "title" := VString "Fix";
                        "priority" := VFloat (float64_of_int 2) ]} ]}.

Definition children_data : gmap string value :=
  {[ "issue" :=
       VMap {[ "children" :=
                 VMap {[ "nodes" :=
                           VList [VMap {[ "id" := VString "issue-2" ]};
                                  VMap {[ "id" := VString "issue-3" ]}] ]} ]} ]}.


(** A 200 answer whose body decodes to the given data and errors. *)
Definition ok_decoded (data : gmap string value) (errors : list string)
  : GraphQLResponse :=
  {| Data := data; Errors := map mkGraphQLError errors |}.

Definition ok_response (data : gmap string value) (errors : list string)
  : Response :=
  {| StatusCode := 200; Status := "200 OK";
     ResponseBody := Decoded (ok_decoded data errors) |}.

Definition ok_answer (data : gmap string value) (errors : list string) : RoundTrip :=
  DoReturned (ok_response data errors).

(** * Further parts of the package *)

(** ** [GetProject] *)

(** The query document of [GetProject]. *)
Definition GetProject_query : string :=
  "query GetProject($id: String!) {
		project(id: $id) {
			id
			name
			description
			icon
			color
			state
			createdAt
			updatedAt
			startedAt
			targetDate
			sortOrder
			url
			lead {
				id
				name
				email
			}
			teams {
				nodes {
					id
					name
					key
				}
			}
			issues {
				nodes {
					id
					identifier
					title
				}
			}
		}
	}".

(** [GetProject] returns details of a specific project by ID. *)
Definition GetProject (env : Env) (c : Client) (projectID : string)
  : M (result Project) :=
  let variables : gmap string value := {[ "id" := VString projectID ]} in
  let query := GetProject_query in
  r ← ExecuteGraphQL env c query (Some variables);
  match r with
  | (_, Some err) => mret (None, Some err)
  | (None, None) => panic
  | (Some resp, None) =>
      match as_map (index (Data resp) "project") with
      | None => mret (None, Some (MalformedResponseError "project data"))
      | Some projectData => mret (Some (project_of projectData), None)
      end
  end.

(** ** Building a client *)

(** [DefaultAPIURL] is the default URL for Linear's GraphQL API. *)
Definition DefaultAPIURL : string := "https://api.linear.app/graphql".

(** [ClientOption] is a function that configures a Client; the client it
    is handed is the one it leaves behind. *)
Definition ClientOption : Type := Client -> Client.

(** [WithURL] sets the API URL for the client. *)
Definition WithURL (url : string) : ClientOption :=
  fun c => {| apiKey := apiKey c; apiURL := url; httpCli := httpCli c |}.

(** [WithHTTPClient] sets the HTTP client for the client. *)
Definition WithHTTPClient (h : list Request -> Request -> RoundTrip)
  : ClientOption :=
  fun c => {| apiKey := apiKey c; apiURL := apiURL c; httpCli := h |}.

(** [NewClient] creates a new Linear API client; [DefaultClient] stands
    for [http.DefaultClient]. *)
Definition NewClient (DefaultClient : list Request -> Request -> RoundTrip)
    (key : string) (opts : list ClientOption) : Client :=
  fold_left (fun client opt => opt client) opts
    {| apiKey := key; apiURL := DefaultAPIURL; httpCli := DefaultClient |}.

(** ** The tool handlers of package main

    Each handler is a closure registered under a tool name; it reads the
    client and the API key of [main].  The text content of a response is
    the indented JSON encoding of a value, kept here as that value. *)

(** The errors the handlers build: a wrapped cause, and the two texts of
    the attachment download that wrap nothing. *)
Inductive tool_error : Type :=
| Failed (what : string) (cause : error)
| InvalidURL
| ServerReturnedStatus (code : Z).

(** [err.Error()] for the errors of the handlers. *)
Definition tool_error_text (e : tool_error) : string :=
  match e with
  | Failed what cause => "failed to " +:+ what +:+ ": " +:+ Error cause
  | InvalidURL => "invalid URL: must be from uploads.linear.app domain"
  | ServerReturnedStatus code =>
      "failed to download attachment: server returned status " +:+ pretty code
  end.

(** What a handler hands to [mcp_golang.NewTextContent]: the JSON text of
    one of the values of the client, or a plain text. *)
Inductive Content : Type :=
| JSONIssue (issue : option Issue)
| JSONIssues (issues : option (list Issue))
| JSONProject (project : option Project)
| JSONTeams (teams : option (list Team))
| JSONTeamProjects (projects : option (list TeamProject))
| JSONProjectWithIssues (project : option ProjectWithIssues)
| Text (s : string).

Record ToolResponse : Type := mkToolResponse {
  TextContent : Content
}.

Definition tool_result : Type := (option ToolResponse * option tool_error)%type.

Definition first_some (a b : option string) : option string :=
  match a with
  | Some t => Some t
  | None => b
  end.

(** The first float of an issue or of a project that [encoding/json]
    cannot encode, met in the order of the struct fields. *)
Fixpoint unsupported_Issue (i : Issue) : option string :=
  first_some
    match Issue_Project i with
    | Some p => unsupported_Project p
    | None => None
    end
    (first_some
       match Issue_Parent i with
       | Some q => unsupported_Issue q
       | None => None
       end
       match Issue_Children i with
       | Some l =>
           fold_right (fun x acc => first_some (unsupported_Issue x) acc) None l
       | None => None
       end)
with unsupported_Project (p : Project) : option string :=
  first_some
    match Project_Issues p with
    | Some l =>
        fold_right (fun x acc => first_some (unsupported_Issue x) acc) None l
    | None => None
    end
    (unsupported_float (Project_SortOrder p)).

Definition unsupported_Issues (l : option (list Issue)) : option string :=
  match l with
  | Some l => fold_right (fun x acc => first_some (unsupported_Issue x) acc) None l
  | None => None
  end.

(** The float that makes [json.MarshalIndent] fail on a content, if any. *)
Definition unsupported_Content (content : Content) : option string :=
  match content with
  | JSONIssue (Some i) => unsupported_Issue i
  | JSONIssues l => unsupported_Issues l
  | JSONProject (Some p) => unsupported_Project p
  | JSONProjectWithIssues (Some p) =>
      unsupported_Issues (ProjectWithIssues_Issues p)
  | _ => None
  end.

(** The tail shared by the handlers of the client's operations: wrap the
    error of the operation, or encode its value and wrap the error of the
    encoder, or answer with the encoded value. *)
Definition respond {T : Type} (operation noun : string) (wrap : T -> Content)
    (r : T * option error) : tool_result :=
  match r with
  | (_, Some err) => (None, Some (Failed operation err))
  | (v, None) =>
      match unsupported_Content (wrap v) with
      | Some t =>
          (None,
           Some (Failed ("marshal " +:+ noun +:+ " to JSON")
                        (LibraryError ("json: unsupported value: " +:+ t))))
      | None => (Some {| TextContent := wrap v |}, None)
      end
  end.

Record GetIssueArguments : Type := mkGetIssueArguments {
  GetIssueArguments_ID : string;
  GetIssueArguments_IncludeChildren : bool
}.

(** The handler of [get_issue]. *)
Definition tool_get_issue (env : Env) (client : Client)
    (args : GetIssueArguments) : M tool_result :=
  let opts := {| IncludeChildren := GetIssueArguments_IncludeChildren args;
                 ChildrenFirst := 0 |} in
  r ← GetIssue env client (GetIssueArguments_ID args) (Some opts);
  mret (respond "get issue" "issue" JSONIssue r).

Record GetTeamIssuesArguments : Type := mkGetTeamIssuesArguments {
  GetTeamIssuesArguments_TeamID : string;
  GetTeamIssuesArguments_First : Z
}.

(** The handler of [get_team_issues]. *)
Definition tool_get_team_issues (env : Env) (client : Client)
    (args : GetTeamIssuesArguments) : M tool_result :=
  let opts := {| GetTeamIssuesOptions_First := GetTeamIssuesArguments_First args |} in
  r ← GetTeamIssues env client (GetTeamIssuesArguments_TeamID args) (Some opts);
  mret (respond "get team issues" "issues" JSONIssues r).

Record CreateIssueArguments : Type := mkCreateIssueArguments {
  CreateIssueArguments_TeamID : string;
  CreateIssueArguments_Title : string;
  CreateIssueArguments_Description : string;
  CreateIssueArguments_Priority : Z;
  CreateIssueArguments_StateID : string;
  CreateIssueArguments_AssigneeID : string;
  CreateIssueArguments_ProjectID : string;
  CreateIssueArguments_ParentID : string
}.

(** The input the handler of [create_issue] builds. *)
Definition create_issue_input (args : CreateIssueArguments) : CreateIssueInput :=
  {| CreateIssueInput_TeamID := CreateIssueArguments_TeamID args;
     CreateIssueInput_Title := CreateIssueArguments_Title args;
     CreateIssueInput_Description := CreateIssueArguments_Description args;
     CreateIssueInput_Priority := CreateIssueArguments_Priority args;
     CreateIssueInput_StateID := CreateIssueArguments_StateID args;
     CreateIssueInput_AssigneeID := CreateIssueArguments_AssigneeID args;
     CreateIssueInput_ProjectID := CreateIssueArguments_ProjectID args;
     CreateIssueInput_ParentID := CreateIssueArguments_ParentID args |}.

(** The handler of [create_issue]. *)
Definition tool_create_issue (env : Env) (client : Client)
    (args : CreateIssueArguments) : M tool_result :=
  let input := create_issue_input args in
  r ← CreateIssue env client input;
  mret (respond "create issue" "issue" JSONIssue r).

Record UpdateIssueArguments : Type := mkUpdateIssueArguments {
  UpdateIssueArguments_IssueID : string;
  UpdateIssueArguments_Title : option string;
  UpdateIssueArguments_Description : option string;
  UpdateIssueArguments_Priority : option Z;
  UpdateIssueArguments_StateID : option string;
  UpdateIssueArguments_AssigneeID : option string;
  UpdateIssueArguments_ProjectID : option string;
  UpdateIssueArguments_ParentID : option string
}.

(** The input the handler of [update_issue] builds. *)
Definition update_issue_input (args : UpdateIssueArguments) : UpdateIssueInput :=
  {| UpdateIssueInput_Title := UpdateIssueArguments_Title args;
     UpdateIssueInput_Description := UpdateIssueArguments_Description args;
     UpdateIssueInput_Priority := UpdateIssueArguments_Priority args;
     UpdateIssueInput_StateID := UpdateIssueArguments_StateID args;
     UpdateIssueInput_AssigneeID := UpdateIssueArguments_AssigneeID args;
     UpdateIssueInput_ProjectID := UpdateIssueArguments_ProjectID args;
     UpdateIssueInput_ParentID := UpdateIssueArguments_ParentID args |}.

(** The handler of [update_issue]. *)
Definition tool_update_issue (env : Env) (client : Client)
    (args : UpdateIssueArguments) : M tool_result :=
  let input := update_issue_input args in
  r ← UpdateIssue env client (UpdateIssueArguments_IssueID args) input;
  mret (respond "update issue" "issue" JSONIssue r).

Record GetIssueChildrenArguments : Type := mkGetIssueChildrenArguments {
  GetIssueChildrenArguments_IssueID : string;
  GetIssueChildrenArguments_First : Z
}.

(** The handler of [get_issue_children]. *)
Definition tool_get_issue_children (env : Env) (client : Client)
    (args : GetIssueChildrenArguments) : M tool_result :=
  let opts :=
    {| GetIssueChildrenOptions_First := GetIssueChildrenArguments_First args |} in
  r ← GetIssueChildren env client (GetIssueChildrenArguments_IssueID args)
        (Some opts);
  mret (respond "get issue children" "children" JSONIssues r).

Record CreateProjectArguments : Type := mkCreateProjectArguments {
  CreateProjectArguments_Name : string;
  CreateProjectArguments_Description : string;
  CreateProjectArguments_Icon : string;
  CreateProjectArguments_Color : string;
  CreateProjectArguments_State : string;
  CreateProjectArguments_TeamIDs : list string;
  CreateProjectArguments_LeadID : string
}.

(** The input the handler of [create_project] builds; the two dates keep
    their zero value. *)
Definition create_project_input (args : CreateProjectArguments)
  : CreateProjectInput :=
  {| CreateProjectInput_Name := CreateProjectArguments_Name args;
     CreateProjectInput_Description := CreateProjectArguments_Description args;
     CreateProjectInput_Icon := CreateProjectArguments_Icon args;
     CreateProjectInput_Color := CreateProjectArguments_Color args;
     CreateProjectInput_State := CreateProjectArguments_State args;
     CreateProjectInput_TeamIDs := CreateProjectArguments_TeamIDs args;
     CreateProjectInput_LeadID := CreateProjectArguments_LeadID args;
     CreateProjectInput_StartDate := "";
     CreateProjectInput_TargetDate := "" |}.

(** The handler of [create_project]. *)
Definition tool_create_project (env : Env) (client : Client)
    (args : CreateProjectArguments) : M tool_result :=
  let input := create_project_input args in
  r ← CreateProject env client input;
  mret (respond "create project" "project" JSONProject r).

(** The handler of [get_teams]. *)
Definition tool_get_teams (env : Env) (client : Client) : M tool_result :=
  r ← GetTeams env client;
  mret (respond "get teams" "teams" JSONTeams r).

Record UpdateProjectArguments : Type := mkUpdateProjectArguments {
  UpdateProjectArguments_ProjectID : string;
  UpdateProjectArguments_Name : string;
  UpdateProjectArguments_Description : string;
  UpdateProjectArguments_Icon : string;
  UpdateProjectArguments_Color : string;
  UpdateProjectArguments_State : string;
  UpdateProjectArguments_TeamIDs : list string;
  UpdateProjectArguments_LeadID : string
}.

(** [var p *string; if s != "" { p = &s }] *)
Definition pointer_if_provided (s : string) : option string :=
  if decide (s = "") then None else Some s.

(** The input the handler of [update_project] builds: string values
    become pointers if provided. *)
Definition update_project_input (args : UpdateProjectArguments)
  : UpdateProjectInput :=
  let name := pointer_if_provided (UpdateProjectArguments_Name args) in
  let description := pointer_if_provided (UpdateProjectArguments_Description args) in
  let icon := pointer_if_provided (UpdateProjectArguments_Icon args) in
  let color := pointer_if_provided (UpdateProjectArguments_Color args) in
  let state := pointer_if_provided (UpdateProjectArguments_State args) in
  let leadID := pointer_if_provided (UpdateProjectArguments_LeadID args) in
  {| UpdateProjectInput_Name := name;
     UpdateProjectInput_Description := description;
     UpdateProjectInput_Icon := icon;
     UpdateProjectInput_Color := color;
     UpdateProjectInput_State := state;
     UpdateProjectInput_TeamIDs := UpdateProjectArguments_TeamIDs args;
     UpdateProjectInput_LeadID := leadID;
     UpdateProjectInput_StartDate := None;
     UpdateProjectInput_TargetDate := None |}.

(** The handler of [update_project]. *)
Definition tool_update_project (env : Env) (client : Client)
    (args : UpdateProjectArguments) : M tool_result :=
  let input := update_project_input args in
  r ← UpdateProject env client (UpdateProjectArguments_ProjectID args) input;
  mret (respond "update project" "project" JSONProject r).

Record GetTeamProjectsArguments : Type := mkGetTeamProjectsArguments {
  GetTeamProjectsArguments_TeamID : string;
  GetTeamProjectsArguments_First : Z
}.

(** The handler of [get_team_projects]. *)
Definition tool_get_team_projects (env : Env) (client : Client)
    (args : GetTeamProjectsArguments) : M tool_result :=
  let opts :=
    {| GetTeamProjectsOptions_First := GetTeamProjectsArguments_First args |} in
  r ← GetTeamProjects env client (GetTeamProjectsArguments_TeamID args)
        (Some opts);
  mret (respond "get team projects" "projects" JSONTeamProjects r).

Record GetProjectIssuesArguments : Type := mkGetProjectIssuesArguments {
  GetProjectIssuesArguments_ProjectID : string;
  GetProjectIssuesArguments_First : Z
}.

(** The handler of [get_project_issues]. *)
Definition tool_get_project_issues (env : Env) (client : Client)
    (args : GetProjectIssuesArguments) : M tool_result :=
  let opts :=
    {| GetProjectIssuesOptions_First := GetProjectIssuesArguments_First args |} in
  r ← GetProjectIssues env client (GetProjectIssuesArguments_ProjectID args)
        (Some opts);
  mret (respond "get project issues" "project issues" JSONProjectWithIssues r).

(** ** The attachment download

    The handler of [download_attachment] meets a second peer, reached by
    a GET through an HTTP client of its own, and the local file system. *)

Record DownloadAttachmentArguments : Type := mkDownloadAttachmentArguments {
  DownloadAttachmentArguments_URL : string;
  DownloadAttachmentArguments_FilePath : string
}.

(** The GET request of the handler, with the two headers it adds. *)
Record Download : Type := mkDownload {
  Download_URL : string;
  Download_ContentType : string;
  Download_Authorization : string
}.

(** An answer to the GET: its status code, the bytes its body serves, and
    the error, if any, that ends the body in place of end-of-file. *)
Record Served : Type := mkServed {
  Served_StatusCode : Z;
  Served_Body : string;
  Served_BodyError : option error
}.

Inductive Fetch : Type :=
| FetchFailed (err : error)
| FetchReturned (resp : Served).

(** What lies outside the process: the peer of the GET, the verdict of
    [os.Create] on a path, and for a path and the bytes to write there,
    the number of bytes that get written before a write error, if one
    occurs. *)
Record Outside : Type := mkOutside {
  fetch : list Download -> Download -> Fetch;
  os_Create_error : string -> option error;
  write_fault : string -> string -> option (nat * error)
}.

(** What the handler leaves behind: the GETs sent and the files. *)
Record Local : Type := mkLocal {
  downloads : list Download;
  files : gmap string string
}.

(** [io.Copy(out, resp.Body)] into a file just created: the bytes that
    reach the file and the error of the copy. *)
Definition io_Copy (outside : Outside) (path : string) (resp : Served)
  : string * option error :=
  match write_fault outside path (Served_Body resp) with
  | Some (n, err) =>
      if (n <? String.length (Served_Body resp))%nat
      then (substring 0 n (Served_Body resp), Some err)
      else (Served_Body resp, Served_BodyError resp)
  | None => (Served_Body resp, Served_BodyError resp)
  end.

Definition upload_prefix : string := "https://uploads.linear.app/".

(** The handler of [download_attachment]. *)
Definition tool_download_attachment (env : Env) (outside : Outside)
    (apiKey : string) (args : DownloadAttachmentArguments) (w : Local)
  : tool_result * Local :=
  let url := DownloadAttachmentArguments_URL args in
  let path := DownloadAttachmentArguments_FilePath args in
  if negb (String.prefix upload_prefix url)
  then ((None, Some InvalidURL), w)
  else
    match url_Parse_error env url with
    | Some err => ((None, Some (Failed "create request" err)), w)
    | None =>
        let req := {| Download_URL := url;
                      Download_ContentType := "application/json";
                      Download_Authorization := apiKey |} in
        let w1 := {| downloads := (downloads w ++ [req])%list;
                     files := files w |} in
        match fetch outside (downloads w) req with
        | FetchFailed err => ((None, Some (Failed "download attachment" err)), w1)
        | FetchReturned resp =>
            if negb (Served_StatusCode resp =? StatusOK)
            then ((None, Some (ServerReturnedStatus (Served_StatusCode resp))), w1)
            else
              match os_Create_error outside path with
              | Some err => ((None, Some (Failed "create output file" err)), w1)
              | None =>
                  match io_Copy outside path resp with
                  | (written, Some err) =>
                      ((None, Some (Failed "write attachment to file" err)),
                       {| downloads := downloads w1;
                          files := <[ path := written ]> (files w1) |})
                  | (written, None) =>
                      ((Some {| TextContent :=
                                  Text (Sprintf1
                                          "Successfully downloaded attachment to %s"
                                          (Some path)) |},
                        None),
                       {| downloads := downloads w1;
                          files := <[ path := written ]> (files w1) |})
                  end
              end
        end
    end.

(** ** Vocabulary of the further statements *)

(** The struct literals of the loops, as functions of a node. *)
Definition team_of (teamMap : gmap string value) : Team :=
  {| Team_ID := safeGetString teamMap "id";
     Team_Name := safeGetString teamMap "name";
     Team_Key := safeGetString teamMap "key" |}.

Definition team_project_of (nodeMap : gmap string value) : TeamProject :=
  {| TeamProject_ID := safeGetString nodeMap "id";
     TeamProject_Name := safeGetString nodeMap "name";
     TeamProject_SlugID := safeGetString nodeMap "slugId";
     TeamProject_Status := status_block nodeMap |}.

Definition project_issue_of (nodeMap : gmap string value) : Issue :=
  {| Issue_ID := safeGetString nodeMap "id";
     Issue_Identifier := "";
     Issue_Title := safeGetString nodeMap "title";
     Issue_Description := safeGetString nodeMap "description";
     Issue_State := None;
     Issue_Assignee := user_block nodeMap "assignee";
     Issue_Project := None; Issue_Parent := None;
     Issue_Children := None; Issue_Priority := 0;
     Issue_CreatedAt := ""; Issue_UpdatedAt := "";
     Issue_URL := ""; Issue_BranchName := "" |}.

(** The objects among the nodes, in their order. *)
Definition objects (nodes : list value) : list (gmap string value) :=
  omap as_map nodes.

(** The nodes as objects, when every one of them is an object. *)
Definition all_objects (nodes : list value) : option (list (gmap string value)) :=
  mapM as_map nodes.

(** A team node whose three fields are strings. *)
Definition well_typed_team (node : value) : option Team :=
  match as_map node with
  | Some nodeMap =>
      match as_string (index nodeMap "id"), as_string (index nodeMap "name"),
            as_string (index nodeMap "key") with
      | Some id, Some name, Some key =>
          Some {| Team_ID := id; Team_Name := name; Team_Key := key |}
      | _, _, _ => None
      end
  | None => None
  end.

(** The text holds no path separator. *)
Definition separator_free (s : string) : Prop :=
  Forall (fun ch => is_separator ch = false) (list_ascii_of_string s).

(** A description of the options of the package, and the option each
    description stands for. *)
Inductive OptionSpec : Type :=
| SetURL (url : string)
| SetHTTPClient (h : list Request -> Request -> RoundTrip).

Definition option_of (o : OptionSpec) : ClientOption :=
  match o with
  | SetURL url => WithURL url
  | SetHTTPClient h => WithHTTPClient h
  end.

(** The last URL, and the last HTTP client, a list of options sets. *)
Fixpoint last_URL (specs : list OptionSpec) (default : string) : string :=
  match specs with
  | [] => default
  | SetURL url :: rest => last_URL rest url
  | SetHTTPClient _ :: rest => last_URL rest default
  end.

Fixpoint last_HTTPClient (specs : list OptionSpec)
    (default : list Request -> Request -> RoundTrip)
  : list Request -> Request -> RoundTrip :=
  match specs with
  | [] => default
  | SetURL _ :: rest => last_HTTPClient rest default
  | SetHTTPClient h :: rest => last_HTTPClient rest h
  end.

(** A computation keeps the requests sent before it and adds at most
    [n] of its own. *)
Definition sends_at_most {A : Type} (n : nat) (m : M A) : Prop :=
  forall sent, exists new,
    snd (m sent) = (sent ++ new)%list /\ (length new <= n)%nat.


(** What a handler makes of the outcome of its operation when the
    encoder accepts the value: the error wrapped and no response, or the
    value as the text content of a response. *)
Definition relay {T : Type} (operation : string) (wrap : T -> Content)
    (o : outcome (T * option error)) : outcome tool_result :=
  match o with
  | Returned (_, Some err) => Returned (None, Some (Failed operation err))
  | Returned (v, None) => Returned (Some {| TextContent := wrap v |}, None)
  | Panicked => Panicked
  end.


(** The request carries an [input] object for which [P] holds. *)
Definition sends_input (P : gmap string value -> Prop) (req : Request) : Prop :=
  exists variables inputObj,
    Variables (Body req) = Some variables
    /\ variables !! "input" = Some (VMap inputObj)
    /\ P inputObj.

(** Whatever a computation returns satisfies [P]. *)
Definition returns {A : Type} (P : A -> Prop) (m : M A) : Prop :=
  forall sent,
    match fst (m sent) with
    | Returned a => P a
    | Panicked => True
    end.

(** A computation keeps the requests sent before it, and each request it
    adds satisfies [P]. *)
Definition sends_only {A : Type} (P : Request -> Prop) (m : M A) : Prop :=
  forall sent, exists new,
    snd (m sent) = (sent ++ new)%list /\ Forall P new.

(** The handler that does nothing but relay its operation. *)
Definition relayed {T : Type} (operation : string) (wrap : T -> Content)
    (m : M (T * option error)) : M tool_result :=
  fun sent => (relay operation wrap (fst (m sent)), snd (m sent)).

(** The request is a POST of JSON to the URL of the client, under its
    API key. *)
Definition to_endpoint (c : Client) (req : Request) : Prop :=
  Method req = "POST" /\ URL req = apiURL c
  /\ ContentType req = "application/json" /\ Authorization req = apiKey c.

(** The error blames the encoding of the request body, by itself or as
    the cause of a failed fetch of the children. *)
Fixpoint blames_encoding (e : error) : Prop :=
  match e with
  | TransportError MarshalRequestBody _ => True
  | ChildrenLoadError cause => blames_encoding cause
  | _ => False
  end.

(** The result comes without an error that blames the encoding. *)
Definition encoded {T : Type} (r : T * option error) : Prop :=
  match snd r with
  | Some e => ~ blames_encoding e
  | None => True
  end.

(** ** Further samples *)

(** The documents the operations load from the embedded file set. *)
Definition documents : list string :=
  ["get_team_issues.graphql"; "get_issue.graphql"; "get_issue_children.graphql";
   "create_issue.graphql"; "update_issue.graphql"; "get_project_issues.graphql";
   "get_team_projects.graphql"].

(** Two issue nodes, and a response of [GetTeamIssues] around a list of
    nodes. *)
Definition two_issue_nodes : list value :=
  [VMap {[ "id" := VString "issue-1"; "title" := VString "Fix" ]};
   VMap {[ "id" := VString "issue-2" ]}].

Definition team_issues_data (nodes : list value) : gmap string value :=
  {[ "team" := VMap {[ "issues" := VMap {[ "nodes" := VList nodes ]} ]} ]}.

(** A project with its issues, one node of which is no object, and with
    one team. *)
Definition sample_project : gmap string value :=
  {[ "id" := VString "project-1";
     "name" := VString "Q3";
     "teams" :=
       VMap {[ "nodes" := VList [VMap {[ "id" := VString "team-1";
                                         "name" := VString "Core";
                                         "key" := VString "ENG" ]}] ]};
     "issues" :=
       VMap {[ "nodes" := VList [VMap {[ "id" := VString "issue-1" ]};
                                 VString "stray";
                                 VMap {[ "id" := VString "issue-2" ]}] ]} ]}.

Definition project_data : gmap string value :=
  {[ "project" := VMap sample_project ]}.

(** The viewer of the package's own test, and a list of one team. *)
Definition viewer_data : gmap string value :=
  {[ "viewer" := VMap {[ "id" := VString "user123";
                         "name" := VString "Test User";
                         "email" := VString "test@example.com" ]} ]}.

Definition teams_data : gmap string value :=
  {[ "teams" := VMap {[ "nodes" := VList [VMap {[ "id" := VString "team-1";
                                                  "name" := VString "Core";
                                                  "key" := VString "ENG" ]}] ]} ]}.

(** A mutation container that reports success, with an issue and a
    project, under the key of each mutation. *)
Definition acceptance : gmap string value :=
  {[ "success" := VBool true;
     "issue" := VMap {[ "id" := VString "issue-1"; "title" := VString "Fix" ]};
     "project" := VMap {[ "id" := VString "project-1"; "name" := VString "Q3" ]} ]}.

Definition accepting_data : gmap string value :=
  {[ "issueCreate" := VMap acceptance; "issueUpdate" := VMap acceptance;
     "projectCreate" := VMap acceptance; "projectUpdate" := VMap acceptance ]}.

(** * Properties *)

(** ** The monad *)

Lemma M_bind_run {A B : Type} (m : M A) (f : A -> M B) (sent : list Request) :
  (m ≫= f) sent =
  match m sent with
  | (Returned a, sent') => f a sent'
  | (Panicked, sent') => (Panicked, sent')
  end.
Proof. reflexivity. Qed.

Lemma M_ret_run {A : Type} (a : A) (sent : list Request) :
  (mret a : M A) sent = (Returned a, sent).
Proof. reflexivity. Qed.

Lemma issued_app {A : Type} (m : M A) (sent new : list Request) :
  snd (m sent) = (sent ++ new)%list -> issued m sent = new.
Proof.
  intros E. unfold issued. rewrite E. apply drop_app_length.
Qed.

Lemma issued_nil {A : Type} (m : M A) (sent : list Request) :
  snd (m sent) = sent -> issued m sent = [].
Proof.
  intros E. apply issued_app. rewrite E. symmetry. apply app_nil_r.
Qed.

(** ** The collected messages *)

Lemma errorMsgs_of_acc (errors : list GraphQLError) (acc : list string) :
  fold_left (fun errorMsgs err => (errorMsgs ++ [Message err])%list) errors acc
  = (acc ++ map Message errors)%list.
Proof.
  revert acc. induction errors as [|e errors IH]; intros acc; simpl.
  - symmetry. apply app_nil_r.
  - rewrite IH. rewrite <- app_assoc. reflexivity.
Qed.

Lemma errorMsgs_of_map (errors : list GraphQLError) :
  errorMsgs_of errors = map Message errors.
Proof. unfold errorMsgs_of. apply errorMsgs_of_acc. Qed.

(** ** ExecuteGraphQL, step by step *)

Lemma ExecuteGraphQL_sends env c query variables sent :
  json_Marshal_error (mkGraphQLRequest query variables) = None ->
  url_Parse_error env (apiURL c) = None ->
  ExecuteGraphQL env c query variables sent =
  (Returned (reading (httpCli c sent
                        (NewRequest c (mkGraphQLRequest query variables)))),
   (sent ++ [NewRequest c (mkGraphQLRequest query variables)])%list).
Proof.
  intros Hm Hu. unfold ExecuteGraphQL. rewrite Hm, Hu.
  rewrite M_bind_run. unfold Do.
  destruct (httpCli c sent _) as [err|resp]; simpl; [reflexivity|].
  destruct (ResponseBody resp) as [err|result]; simpl.
  - destruct (StatusCode resp =? StatusOK); reflexivity.
  - rewrite errorMsgs_of_map. destruct (Errors result); reflexivity.
Qed.

(** [ExecuteGraphQL] never panics, sends at most one request, and never
    returns a nil response together with a nil error. *)
Lemma ExecuteGraphQL_shape env c query variables sent :
  exists r new,
    ExecuteGraphQL env c query variables sent = (Returned r, (sent ++ new)%list)
    /\ (new = [] \/ new = [NewRequest c (mkGraphQLRequest query variables)])
    /\ r <> (None, None).
Proof.
  destruct (json_Marshal_error (mkGraphQLRequest query variables)) as [e|] eqn:Hm.
  { exists (None, Some (TransportError MarshalRequestBody e)), [].
    unfold ExecuteGraphQL. rewrite Hm. rewrite app_nil_r.
    split; [reflexivity|]. split; [now left|discriminate]. }
  destruct (url_Parse_error env (apiURL c)) as [e|] eqn:Hu.
  { exists (None, Some (TransportError CreateRequest e)), [].
    unfold ExecuteGraphQL. rewrite Hm, Hu. rewrite app_nil_r.
    split; [reflexivity|]. split; [now left|discriminate]. }
  eexists _, _. split; [apply ExecuteGraphQL_sends; assumption|].
  split; [now right|].
  unfold reading. destruct (httpCli c sent _) as [err|resp]; [discriminate|].
  destruct (ResponseBody resp) as [err|result].
  - destruct (StatusCode resp =? StatusOK); discriminate.
  - destruct (Errors result); discriminate.
Qed.

(** ** Encoding the variables never fails for what the operations build *)

Lemma json_unsupported_VMap (m : gmap string value) :
  map_Forall (fun _ v => json_unsupported v = None) m ->
  json_unsupported (VMap m) = None.
Proof.
  simpl.
  apply (map_fold_weak_ind
           (fun r (m : gmap string value) =>
              map_Forall (fun _ v => json_unsupported v = None) m -> r = None)).
  - reflexivity.
  - intros k v m' r Hk IH Hall.
    apply map_Forall_insert in Hall; [|assumption].
    destruct Hall as [Hv Hm']. rewrite (IH Hm'). exact Hv.
Qed.

Lemma marshal_ok (query : string) (variables : gmap string value) :
  map_Forall (fun _ v => json_unsupported v = None) variables ->
  json_Marshal_error (mkGraphQLRequest query (Some variables)) = None.
Proof.
  intros H. unfold json_Marshal_error. cbn [Variables].
  rewrite (json_unsupported_VMap _ H). reflexivity.
Qed.

Lemma marshal_ok_nil (query : string) :
  json_Marshal_error (mkGraphQLRequest query None) = None.
Proof. reflexivity. Qed.

Lemma supported_insert (k : string) (v : value) (m : gmap string value) :
  json_unsupported v = None ->
  map_Forall (fun _ v => json_unsupported v = None) m ->
  map_Forall (fun _ v => json_unsupported v = None) (<[ k := v ]> m).
Proof. intros Hv Hm. apply map_Forall_insert_2; assumption. Qed.

Lemma supported_singleton (k : string) (v : value) :
  json_unsupported v = None ->
  map_Forall (fun _ v => json_unsupported v = None)
             ({[ k := v ]} : gmap string value).
Proof. intros Hv. apply map_Forall_singleton. exact Hv. Qed.

Lemma supported_empty :
  map_Forall (fun _ v => json_unsupported v = None) (∅ : gmap string value).
Proof. apply map_Forall_empty. Qed.

Create HintDb marshal.

#[local] Hint Resolve supported_insert supported_singleton supported_empty : marshal.
#[local] Hint Extern 1 (json_unsupported _ = None) => reflexivity : marshal.

(** ** Page sizes *)

Lemma page_size_range (First : option Z) :
  1 <= page_size First <= 100.
Proof.
  destruct First as [n|]; simpl; [|lia].
  destruct (0 <? n) eqn:H1; destruct (n <=? 100) eqn:H2; simpl; lia.
Qed.

Lemma page_size_in_range (n : Z) :
  1 <= n <= 100 -> page_size (Some n) = n.
Proof.
  intros [H1 H2]. simpl.
  replace (0 <? n) with true by (symmetry; apply Z.ltb_lt; lia).
  replace (n <=? 100) with true by (symmetry; apply Z.leb_le; lia).
  reflexivity.
Qed.

Lemma page_size_out_of_range (n : Z) :
  n <= 0 \/ 100 < n -> page_size (Some n) = 50.
Proof.
  intros H. simpl.
  destruct (0 <? n) eqn:H1; destruct (n <=? 100) eqn:H2; simpl; try reflexivity.
  apply Z.ltb_lt in H1. apply Z.leb_le in H2. lia.
Qed.

Lemma page_size_idem (First : option Z) :
  page_size (Some (page_size First)) = page_size First.
Proof. apply page_size_in_range, page_size_range. Qed.

(** ** Operations that call [ExecuteGraphQL] once *)

Lemma quiet_ret {A : Type} (a : A) : quiet (mret a : M A).
Proof. intros sent. reflexivity. Qed.

Lemma quiet_panic {A : Type} : quiet (panic : M A).
Proof. intros sent. reflexivity. Qed.

Lemma quiet_of_outcome {A : Type} (o : outcome A) : quiet (of_outcome o).
Proof. intros sent. reflexivity. Qed.

#[local] Hint Resolve quiet_ret quiet_panic quiet_of_outcome : core.

(** Settling [quiet] for a continuation made of case distinctions. *)
Ltac quiet_cases :=
  repeat first [ apply quiet_ret | apply quiet_panic | apply quiet_of_outcome
               | case_match ].

Lemma exec_then_quiet {B : Type} env c query variables
    (k : result GraphQLResponse -> M B) sent :
  (forall r, quiet (k r)) ->
  issued (ExecuteGraphQL env c query variables ≫= k) sent = []
  \/ issued (ExecuteGraphQL env c query variables ≫= k) sent
     = [NewRequest c (mkGraphQLRequest query variables)].
Proof.
  intros Hk.
  destruct (ExecuteGraphQL_shape env c query variables sent)
    as (r & new & E & Hnew & _).
  assert (Hi : issued (ExecuteGraphQL env c query variables ≫= k) sent = new).
  { apply issued_app. rewrite M_bind_run, E. apply Hk. }
  rewrite Hi. destruct Hnew as [->| ->]; [left|right]; reflexivity.
Qed.

Lemma exec_then_quiet_Forall {B : Type} (P : Request -> Prop) env c query
    variables (k : result GraphQLResponse -> M B) sent :
  (forall r, quiet (k r)) ->
  P (NewRequest c (mkGraphQLRequest query variables)) ->
  Forall P (issued (ExecuteGraphQL env c query variables ≫= k) sent).
Proof.
  intros Hk HP.
  destruct (exec_then_quiet env c query variables k sent Hk) as [-> | ->];
    repeat constructor; exact HP.
Qed.

Lemma exec_then_quiet_length {B : Type} env c query variables
    (k : result GraphQLResponse -> M B) sent :
  (forall r, quiet (k r)) ->
  (length (issued (ExecuteGraphQL env c query variables ≫= k) sent) <= 1)%nat.
Proof.
  intros Hk.
  destruct (exec_then_quiet env c query variables k sent Hk) as [-> | ->];
    simpl; lia.
Qed.

Lemma sends_first_insert c query (n : Z) (variables : gmap string value) :
  sends_first n
    (NewRequest c (mkGraphQLRequest query (Some (<[ "first" := VInt n ]> variables)))).
Proof.
  eexists. split; [reflexivity|]. apply lookup_insert_eq.
Qed.

(** The three operations that read [opts.First] send it as described. *)
Lemma GetTeamIssues_first env c teamID opts sent :
  Forall (sends_first (page_size (GetTeamIssuesOptions_First <$> opts)))
         (issued (GetTeamIssues env c teamID opts) sent).
Proof.
  unfold GetTeamIssues.
  destruct (getGraphQLQuery env "get_team_issues.graphql") as [query [err|]].
  { rewrite issued_nil by reflexivity. constructor. }
  apply exec_then_quiet_Forall.
  - intros r. quiet_cases.
  - destruct opts; apply sends_first_insert.
Qed.

Lemma GetIssueChildren_first env c issueID opts sent :
  Forall (sends_first (page_size (GetIssueChildrenOptions_First <$> opts)))
         (issued (GetIssueChildren env c issueID opts) sent).
Proof.
  unfold GetIssueChildren.
  destruct (getGraphQLQuery env "get_issue_children.graphql") as [query [err|]].
  { rewrite issued_nil by reflexivity. constructor. }
  apply exec_then_quiet_Forall.
  - intros r. quiet_cases.
  - destruct opts; apply sends_first_insert.
Qed.

Lemma GetProjects_first env c opts sent :
  Forall (sends_first (page_size (GetProjectsOptions_First <$> opts)))
         (issued (GetProjects env c opts) sent).
Proof.
  unfold GetProjects.
  apply exec_then_quiet_Forall.
  - intros r. quiet_cases.
  - destruct opts; apply sends_first_insert.
Qed.

Lemma exec_then_no_panic {B : Type} env c query variables
    (k : result GraphQLResponse -> M B) sent :
  (forall r s, r <> (None, None) -> fst (k r s) <> Panicked) ->
  fst ((ExecuteGraphQL env c query variables ≫= k) sent) <> Panicked.
Proof.
  intros Hk.
  destruct (ExecuteGraphQL_shape env c query variables sent)
    as (r & new & E & _ & Hr).
  rewrite M_bind_run, E. apply Hk. exact Hr.
Qed.

(** Settling the absence of a panic for a continuation made of case
    distinctions that all end in a return. *)
Ltac no_panic_cases :=
  let r := fresh "r" in
  let s := fresh "s" in
  let Hr := fresh "Hr" in
  intros r s Hr; destruct r as [[?|] [?|]]; try congruence;
  repeat first [ discriminate | case_match ].

(** The list loops that abort on a malformed node return. *)
Lemma GetTeamIssues_never_panics env c teamID opts sent :
  fst (GetTeamIssues env c teamID opts sent) <> Panicked.
Proof.
  unfold GetTeamIssues.
  destruct (getGraphQLQuery env "get_team_issues.graphql") as [query [err|]];
    [discriminate|].
  apply exec_then_no_panic. no_panic_cases.
Qed.

Lemma GetIssueChildren_never_panics env c issueID opts sent :
  fst (GetIssueChildren env c issueID opts sent) <> Panicked.
Proof.
  unfold GetIssueChildren.
  destruct (getGraphQLQuery env "get_issue_children.graphql") as [query [err|]];
    [discriminate|].
  apply exec_then_no_panic. no_panic_cases.
Qed.

Lemma GetProjects_never_panics env c opts sent :
  fst (GetProjects env c opts sent) <> Panicked.
Proof.
  unfold GetProjects. apply exec_then_no_panic. no_panic_cases.
Qed.

Lemma GetTeamProjects_never_panics env c teamID opts sent :
  fst (GetTeamProjects env c teamID opts sent) <> Panicked.
Proof.
  unfold GetTeamProjects.
  destruct (getGraphQLQuery env "get_team_projects.graphql") as [query [err|]];
    [discriminate|].
  apply exec_then_no_panic. no_panic_cases.
Qed.

Lemma GetProjectIssues_never_panics env c projectID opts sent :
  fst (GetProjectIssues env c projectID opts sent) <> Panicked.
Proof.
  unfold GetProjectIssues.
  destruct (getGraphQLQuery env "get_project_issues.graphql") as [query [err|]];
    [discriminate|].
  apply exec_then_no_panic. no_panic_cases.
Qed.

Lemma GetIssue_never_panics env c issueID opts sent :
  fst (GetIssue env c issueID opts sent) <> Panicked.
Proof.
  unfold GetIssue.
  destruct (getGraphQLQuery env "get_issue.graphql") as [query [err|]];
    [discriminate|].
  apply exec_then_no_panic.
  intros r s Hr. destruct r as [[resp|] [err|]]; try congruence; try discriminate.
  destruct (as_map (index (Data resp) "issue")) as [issueData|]; [|discriminate].
  destruct opts as [o|]; [|discriminate].
  destruct (IncludeChildren o); [|discriminate].
  rewrite M_bind_run.
  match goal with |- context [GetIssueChildren env c issueID ?co s] =>
    pose proof (GetIssueChildren_never_panics env c issueID co s) as Hc;
    destruct (GetIssueChildren env c issueID co s) as [[rc|] s'] end;
    [|exfalso; apply Hc; reflexivity].
  destruct rc as [children [err|]]; discriminate.
Qed.

(** A First outside 1..100 is the same call as nil options: no error
    comes of it, and no boundary value is sent. *)
Lemma out_of_range_First_is_default env c id (n : Z) :
  n <= 0 \/ 100 < n ->
  GetTeamIssues env c id (Some (mkGetTeamIssuesOptions n))
  = GetTeamIssues env c id None
  /\ GetIssueChildren env c id (Some (mkGetIssueChildrenOptions n))
     = GetIssueChildren env c id None
  /\ (forall State,
        GetProjects env c (Some (mkGetProjectsOptions n State))
        = GetProjects env c (Some (mkGetProjectsOptions 0 State))).
Proof.
  intros Hn.
  assert (E : (0 <? n) && (n <=? 100) = false).
  { destruct (0 <? n) eqn:H1; destruct (n <=? 100) eqn:H2; try reflexivity.
    apply Z.ltb_lt in H1. apply Z.leb_le in H2. lia. }
  unfold GetTeamIssues, GetIssueChildren, GetProjects, GetProjects_query,
    GetProjects_filterClause.
  cbn [GetTeamIssuesOptions_First GetIssueChildrenOptions_First
       GetProjectsOptions_First GetProjectsOptions_State].
  rewrite E. change ((0 <? 0) && (0 <=? 100)) with false. cbv iota.
  split; [reflexivity|]. split; [reflexivity|]. intros State. reflexivity.
Qed.

(** ** Claims on page sizes and nil options *)

Lemma sends_no_first_singleton c query (key : string) (v : value) :
  key <> "first" ->
  sends_no_first
    (NewRequest c (mkGraphQLRequest query (Some {[ key := v ]}))).
Proof.
  intros Hk. eexists. split; [reflexivity|].
  apply lookup_singleton_ne. exact Hk.
Qed.

(** C1.  The claim lists [GetTeamProjects] and [GetProjectIssues] among the
    operations that send [first]; they accept an options value with a
    First field and never read it.  Whatever the options, every request
    either of them issues carries its id variable alone; at First = 10
    against a peer that answers, exactly one such request goes out. *)
Theorem GetTeamProjects_GetProjectIssues_drop_First :
  (forall env c teamID opts sent,
      Forall sends_no_first (issued (GetTeamProjects env c teamID opts) sent))
  /\ (forall env c projectID opts sent,
      Forall sends_no_first (issued (GetProjectIssues env c projectID opts) sent))
  /\ issued (GetTeamProjects sample_env (sample_client [ok_answer ∅ []])
               "team-1" (Some (mkGetTeamProjectsOptions 10))) []
     = [NewRequest (sample_client [ok_answer ∅ []])
          (mkGraphQLRequest "query GetTeamProjects"
             (Some {[ "teamId" := VString "team-1" ]}))]
  /\ issued (GetProjectIssues sample_env (sample_client [ok_answer ∅ []])
               "project-1" (Some (mkGetProjectIssuesOptions 10))) []
     = [NewRequest (sample_client [ok_answer ∅ []])
          (mkGraphQLRequest "query GetProjectIssues"
             (Some {[ "projectId" := VString "project-1" ]}))].
Proof.
  split; [|split; [|split]].
  - intros env c teamID opts sent. unfold GetTeamProjects.
    destruct (getGraphQLQuery env "get_team_projects.graphql") as [query [err|]].
    { rewrite issued_nil by reflexivity. constructor. }
    apply exec_then_quiet_Forall.
    + intros r. quiet_cases.
    + apply sends_no_first_singleton. discriminate.
  - intros env c projectID opts sent. unfold GetProjectIssues.
    destruct (getGraphQLQuery env "get_project_issues.graphql") as [query [err|]].
    { rewrite issued_nil by reflexivity. constructor. }
    apply exec_then_quiet_Forall.
    + intros r. quiet_cases.
    + apply sends_no_first_singleton. discriminate.
  - vm_compute. reflexivity.
  - vm_compute. reflexivity.
Qed.

(** The page size and the tests on zero-valued options, evaluated. *)
Ltac nil_is_zero :=
  cbn [GetTeamIssuesOptions_First GetIssueChildrenOptions_First
       GetProjectsOptions_First GetProjectsOptions_State
       IncludeChildren ChildrenFirst];
  change ((0 <? 0) && (0 <=? 100)) with false;
  cbv iota;
  reflexivity.

(** C9.  Nil options are safe.  Each of the six operations, called with a
    nil options pointer, is the same computation as with the zero-valued
    options, and never panics; the three that send [first] send 50, the
    filter clause of [GetProjects] is empty, and [GetIssue] issues at most
    its one primary request, without any children fetch. *)
Theorem nil_options_are_default_options env c id :
  GetTeamIssues env c id None
    = GetTeamIssues env c id (Some (mkGetTeamIssuesOptions 0))
  /\ GetIssue env c id None
    = GetIssue env c id (Some (mkGetIssueOptions false 0))
  /\ GetIssueChildren env c id None
    = GetIssueChildren env c id (Some (mkGetIssueChildrenOptions 0))
  /\ GetProjects env c None
    = GetProjects env c (Some (mkGetProjectsOptions 0 ""))
  /\ GetTeamProjects env c id None
    = GetTeamProjects env c id (Some (mkGetTeamProjectsOptions 0))
  /\ GetProjectIssues env c id None
    = GetProjectIssues env c id (Some (mkGetProjectIssuesOptions 0))
  /\ (forall sent,
        fst (GetTeamIssues env c id None sent) <> Panicked
        /\ fst (GetIssue env c id None sent) <> Panicked
        /\ fst (GetIssueChildren env c id None sent) <> Panicked
        /\ fst (GetProjects env c None sent) <> Panicked
        /\ fst (GetTeamProjects env c id None sent) <> Panicked
        /\ fst (GetProjectIssues env c id None sent) <> Panicked)
  /\ (forall sent,
        Forall (sends_first 50) (issued (GetTeamIssues env c id None) sent)
        /\ Forall (sends_first 50) (issued (GetIssueChildren env c id None) sent)
        /\ Forall (sends_first 50) (issued (GetProjects env c None) sent))
  /\ GetProjects_query None = GetProjects_before +:+ GetProjects_after
  /\ (forall sent,
        (length (issued (GetIssue env c id None) sent) <= 1)%nat
        /\ match fst (GetIssue env c id None sent) with
           | Returned (Some issue, _) => Issue_Children issue = None
           | _ => True
           end).
Proof.
  split; [unfold GetTeamIssues; nil_is_zero|].
  split; [unfold GetIssue; nil_is_zero|].
  split; [unfold GetIssueChildren; nil_is_zero|].
  split; [unfold GetProjects, GetProjects_query, GetProjects_filterClause;
          nil_is_zero|].
  split; [unfold GetTeamProjects; nil_is_zero|].
  split; [unfold GetProjectIssues; nil_is_zero|].
  split.
  { intros sent. repeat split.
    - apply GetTeamIssues_never_panics.
    - apply GetIssue_never_panics.
    - apply GetIssueChildren_never_panics.
    - apply GetProjects_never_panics.
    - apply GetTeamProjects_never_panics.
    - apply GetProjectIssues_never_panics. }
  split.
  { intros sent. repeat split.
    - apply (GetTeamIssues_first env c id None).
    - apply (GetIssueChildren_first env c id None).
    - apply (GetProjects_first env c None). }
  split.
  { vm_compute. reflexivity. }
  intros sent. split.
  - unfold GetIssue.
    destruct (getGraphQLQuery env "get_issue.graphql") as [query [err|]].
    { rewrite issued_nil by reflexivity. simpl. lia. }
    apply exec_then_quiet_length. intros r. quiet_cases.
  - unfold GetIssue.
    destruct (getGraphQLQuery env "get_issue.graphql") as [query [e|]];
      [exact I|].
    match goal with |- context [ExecuteGraphQL env c query ?v] =>
      destruct (ExecuteGraphQL_shape env c query v sent)
        as (r & new & E & _ & Hr) end.
    rewrite M_bind_run, E.
    destruct r as [[resp|] [e|]]; try exact I.
    destruct (as_map (index (Data resp) "issue")) as [issueData|];
      [reflexivity|exact I].
Qed.

(** ** The query of [GetProjects] *)


Lemma Sprintf1_verb (before after arg : string) :
  no_percent before = true ->
  Sprintf1 (before +:+ String percent (String verb_s after)) (Some arg)
  = before +:+ arg +:+ Sprintf1 after None.
Proof.
  induction before as [|c before IH]; intros H.
  - reflexivity.
  - simpl in H. apply andb_true_iff in H. destruct H as [Hc Hb].
    apply negb_true_iff in Hc. simpl. rewrite Hc, (IH Hb). reflexivity.
Qed.





(** ** Claims on the transport *)

(** The combined error of a decoded response, if it lists any error. *)
Lemma exec_decoded env c query variables sent hr resp :
  json_Marshal_error (mkGraphQLRequest query variables) = None ->
  url_Parse_error env (apiURL c) = None ->
  httpCli c sent (NewRequest c (mkGraphQLRequest query variables)) = DoReturned hr ->
  ResponseBody hr = Decoded resp ->
  ExecuteGraphQL env c query variables sent
  = (Returned (Some resp,
               match Errors resp with
               | [] => None
               | _ :: _ =>
                   Some (GraphQLErrors
                           (strings_Join (map Message (Errors resp)) "; "))
               end),
     (sent ++ [NewRequest c (mkGraphQLRequest query variables)])%list).
Proof.
  intros Hm Hu Hrt Hbody.
  rewrite (ExecuteGraphQL_sends env c query variables sent Hm Hu).
  unfold reading. rewrite Hrt, Hbody.
  destruct (Errors resp); reflexivity.
Qed.

(** C5, as amended.  A decoded body that lists GraphQL errors makes
    [ExecuteGraphQL] return the decoded response together with one error,
    whose message is the fixed text "GraphQL errors: " followed by the
    messages of all listed errors joined with "; ". *)
Theorem ExecuteGraphQL_combines_GraphQL_errors
    env c query variables sent hr resp :
  json_Marshal_error (mkGraphQLRequest query variables) = None ->
  url_Parse_error env (apiURL c) = None ->
  httpCli c sent (NewRequest c (mkGraphQLRequest query variables)) = DoReturned hr ->
  ResponseBody hr = Decoded resp ->
  Errors resp <> [] ->
  exists e,
    fst (ExecuteGraphQL env c query variables sent) = Returned (Some resp, Some e)
    /\ Error e
       = "GraphQL errors: " +:+ strings_Join (map Message (Errors resp)) "; ".
Proof.
  intros Hm Hu Hrt Hbody Hne.
  rewrite (exec_decoded env c query variables sent hr resp Hm Hu Hrt Hbody).
  destruct (Errors resp) as [|e0 errors] eqn:HE; [congruence|].
  eexists. split; reflexivity.
Qed.

(** C5 at two listed errors. *)
Lemma ExecuteGraphQL_combines_GraphQL_errors_witness :
  exists e,
    fst (ExecuteGraphQL sample_env
           (sample_client [ok_answer ∅ ["not found"; "access denied"]])
           "query {}" None [])
    = Returned (Some (mkGraphQLResponse ∅ [mkGraphQLError "not found";
                                            mkGraphQLError "access denied"]),
                Some e)
    /\ Error e = "GraphQL errors: not found; access denied".
Proof.
  apply (ExecuteGraphQL_combines_GraphQL_errors sample_env
           (sample_client [ok_answer ∅ ["not found"; "access denied"]])
           "query {}" None []
           {| StatusCode := 200; Status := "200 OK";
              ResponseBody :=
                Decoded (mkGraphQLResponse ∅ [mkGraphQLError "not found";
                                              mkGraphQLError "access denied"]) |}
           (mkGraphQLResponse ∅ [mkGraphQLError "not found";
                                 mkGraphQLError "access denied"]));
    [reflexivity | reflexivity | reflexivity | reflexivity | discriminate].
Defined.

(** C5 as stated fails: the message of the combined error is not the
    joined messages alone, it starts with "GraphQL errors: ". *)
Lemma ExecuteGraphQL_error_message_has_prefix :
  exists resp e,
    fst (ExecuteGraphQL sample_env
           (sample_client [ok_answer ∅ ["not found"; "access denied"]])
           "query {}" None [])
    = Returned (Some resp, Some e)
    /\ strings_Join (map Message (Errors resp)) "; " = "not found; access denied"
    /\ Error e = "GraphQL errors: not found; access denied"
    /\ Error e <> strings_Join (map Message (Errors resp)) "; ".
Proof.
  eexists _, _. split; [vm_compute; reflexivity|].
  split; [reflexivity|]. split; [reflexivity|]. discriminate.
Qed.

(** C6, as amended.  How [ExecuteGraphQL] reports a failed round trip.  A
    request that cannot be built or sent, and a body that cannot be
    decoded under status 200, give a TransportError; a body that cannot be
    decoded under any other status, a success status such as 204
    included, gives an HTTPStatusError whose message names the status; a
    body that decodes is returned whatever the status, with a nil error
    exactly when it lists no GraphQL error. *)
Theorem ExecuteGraphQL_failure_kinds env c query variables sent :
  (forall err,
      json_Marshal_error (mkGraphQLRequest query variables) = Some err ->
      ExecuteGraphQL env c query variables sent
      = (Returned (None, Some (TransportError MarshalRequestBody err)), sent))
  /\ (forall err,
      json_Marshal_error (mkGraphQLRequest query variables) = None ->
      url_Parse_error env (apiURL c) = Some err ->
      ExecuteGraphQL env c query variables sent
      = (Returned (None, Some (TransportError CreateRequest err)), sent))
  /\ (json_Marshal_error (mkGraphQLRequest query variables) = None ->
      url_Parse_error env (apiURL c) = None ->
      forall rt,
        httpCli c sent (NewRequest c (mkGraphQLRequest query variables)) = rt ->
        (forall err,
            rt = DoFailed err ->
            fst (ExecuteGraphQL env c query variables sent)
            = Returned (None, Some (TransportError MakeRequest err)))
        /\ (forall hr err,
            rt = DoReturned hr ->
            ResponseBody hr = Undecodable err ->
            StatusCode hr = StatusOK ->
            fst (ExecuteGraphQL env c query variables sent)
            = Returned (None, Some (TransportError DecodeResponse err)))
        /\ (forall hr err,
            rt = DoReturned hr ->
            ResponseBody hr = Undecodable err ->
            StatusCode hr <> StatusOK ->
            fst (ExecuteGraphQL env c query variables sent)
            = Returned (None, Some (HTTPStatusError (Status hr)))
            /\ Error (HTTPStatusError (Status hr))
               = "received non-OK response: " +:+ Status hr)
        /\ (forall hr resp,
            rt = DoReturned hr ->
            ResponseBody hr = Decoded resp ->
            exists oerr,
              fst (ExecuteGraphQL env c query variables sent)
              = Returned (Some resp, oerr)
              /\ (oerr = None <-> Errors resp = []))).
Proof.
  split; [|split].
  - intros err Hm. unfold ExecuteGraphQL. rewrite Hm. reflexivity.
  - intros err Hm Hu. unfold ExecuteGraphQL. rewrite Hm, Hu. reflexivity.
  - intros Hm Hu rt Hrt.
    rewrite (ExecuteGraphQL_sends env c query variables sent Hm Hu).
    rewrite Hrt. cbn [fst]. split; [|split; [|split]].
    + intros err ->. reflexivity.
    + intros hr err -> Hbody Hstatus. unfold reading.
      rewrite Hbody, Hstatus. reflexivity.
    + intros hr err -> Hbody Hstatus. split; [|reflexivity].
      unfold reading. rewrite Hbody.
      destruct (StatusCode hr =? StatusOK) eqn:E; [|reflexivity].
      apply Z.eqb_eq in E. contradiction.
    + intros hr resp -> Hbody. unfold reading. rewrite Hbody.
      destruct (Errors resp) as [|e0 errors].
      * exists None. split; [reflexivity|]. split; reflexivity.
      * eexists. split; [reflexivity|]. split; discriminate.
Qed.

(** C6 at a refused connection, at a garbled body under 200 and under 502,
    at a decoded body under 500, at variables that cannot be encoded and
    at an endpoint that cannot be parsed. *)
Lemma ExecuteGraphQL_failure_kinds_witness :
  fst (ExecuteGraphQL sample_env
         (sample_client [DoFailed (LibraryError "connection refused")])
         "query {}" None [])
  = Returned (None, Some (TransportError MakeRequest
                            (LibraryError "connection refused")))
  /\ fst (ExecuteGraphQL sample_env (sample_client [DoReturned garbled_200])
            "query {}" None [])
     = Returned (None, Some (TransportError DecodeResponse
                               (LibraryError "invalid character '<'")))
  /\ fst (ExecuteGraphQL sample_env (sample_client [DoReturned garbled_502])
            "query {}" None [])
     = Returned (None, Some (HTTPStatusError "502 Bad Gateway"))
  /\ (exists oerr,
        fst (ExecuteGraphQL sample_env (sample_client [DoReturned decoded_500])
               "query {}" None [])
        = Returned (Some (mkGraphQLResponse ∅ []), oerr)
        /\ (oerr = None <-> Errors (mkGraphQLResponse ∅ []) = []))
  /\ ExecuteGraphQL sample_env (sample_client [])
        "query {}" (Some {[ "x" := VFloat S754_nan ]}) []
     = (Returned (None, Some (TransportError MarshalRequestBody
                                (LibraryError "json: unsupported value: NaN"))),
        [])
  /\ ExecuteGraphQL broken_url_env (sample_client []) "query {}" None []
     = (Returned (None,
                  Some (TransportError CreateRequest
                          (LibraryError
                             "parse: first path segment in URL cannot contain colon"))),
        []).
Proof.
  split; [|split; [|split; [|split; [|split]]]].
  - apply (proj2 (proj2 (ExecuteGraphQL_failure_kinds sample_env
             (sample_client [DoFailed (LibraryError "connection refused")])
             "query {}" None [])) eq_refl eq_refl _ eq_refl).
    reflexivity.
  - apply (proj2 (proj2 (ExecuteGraphQL_failure_kinds sample_env
             (sample_client [DoReturned garbled_200])
             "query {}" None [])) eq_refl eq_refl _ eq_refl) with (hr := garbled_200);
      reflexivity.
  - apply (proj2 (proj2 (ExecuteGraphQL_failure_kinds sample_env
             (sample_client [DoReturned garbled_502])
             "query {}" None [])) eq_refl eq_refl _ eq_refl)
      with (hr := garbled_502) (err := LibraryError "invalid character '<'");
      [reflexivity | reflexivity | discriminate].
  - apply (proj2 (proj2 (ExecuteGraphQL_failure_kinds sample_env
             (sample_client [DoReturned decoded_500])
             "query {}" None [])) eq_refl eq_refl _ eq_refl)
      with (hr := decoded_500); reflexivity.
  - apply (proj1 (ExecuteGraphQL_failure_kinds sample_env (sample_client [])
             "query {}" (Some {[ "x" := VFloat S754_nan ]}) [])).
    vm_compute. reflexivity.
  - apply (proj1 (proj2 (ExecuteGraphQL_failure_kinds broken_url_env
             (sample_client []) "query {}" None []))); reflexivity.
Defined.

(** C6 as stated fails: under 204, a success status, a body that cannot
    be decoded is reported as an HTTPStatusError naming the status, not as
    a TransportError; the test of the source is on status 200 alone. *)
Lemma ExecuteGraphQL_garbled_body_under_success_status :
  200 <= StatusCode garbled_204 < 300
  /\ StatusCode garbled_204 <> StatusOK
  /\ ResponseBody garbled_204 = Undecodable (LibraryError "EOF")
  /\ fst (ExecuteGraphQL sample_env (sample_client [DoReturned garbled_204])
            "query {}" None [])
     = Returned (None, Some (HTTPStatusError "204 No Content"))
  /\ Error (HTTPStatusError "204 No Content")
     = "received non-OK response: 204 No Content"
  /\ (forall step cause,
        fst (ExecuteGraphQL sample_env (sample_client [DoReturned garbled_204])
               "query {}" None [])
        <> Returned (None, Some (TransportError step cause))).
Proof.
  split; [unfold garbled_204; cbn [StatusCode]; lia|].
  split; [discriminate|]. split; [reflexivity|].
  split; [vm_compute; reflexivity|]. split; [reflexivity|].
  intros step cause. vm_compute. discriminate.
Qed.

(** ** The variables of the mutations can be encoded *)

Lemma supported_put_nonempty key s (inputObj : gmap string value) :
  map_Forall (fun _ v => json_unsupported v = None) inputObj ->
  map_Forall (fun _ v => json_unsupported v = None) (put_nonempty key s inputObj).
Proof.
  intros H. unfold put_nonempty. destruct (decide (s = "")); auto with marshal.
Qed.

Lemma supported_put_present key p (inputObj : gmap string value) :
  map_Forall (fun _ v => json_unsupported v = None) inputObj ->
  map_Forall (fun _ v => json_unsupported v = None) (put_present key p inputObj).
Proof.
  intros H. unfold put_present. destruct p; auto with marshal.
Qed.

Lemma supported_put_teamIds ids (inputObj : gmap string value) :
  map_Forall (fun _ v => json_unsupported v = None) inputObj ->
  map_Forall (fun _ v => json_unsupported v = None) (put_teamIds ids inputObj).
Proof.
  intros H. unfold put_teamIds.
  destruct (0 <? Z.of_nat (length ids)); auto with marshal.
Qed.

#[local] Hint Resolve supported_put_nonempty supported_put_present
  supported_put_teamIds json_unsupported_VMap : marshal.

Lemma CreateIssue_variables_supported input :
  map_Forall (fun _ v => json_unsupported v = None) (CreateIssue_variables input).
Proof.
  unfold CreateIssue_variables. cbv zeta.
  apply supported_singleton, json_unsupported_VMap.
  do 4 apply supported_put_nonempty.
  destruct (0 <? CreateIssueInput_Priority input); auto 10 with marshal.
Qed.

Lemma UpdateIssue_variables_supported issueID input :
  map_Forall (fun _ v => json_unsupported v = None)
             (UpdateIssue_variables issueID input).
Proof.
  unfold UpdateIssue_variables. cbv zeta.
  apply supported_insert; [reflexivity|].
  apply supported_singleton, json_unsupported_VMap.
  do 4 apply supported_put_present.
  destruct (UpdateIssueInput_Priority input); auto 10 with marshal.
Qed.

Lemma CreateProject_variables_supported input :
  map_Forall (fun _ v => json_unsupported v = None) (CreateProject_variables input).
Proof.
  unfold CreateProject_variables. cbv zeta.
  apply supported_singleton, json_unsupported_VMap.
  auto 20 with marshal.
Qed.

Lemma UpdateProject_variables_supported projectID input :
  map_Forall (fun _ v => json_unsupported v = None)
             (UpdateProject_variables projectID input).
Proof.
  unfold UpdateProject_variables. cbv zeta.
  apply supported_insert; [reflexivity|].
  apply supported_singleton, json_unsupported_VMap.
  auto 20 with marshal.
Qed.

(** ** Claims on the mutations *)

(** One call of [ExecuteGraphQL] followed by a mapper that sends nothing,
    when the round trip brings back a body that decodes. *)
Lemma exec_then_map {B : Type} env c query variables
    (k : result GraphQLResponse -> M B) sent hr resp :
  json_Marshal_error (mkGraphQLRequest query variables) = None ->
  url_Parse_error env (apiURL c) = None ->
  httpCli c sent (NewRequest c (mkGraphQLRequest query variables)) = DoReturned hr ->
  ResponseBody hr = Decoded resp ->
  (ExecuteGraphQL env c query variables ≫= k) sent
  = k (Some resp,
       match Errors resp with
       | [] => None
       | _ :: _ =>
           Some (GraphQLErrors (strings_Join (map Message (Errors resp)) "; "))
       end)
      (sent ++ [NewRequest c (mkGraphQLRequest query variables)])%list.
Proof.
  intros Hm Hu Hrt Hbody. rewrite M_bind_run.
  rewrite (exec_decoded env c query variables sent hr resp Hm Hu Hrt Hbody).
  reflexivity.
Qed.

Lemma issue_mutation_refused resp container what m :
  as_map (index (Data resp) container) = Some m ->
  m !! "success" <> Some (VBool true) ->
  issue_mutation_result resp container what
  = (None, Some (MutationFailedError what)).
Proof.
  intros Hc Hs. unfold issue_mutation_result. rewrite Hc.
  unfold index. destruct (m !! "success") as [[| [|] | | | | | |]|];
    try reflexivity.
  congruence.
Qed.

Lemma project_mutation_refused resp container what m :
  as_map (index (Data resp) container) = Some m ->
  m !! "success" <> Some (VBool true) ->
  project_mutation_result resp container what
  = (None, Some (MutationFailedError what)).
Proof.
  intros Hc Hs. unfold project_mutation_result. rewrite Hc.
  unfold index. destruct (m !! "success") as [[| [|] | | | | | |]|];
    try reflexivity.
  congruence.
Qed.

(** The three ways of not being [true]: false, absent, not a boolean. *)
Lemma not_successful_cases (m : gmap string value) :
  m !! "success" <> Some (VBool true)
  <-> (m !! "success" = Some (VBool false)
       \/ m !! "success" = None
       \/ exists v, m !! "success" = Some v /\ as_bool v = None).
Proof.
  split.
  - intros H. destruct (m !! "success") as [v|]; [|right; left; reflexivity].
    destruct v as [| [|] | | | | | |];
      first [ congruence
            | left; reflexivity
            | right; right; eexists; split; reflexivity ].
  - intros [H | [H | (v & H & Hv)]]; rewrite H; try discriminate.
    intros E. inversion E. subst v. discriminate.
Qed.

(** C2, as amended.  When the body decodes and the mutation container is an
    object whose [success] is false, absent or not a boolean, each of the
    four mutations returns a nil record and an error, whatever else the
    container holds: no issue or project object in it is mapped.  The
    error is the MutationFailedError of the operation when the response
    lists no GraphQL error, and the combined GraphQL error when it does. *)
Theorem refused_mutation_returns_no_record env c sent hr resp m :
  url_Parse_error env (apiURL c) = None ->
  ResponseBody hr = Decoded resp ->
  m !! "success" <> Some (VBool true) ->
  (forall input query,
      getGraphQLQuery env "create_issue.graphql" = (query, None) ->
      httpCli c sent
        (NewRequest c (mkGraphQLRequest query (Some (CreateIssue_variables input))))
      = DoReturned hr ->
      as_map (index (Data resp) "issueCreate") = Some m ->
      fst (CreateIssue env c input sent)
      = Returned (None, Some (failure_of resp (MutationFailedError "issue creation"))))
  /\ (forall issueID input query,
      getGraphQLQuery env "update_issue.graphql" = (query, None) ->
      httpCli c sent
        (NewRequest c (mkGraphQLRequest query
                         (Some (UpdateIssue_variables issueID input))))
      = DoReturned hr ->
      as_map (index (Data resp) "issueUpdate") = Some m ->
      fst (UpdateIssue env c issueID input sent)
      = Returned (None, Some (failure_of resp (MutationFailedError "issue update"))))
  /\ (forall input,
      httpCli c sent
        (NewRequest c (mkGraphQLRequest CreateProject_query
                         (Some (CreateProject_variables input))))
      = DoReturned hr ->
      as_map (index (Data resp) "projectCreate") = Some m ->
      fst (CreateProject env c input sent)
      = Returned (None, Some (failure_of resp (MutationFailedError "project creation"))))
  /\ (forall projectID input,
      httpCli c sent
        (NewRequest c (mkGraphQLRequest UpdateProject_query
                         (Some (UpdateProject_variables projectID input))))
      = DoReturned hr ->
      as_map (index (Data resp) "projectUpdate") = Some m ->
      fst (UpdateProject env c projectID input sent)
      = Returned (None, Some (failure_of resp (MutationFailedError "project update")))).
Proof.
  intros Hu Hbody Hs. split; [|split; [|split]].
  - intros input query Hq Hrt Hc. unfold CreateIssue. rewrite Hq.
    rewrite (exec_then_map env c query _ _ sent hr resp
               (marshal_ok _ _ (CreateIssue_variables_supported input))
               Hu Hrt Hbody).
    unfold failure_of. destruct (Errors resp); [|reflexivity].
    rewrite M_ret_run. cbn [fst].
    rewrite (issue_mutation_refused resp _ _ m Hc Hs). reflexivity.
  - intros issueID input query Hq Hrt Hc. unfold UpdateIssue. rewrite Hq.
    rewrite (exec_then_map env c query _ _ sent hr resp
               (marshal_ok _ _ (UpdateIssue_variables_supported issueID input))
               Hu Hrt Hbody).
    unfold failure_of. destruct (Errors resp); [|reflexivity].
    rewrite M_ret_run. cbn [fst].
    rewrite (issue_mutation_refused resp _ _ m Hc Hs). reflexivity.
  - intros input Hrt Hc. unfold CreateProject. cbv zeta.
    rewrite (exec_then_map env c CreateProject_query _ _ sent hr resp
               (marshal_ok _ _ (CreateProject_variables_supported input))
               Hu Hrt Hbody).
    unfold failure_of. destruct (Errors resp); [|reflexivity].
    rewrite M_ret_run. cbn [fst].
    rewrite (project_mutation_refused resp _ _ m Hc Hs). reflexivity.
  - intros projectID input Hrt Hc. unfold UpdateProject. cbv zeta.
    rewrite (exec_then_map env c UpdateProject_query _ _ sent hr resp
               (marshal_ok _ _ (UpdateProject_variables_supported projectID input))
               Hu Hrt Hbody).
    unfold failure_of. destruct (Errors resp); [|reflexivity].
    rewrite M_ret_run. cbn [fst].
    rewrite (project_mutation_refused resp _ _ m Hc Hs). reflexivity.
Qed.

(** C2 at a response that reports failure under each mutation key, with a
    populated issue and project next to the flag and no GraphQL error. *)
Lemma refused_mutation_returns_no_record_witness :
  fst (CreateIssue sample_env (sample_client [ok_answer refusing_data []])
         sample_CreateIssueInput [])
  = Returned (None, Some (MutationFailedError "issue creation"))
  /\ fst (UpdateIssue sample_env (sample_client [ok_answer refusing_data []])
            "issue-1" sample_UpdateIssueInput [])
     = Returned (None, Some (MutationFailedError "issue update"))
  /\ fst (CreateProject sample_env (sample_client [ok_answer refusing_data []])
            sample_CreateProjectInput [])
     = Returned (None, Some (MutationFailedError "project creation"))
  /\ fst (UpdateProject sample_env (sample_client [ok_answer refusing_data []])
            "project-1" sample_UpdateProjectInput [])
     = Returned (None, Some (MutationFailedError "project update")).
Proof.
  assert (Hs : refusal !! "success" <> Some (VBool true))
    by (vm_compute; discriminate).
  destruct (refused_mutation_returns_no_record sample_env
              (sample_client [ok_answer refusing_data []]) []
              (ok_response refusing_data []) (ok_decoded refusing_data [])
              refusal eq_refl eq_refl Hs) as (H1 & H2 & H3 & H4).
  split; [|split; [|split]].
  - apply (H1 sample_CreateIssueInput "mutation CreateIssue");
      vm_compute; reflexivity.
  - apply (H2 "issue-1" sample_UpdateIssueInput "mutation UpdateIssue");
      vm_compute; reflexivity.
  - apply (H3 sample_CreateProjectInput); vm_compute; reflexivity.
  - apply (H4 "project-1" sample_UpdateProjectInput); vm_compute; reflexivity.
Defined.

(** C2 as stated fails: when the response lists a GraphQL error next to a
    container with [success] false, [CreateIssue] returns the combined
    GraphQL error, which is no MutationFailedError. *)
Lemma refused_mutation_with_GraphQL_error :
  as_map (index (Data (ok_decoded refusing_data ["Title is required"]))
                "issueCreate") = Some refusal
  /\ refusal !! "success" = Some (VBool false)
  /\ fst (CreateIssue sample_env
            (sample_client [ok_answer refusing_data ["Title is required"]])
            sample_CreateIssueInput [])
     = Returned (None, Some (GraphQLErrors "Title is required"))
  /\ ~ is_MutationFailedError (GraphQLErrors "Title is required").
Proof.
  split; [vm_compute; reflexivity|].
  split; [vm_compute; reflexivity|].
  split; [vm_compute; reflexivity|].
  intros H. exact H.
Qed.

(** ** Claims on the list operations *)

(** Settling a strict list operation: the round trip, then the errors
    listed, then the chain of containers. *)
Ltac strict_list env c sent hr resp Hu Hrt Hbody Hnodes :=
  cbv zeta;
  match goal with
  | |- context [(ExecuteGraphQL env c ?q ?v ≫= ?k) sent] =>
      let Hm := fresh "Hm" in
      assert (Hm : json_Marshal_error (mkGraphQLRequest q v) = None)
        by (lazymatch v with
            | None => apply marshal_ok_nil
            | Some _ => apply marshal_ok; auto with marshal
            end);
      rewrite (exec_then_map env c q v _ sent hr resp Hm Hu Hrt Hbody);
      clear Hm
  end;
  unfold failure_of; destruct (Errors resp); [|reflexivity];
  unfold nodes_at in Hnodes; cbn [descend map fst] in Hnodes;
  cbn [first_missing];
  repeat match goal with
         | |- context [as_map ?x] => destruct (as_map x)
         | |- context [as_list ?x] => destruct (as_list x)
         end;
  first [ discriminate Hnodes | reflexivity ].

Lemma GetTeams_malformed env c sent hr resp :
  url_Parse_error env (apiURL c) = None ->
  httpCli c sent (NewRequest c (mkGraphQLRequest GetTeams_query None))
  = DoReturned hr ->
  ResponseBody hr = Decoded resp ->
  nodes_at (Data resp) ["teams"] = None ->
  fst (GetTeams env c sent)
  = Returned (None,
              Some (failure_of resp
                      (MalformedResponseError
                         (first_missing (Data resp) [("teams", "teams data")]
                                        "teams nodes")))).
Proof.
  intros Hu Hrt Hbody Hnodes. unfold GetTeams.
  strict_list env c sent hr resp Hu Hrt Hbody Hnodes.
Qed.

Lemma GetTeamIssues_malformed env c teamID opts sent query hr resp :
  url_Parse_error env (apiURL c) = None ->
  getGraphQLQuery env "get_team_issues.graphql" = (query, None) ->
  httpCli c sent
    (NewRequest c
       (mkGraphQLRequest query
          (Some (<[ "first" := VInt (page_size (GetTeamIssuesOptions_First <$> opts)) ]>
                   {[ "teamId" := VString teamID ]}))))
  = DoReturned hr ->
  ResponseBody hr = Decoded resp ->
  nodes_at (Data resp) ["team"; "issues"] = None ->
  fst (GetTeamIssues env c teamID opts sent)
  = Returned (None,
              Some (failure_of resp
                      (MalformedResponseError
                         (first_missing (Data resp)
                            [("team", "team data"); ("issues", "issues data")]
                            "issues nodes")))).
Proof.
  intros Hu Hq Hrt Hbody Hnodes. unfold GetTeamIssues. rewrite Hq.
  replace (match opts with
           | Some o =>
               if (0 <? GetTeamIssuesOptions_First o)
                  && (GetTeamIssuesOptions_First o <=? 100)
               then GetTeamIssuesOptions_First o else 50
           | None => 50
           end)
    with (page_size (GetTeamIssuesOptions_First <$> opts))
    by (destruct opts; reflexivity).
  strict_list env c sent hr resp Hu Hrt Hbody Hnodes.
Qed.

Lemma GetIssueChildren_malformed env c issueID opts sent query hr resp :
  url_Parse_error env (apiURL c) = None ->
  getGraphQLQuery env "get_issue_children.graphql" = (query, None) ->
  httpCli c sent
    (NewRequest c
       (mkGraphQLRequest query
          (Some (<[ "first" := VInt (page_size (GetIssueChildrenOptions_First <$> opts)) ]>
                   {[ "id" := VString issueID ]}))))
  = DoReturned hr ->
  ResponseBody hr = Decoded resp ->
  nodes_at (Data resp) ["issue"; "children"] = None ->
  fst (GetIssueChildren env c issueID opts sent)
  = Returned (None,
              Some (failure_of resp
                      (MalformedResponseError
                         (first_missing (Data resp)
                            [("issue", "issue data"); ("children", "children data")]
                            "children nodes")))).
Proof.
  intros Hu Hq Hrt Hbody Hnodes. unfold GetIssueChildren. rewrite Hq.
  replace (match opts with
           | Some o =>
               if (0 <? GetIssueChildrenOptions_First o)
                  && (GetIssueChildrenOptions_First o <=? 100)
               then GetIssueChildrenOptions_First o else 50
           | None => 50
           end)
    with (page_size (GetIssueChildrenOptions_First <$> opts))
    by (destruct opts; reflexivity).
  strict_list env c sent hr resp Hu Hrt Hbody Hnodes.
Qed.

Lemma GetProjects_malformed env c opts sent hr resp :
  url_Parse_error env (apiURL c) = None ->
  httpCli c sent
    (NewRequest c
       (mkGraphQLRequest (GetProjects_query opts)
          (Some (<[ "first" := VInt (page_size (GetProjectsOptions_First <$> opts)) ]>
                   ∅))))
  = DoReturned hr ->
  ResponseBody hr = Decoded resp ->
  nodes_at (Data resp) ["projects"] = None ->
  fst (GetProjects env c opts sent)
  = Returned (None,
              Some (failure_of resp
                      (MalformedResponseError
                         (first_missing (Data resp)
                            [("projects", "projects data")] "projects nodes")))).
Proof.
  intros Hu Hrt Hbody Hnodes. unfold GetProjects.
  replace (match opts with
           | Some o =>
               if (0 <? GetProjectsOptions_First o)
                  && (GetProjectsOptions_First o <=? 100)
               then GetProjectsOptions_First o else 50
           | None => 50
           end)
    with (page_size (GetProjectsOptions_First <$> opts))
    by (destruct opts; reflexivity).
  strict_list env c sent hr resp Hu Hrt Hbody Hnodes.
Qed.

Lemma GetTeamProjects_malformed env c teamID opts sent query hr resp :
  url_Parse_error env (apiURL c) = None ->
  getGraphQLQuery env "get_team_projects.graphql" = (query, None) ->
  httpCli c sent
    (NewRequest c (mkGraphQLRequest query (Some {[ "teamId" := VString teamID ]})))
  = DoReturned hr ->
  ResponseBody hr = Decoded resp ->
  nodes_at (Data resp) ["team"; "projects"] = None ->
  fst (GetTeamProjects env c teamID opts sent)
  = Returned (None,
              Some (failure_of resp
                      (MalformedResponseError
                         (first_missing (Data resp)
                            [("team", "team data"); ("projects", "projects data")]
                            "projects nodes")))).
Proof.
  intros Hu Hq Hrt Hbody Hnodes. unfold GetTeamProjects. rewrite Hq.
  strict_list env c sent hr resp Hu Hrt Hbody Hnodes.
Qed.

(** [GetProjectIssues] insists on the [project] object only. *)
Lemma GetProjectIssues_malformed env c projectID opts sent query hr resp :
  url_Parse_error env (apiURL c) = None ->
  getGraphQLQuery env "get_project_issues.graphql" = (query, None) ->
  httpCli c sent
    (NewRequest c
       (mkGraphQLRequest query (Some {[ "projectId" := VString projectID ]})))
  = DoReturned hr ->
  ResponseBody hr = Decoded resp ->
  as_map (index (Data resp) "project") = None ->
  fst (GetProjectIssues env c projectID opts sent)
  = Returned (None, Some (failure_of resp (MalformedResponseError "project data"))).
Proof.
  intros Hu Hq Hrt Hbody Hp. unfold GetProjectIssues. rewrite Hq. cbv zeta.
  rewrite (exec_then_map env c query _ _ sent hr resp
             (marshal_ok _ _ (supported_singleton "projectId" (VString projectID)
                                                   eq_refl))
             Hu Hrt Hbody).
  unfold failure_of. destruct (Errors resp); [|reflexivity].
  rewrite Hp. reflexivity.
Qed.

Lemma GetProjectIssues_lenient env c projectID opts sent query hr resp projectData :
  url_Parse_error env (apiURL c) = None ->
  getGraphQLQuery env "get_project_issues.graphql" = (query, None) ->
  httpCli c sent
    (NewRequest c
       (mkGraphQLRequest query (Some {[ "projectId" := VString projectID ]})))
  = DoReturned hr ->
  ResponseBody hr = Decoded resp ->
  Errors resp = [] ->
  as_map (index (Data resp) "project") = Some projectData ->
  nodes_at projectData ["issues"] = None ->
  fst (GetProjectIssues env c projectID opts sent)
  = Returned (Some {| ProjectWithIssues_ID := safeGetString projectData "id";
                      ProjectWithIssues_Status := status_block projectData;
                      ProjectWithIssues_Issues := None |},
              None).
Proof.
  intros Hu Hq Hrt Hbody He Hp Hnodes. unfold GetProjectIssues. rewrite Hq.
  cbv zeta.
  rewrite (exec_then_map env c query _ _ sent hr resp
             (marshal_ok _ _ (supported_singleton "projectId" (VString projectID)
                                                   eq_refl))
             Hu Hrt Hbody).
  rewrite He, Hp. unfold nodes_at in Hnodes. cbn [descend] in Hnodes.
  destruct (as_map (index projectData "issues")) as [issuesData|];
    [|reflexivity].
  rewrite Hnodes. reflexivity.
Qed.

(** C3, as amended.  When the body decodes and the [nodes] array of the
    expected container cannot be reached, [GetTeams], [GetTeamIssues],
    [GetIssueChildren], [GetProjects] and [GetTeamProjects] return a nil
    list and an error: the MalformedResponseError naming the first element
    that is absent or mis-shaped when the response lists no GraphQL error,
    the combined GraphQL error when it does.  [GetProjectIssues] does so
    for a missing [project] object only; a project without a reachable
    [nodes] array of issues is returned without error, its Issues unset. *)
Theorem malformed_list_response env c sent hr resp :
  url_Parse_error env (apiURL c) = None ->
  ResponseBody hr = Decoded resp ->
  (httpCli c sent (NewRequest c (mkGraphQLRequest GetTeams_query None))
   = DoReturned hr ->
   nodes_at (Data resp) ["teams"] = None ->
   fst (GetTeams env c sent)
   = Returned (None,
               Some (failure_of resp
                       (MalformedResponseError
                          (first_missing (Data resp) [("teams", "teams data")]
                                         "teams nodes")))))
  /\ (forall teamID opts query,
      getGraphQLQuery env "get_team_issues.graphql" = (query, None) ->
      httpCli c sent
        (NewRequest c
           (mkGraphQLRequest query
              (Some (<[ "first" :=
                          VInt (page_size (GetTeamIssuesOptions_First <$> opts)) ]>
                       {[ "teamId" := VString teamID ]}))))
      = DoReturned hr ->
      nodes_at (Data resp) ["team"; "issues"] = None ->
      fst (GetTeamIssues env c teamID opts sent)
      = Returned (None,
                  Some (failure_of resp
                          (MalformedResponseError
                             (first_missing (Data resp)
                                [("team", "team data"); ("issues", "issues data")]
                                "issues nodes")))))
  /\ (forall issueID opts query,
      getGraphQLQuery env "get_issue_children.graphql" = (query, None) ->
      httpCli c sent
        (NewRequest c
           (mkGraphQLRequest query
              (Some (<[ "first" :=
                          VInt (page_size (GetIssueChildrenOptions_First <$> opts)) ]>
                       {[ "id" := VString issueID ]}))))
      = DoReturned hr ->
      nodes_at (Data resp) ["issue"; "children"] = None ->
      fst (GetIssueChildren env c issueID opts sent)
      = Returned (None,
                  Some (failure_of resp
                          (MalformedResponseError
                             (first_missing (Data resp)
                                [("issue", "issue data");
                                 ("children", "children data")]
                                "children nodes")))))
  /\ (forall opts,
      httpCli c sent
        (NewRequest c
           (mkGraphQLRequest (GetProjects_query opts)
              (Some (<[ "first" :=
                          VInt (page_size (GetProjectsOptions_First <$> opts)) ]>
                       ∅))))
      = DoReturned hr ->
      nodes_at (Data resp) ["projects"] = None ->
      fst (GetProjects env c opts sent)
      = Returned (None,
                  Some (failure_of resp
                          (MalformedResponseError
                             (first_missing (Data resp)
                                [("projects", "projects data")]
                                "projects nodes")))))
  /\ (forall teamID opts query,
      getGraphQLQuery env "get_team_projects.graphql" = (query, None) ->
      httpCli c sent
        (NewRequest c
           (mkGraphQLRequest query (Some {[ "teamId" := VString teamID ]})))
      = DoReturned hr ->
      nodes_at (Data resp) ["team"; "projects"] = None ->
      fst (GetTeamProjects env c teamID opts sent)
      = Returned (None,
                  Some (failure_of resp
                          (MalformedResponseError
                             (first_missing (Data resp)
                                [("team", "team data");
                                 ("projects", "projects data")]
                                "projects nodes")))))
  /\ (forall projectID opts query,
      getGraphQLQuery env "get_project_issues.graphql" = (query, None) ->
      httpCli c sent
        (NewRequest c
           (mkGraphQLRequest query (Some {[ "projectId" := VString projectID ]})))
      = DoReturned hr ->
      (as_map (index (Data resp) "project") = None ->
       fst (GetProjectIssues env c projectID opts sent)
       = Returned (None,
                   Some (failure_of resp (MalformedResponseError "project data"))))
      /\ (forall projectData,
           Errors resp = [] ->
           as_map (index (Data resp) "project") = Some projectData ->
           nodes_at projectData ["issues"] = None ->
           fst (GetProjectIssues env c projectID opts sent)
           = Returned
               (Some {| ProjectWithIssues_ID := safeGetString projectData "id";
                        ProjectWithIssues_Status := status_block projectData;
                        ProjectWithIssues_Issues := None |},
                None))).
Proof.
  intros Hu Hbody. split; [|split; [|split; [|split; [|split]]]].
  - intros Hrt Hnodes. eapply GetTeams_malformed; eassumption.
  - intros teamID opts query Hq Hrt Hnodes.
    eapply GetTeamIssues_malformed; eassumption.
  - intros issueID opts query Hq Hrt Hnodes.
    eapply GetIssueChildren_malformed; eassumption.
  - intros opts Hrt Hnodes. eapply GetProjects_malformed; eassumption.
  - intros teamID opts query Hq Hrt Hnodes.
    eapply GetTeamProjects_malformed; eassumption.
  - intros projectID opts query Hq Hrt. split.
    + intros Hp. eapply GetProjectIssues_malformed; eassumption.
    + intros projectData He Hp Hnodes.
      eapply GetProjectIssues_lenient; eassumption.
Qed.

(** C3 at a response without data, for each of the six operations, and at
    a project without issues for the lenient part of [GetProjectIssues]. *)
Lemma malformed_list_response_witness :
  fst (GetTeams sample_env (sample_client [ok_answer ∅ []]) [])
  = Returned (None, Some (MalformedResponseError "teams data"))
  /\ fst (GetTeamIssues sample_env (sample_client [ok_answer ∅ []])
            "team-1" None [])
     = Returned (None, Some (MalformedResponseError "team data"))
  /\ fst (GetIssueChildren sample_env (sample_client [ok_answer ∅ []])
            "issue-1" None [])
     = Returned (None, Some (MalformedResponseError "issue data"))
  /\ fst (GetProjects sample_env (sample_client [ok_answer ∅ []]) None [])
     = Returned (None, Some (MalformedResponseError "projects data"))
  /\ fst (GetTeamProjects sample_env (sample_client [ok_answer ∅ []])
            "team-1" None [])
     = Returned (None, Some (MalformedResponseError "team data"))
  /\ fst (GetProjectIssues sample_env (sample_client [ok_answer ∅ []])
            "project-1" None [])
     = Returned (None, Some (MalformedResponseError "project data"))
  /\ fst (GetProjectIssues sample_env (sample_client [ok_answer bare_project []])
            "project-1" None [])
     = Returned (Some {| ProjectWithIssues_ID := "project-1";
                         ProjectWithIssues_Status := None;
                         ProjectWithIssues_Issues := None |}, None).
Proof.
  destruct (malformed_list_response sample_env (sample_client [ok_answer ∅ []])
              [] (ok_response ∅ []) (ok_decoded ∅ []) eq_refl eq_refl)
    as (H1 & H2 & H3 & H4 & H5 & H6).
  destruct (malformed_list_response sample_env
              (sample_client [ok_answer bare_project []])
              [] (ok_response bare_project []) (ok_decoded bare_project [])
              eq_refl eq_refl)
    as (_ & _ & _ & _ & _ & H7).
  split; [|split; [|split; [|split; [|split; [|split]]]]].
  - apply H1; vm_compute; reflexivity.
  - apply (H2 "team-1" None "query GetTeamIssues"); vm_compute; reflexivity.
  - apply (H3 "issue-1" None "query GetIssueChildren"); vm_compute; reflexivity.
  - apply (H4 None); vm_compute; reflexivity.
  - apply (H5 "team-1" None "query GetTeamProjects"); vm_compute; reflexivity.
  - apply (H6 "project-1" None "query GetProjectIssues");
      vm_compute; reflexivity.
  - destruct (H7 "project-1" None "query GetProjectIssues") as [_ H8];
      [vm_compute; reflexivity | vm_compute; reflexivity |].
    etransitivity;
      [apply (H8 {[ "id" := VString "project-1" ]}); vm_compute; reflexivity|].
    vm_compute. reflexivity.
Defined.

(** C3 as stated fails.  A project without an [issues] container makes
    [GetProjectIssues] return the project, Issues unset, and no error;
    and a response without data that lists a GraphQL error makes
    [GetTeams] return the combined GraphQL error, which is no
    MalformedResponseError. *)
Lemma missing_nodes_without_MalformedResponseError :
  nodes_at bare_project ["project"; "issues"] = None
  /\ fst (GetProjectIssues sample_env (sample_client [ok_answer bare_project []])
            "project-1" None [])
     = Returned (Some {| ProjectWithIssues_ID := "project-1";
                         ProjectWithIssues_Status := None;
                         ProjectWithIssues_Issues := None |}, None)
  /\ nodes_at ∅ ["teams"] = None
  /\ fst (GetTeams sample_env (sample_client [ok_answer ∅ ["not found"]]) [])
     = Returned (None, Some (GraphQLErrors "not found"))
  /\ ~ is_MalformedResponseError (GraphQLErrors "not found").
Proof.
  split; [vm_compute; reflexivity|].
  split; [vm_compute; reflexivity|].
  split; [vm_compute; reflexivity|].
  split; [vm_compute; reflexivity|].
  intros H. exact H.
Qed.

(** ** Claims on the defensive extraction *)

(** The three accessors return the zero value for an absent field and for
    a field of a type they do not convert. *)
Lemma safeGetString_zero (m : gmap string value) (key : string) :
  (forall s, m !! key <> Some (VString s)) -> safeGetString m key = "".
Proof.
  intros H. unfold safeGetString.
  destruct (m !! key) as [[]|]; try reflexivity.
  exfalso. eapply H. reflexivity.
Qed.

Lemma safeGetInt_zero (m : gmap string value) (key : string) :
  (forall n, m !! key <> Some (VInt n)) ->
  (forall f, m !! key <> Some (VFloat f)) ->
  safeGetInt m key = 0.
Proof.
  intros Hi Hf. unfold safeGetInt.
  destruct (m !! key) as [[]|]; try reflexivity; exfalso.
  - eapply Hi. reflexivity.
  - eapply Hf. reflexivity.
Qed.

Lemma safeGetFloat64_zero (m : gmap string value) (key : string) :
  (forall n, m !! key <> Some (VInt n)) ->
  (forall f, m !! key <> Some (VFloat f)) ->
  safeGetFloat64 m key = float64_zero.
Proof.
  intros Hi Hf. unfold safeGetFloat64.
  destruct (m !! key) as [[]|]; try reflexivity; exfalso.
  - eapply Hi. reflexivity.
  - eapply Hf. reflexivity.
Qed.

(** An absent or mis-shaped sub-object leaves the association unset. *)
Lemma blocks_unset (m : gmap string value) :
  (as_map (index m "state") = None -> state_block m = None)
  /\ (as_map (index m "status") = None -> status_block m = None)
  /\ (forall key, as_map (index m key) = None -> user_block m key = None)
  /\ (as_map (index m "assignee") = None -> assignee_block_mutation m = None)
  /\ (as_map (index m "parent") = None -> parent_block m = None)
  /\ (as_map (index m "project") = None -> project_block m = None)
  /\ (as_map (index m "teams") = None -> teams_block m = None).
Proof.
  unfold state_block, status_block, user_block, assignee_block_mutation,
    parent_block, project_block, teams_block.
  repeat split; intros; match goal with H : _ = None |- _ => rewrite H end;
    reflexivity.
Qed.

(** [GetViewer] panics as soon as one of the three fields is no string. *)
Lemma GetViewer_unchecked env c sent hr resp viewerData :
  url_Parse_error env (apiURL c) = None ->
  httpCli c sent (NewRequest c (mkGraphQLRequest GetViewer_query None))
  = DoReturned hr ->
  ResponseBody hr = Decoded resp ->
  Errors resp = [] ->
  as_map (index (Data resp) "viewer") = Some viewerData ->
  as_string (index viewerData "id") = None
  \/ as_string (index viewerData "name") = None
  \/ as_string (index viewerData "email") = None ->
  fst (GetViewer env c sent) = Panicked.
Proof.
  intros Hu Hrt Hbody He Hv Hbad. unfold GetViewer. cbv zeta.
  rewrite (exec_then_map env c GetViewer_query None _ sent hr resp
             (marshal_ok_nil _) Hu Hrt Hbody).
  rewrite He, Hv.
  destruct (as_string (index viewerData "id")); [|reflexivity].
  destruct (as_string (index viewerData "name")); [|reflexivity].
  destruct (as_string (index viewerData "email")); [|reflexivity].
  destruct Hbad as [H | [H | H]]; discriminate H.
Qed.

(** C4.  The claim has the extraction total for every mapper, [GetViewer]
    and [GetTeams] included.  These two read their string fields with
    unchecked assertions: on a viewer whose id is a number, and on a team
    without a key, they panic where the claim has them yield "". *)
Theorem GetViewer_GetTeams_panic_on_mistyped_field :
  fst (GetViewer sample_env (sample_client [ok_answer numeric_id_viewer []]) [])
  = Panicked
  /\ fst (GetTeams sample_env (sample_client [ok_answer keyless_team []]) [])
     = Panicked.
Proof.
  split; vm_compute; reflexivity.
Qed.

(** ** Claims on [GetIssue] *)

Lemma exec_then_quiet_sends {B : Type} env c query variables
    (k : result GraphQLResponse -> M B) sent :
  json_Marshal_error (mkGraphQLRequest query variables) = None ->
  url_Parse_error env (apiURL c) = None ->
  (forall r, quiet (k r)) ->
  snd ((ExecuteGraphQL env c query variables ≫= k) sent)
  = (sent ++ [NewRequest c (mkGraphQLRequest query variables)])%list.
Proof.
  intros Hm Hu Hk. rewrite M_bind_run.
  rewrite (ExecuteGraphQL_sends env c query variables sent Hm Hu).
  apply Hk.
Qed.

(** With its document at hand and an endpoint that parses,
    [GetIssueChildren] sends exactly its one request. *)
Lemma GetIssueChildren_sends env c issueID opts sent query :
  url_Parse_error env (apiURL c) = None ->
  getGraphQLQuery env "get_issue_children.graphql" = (query, None) ->
  snd (GetIssueChildren env c issueID opts sent)
  = (sent ++ [children_request c query issueID
                (page_size (GetIssueChildrenOptions_First <$> opts))])%list.
Proof.
  intros Hu Hq. unfold GetIssueChildren. rewrite Hq.
  replace (match opts with
           | Some o =>
               if (0 <? GetIssueChildrenOptions_First o)
                  && (GetIssueChildrenOptions_First o <=? 100)
               then GetIssueChildrenOptions_First o else 50
           | None => 50
           end)
    with (page_size (GetIssueChildrenOptions_First <$> opts))
    by (destruct opts; reflexivity).
  cbv zeta. apply exec_then_quiet_sends.
  - apply marshal_ok. auto with marshal.
  - exact Hu.
  - intros r. quiet_cases.
Qed.

(** [GetIssue] once its primary fetch brought back an issue object. *)
Lemma GetIssue_after_primary env c issueID opts sent query hr resp issueData :
  url_Parse_error env (apiURL c) = None ->
  getGraphQLQuery env "get_issue.graphql" = (query, None) ->
  httpCli c sent (primary_request c query issueID) = DoReturned hr ->
  ResponseBody hr = Decoded resp ->
  Errors resp = [] ->
  as_map (index (Data resp) "issue") = Some issueData ->
  GetIssue env c issueID opts sent
  = match opts with
    | Some o =>
        if IncludeChildren o then
          match GetIssueChildren env c issueID (Some (childrenOpts_of o))
                  (sent ++ [primary_request c query issueID])%list with
          | (Returned (_, Some err), sent') =>
              (Returned (Some (detailed_issue_of issueData),
                         Some (ChildrenLoadError err)), sent')
          | (Returned (children, None), sent') =>
              (Returned (Some (set_Children (detailed_issue_of issueData) children),
                         None), sent')
          | (Panicked, sent') => (Panicked, sent')
          end
        else (Returned (Some (detailed_issue_of issueData), None),
              (sent ++ [primary_request c query issueID])%list)
    | None => (Returned (Some (detailed_issue_of issueData), None),
               (sent ++ [primary_request c query issueID])%list)
    end.
Proof.
  intros Hu Hq Hrt Hbody He Hi. unfold GetIssue. rewrite Hq. cbv zeta.
  rewrite (exec_then_map env c query _ _ sent hr resp
             (marshal_ok _ _ (supported_singleton "id" (VString issueID) eq_refl))
             Hu Hrt Hbody).
  rewrite He, Hi.
  destruct opts as [o|]; [|reflexivity].
  destruct (IncludeChildren o); [|reflexivity].
  rewrite M_bind_run. unfold childrenOpts_of, page_size, primary_request.
  match goal with |- context [GetIssueChildren env c issueID ?co ?s] =>
    destruct (GetIssueChildren env c issueID co s) as [[[children [err|]]|] sent']
  end; reflexivity.
Qed.

(** C7, as amended.  Once the primary fetch of [GetIssue] brought back an
    issue object: with IncludeChildren true, and the children document at
    hand, exactly one more request follows, the fetch of the children with
    [first] equal to ChildrenFirst when that lies in 1..100 and to 50
    otherwise, and when that fetch succeeds its list is the Children of
    the returned issue; with nil options or IncludeChildren false the
    primary request is the only one and Children is left unset. *)
Theorem GetIssue_children_fetch env c issueID opts sent query hr resp issueData :
  url_Parse_error env (apiURL c) = None ->
  getGraphQLQuery env "get_issue.graphql" = (query, None) ->
  httpCli c sent (primary_request c query issueID) = DoReturned hr ->
  ResponseBody hr = Decoded resp ->
  Errors resp = [] ->
  as_map (index (Data resp) "issue") = Some issueData ->
  (forall o cquery,
      opts = Some o ->
      IncludeChildren o = true ->
      getGraphQLQuery env "get_issue_children.graphql" = (cquery, None) ->
      issued (GetIssue env c issueID opts) sent
      = [primary_request c query issueID;
         children_request c cquery issueID (page_size (Some (ChildrenFirst o)))]
      /\ (1 <= ChildrenFirst o <= 100 ->
          page_size (Some (ChildrenFirst o)) = ChildrenFirst o)
      /\ (ChildrenFirst o <= 0 \/ 100 < ChildrenFirst o ->
          page_size (Some (ChildrenFirst o)) = 50)
      /\ (forall children sent',
            GetIssueChildren env c issueID (Some (childrenOpts_of o))
              (sent ++ [primary_request c query issueID])%list
            = (Returned (Some children, None), sent') ->
            fst (GetIssue env c issueID opts sent)
            = Returned (Some (set_Children (detailed_issue_of issueData)
                                (Some children)), None)
            /\ Issue_Children (set_Children (detailed_issue_of issueData)
                                 (Some children)) = Some children))
  /\ (opts = None \/ (exists o, opts = Some o /\ IncludeChildren o = false) ->
      issued (GetIssue env c issueID opts) sent = [primary_request c query issueID]
      /\ fst (GetIssue env c issueID opts sent)
         = Returned (Some (detailed_issue_of issueData), None)
      /\ Issue_Children (detailed_issue_of issueData) = None).
Proof.
  intros Hu Hq Hrt Hbody He Hi.
  pose proof (GetIssue_after_primary env c issueID opts sent query hr resp
                issueData Hu Hq Hrt Hbody He Hi) as Hrun.
  split.
  - intros o cquery -> Ho Hcq. rewrite Ho in Hrun.
    pose proof (GetIssueChildren_sends env c issueID (Some (childrenOpts_of o))
                  (sent ++ [primary_request c query issueID])%list cquery Hu Hcq)
      as Hsnd.
    change (GetIssueChildrenOptions_First <$> Some (childrenOpts_of o))
      with (Some (page_size (Some (ChildrenFirst o)))) in Hsnd.
    rewrite page_size_idem in Hsnd.
    split; [|split; [|split]].
    + apply issued_app. rewrite Hrun.
      destruct (GetIssueChildren env c issueID (Some (childrenOpts_of o))
                  (sent ++ [primary_request c query issueID])%list)
        as [[[children [err|]]|] sent'];
        cbn [snd] in *; rewrite Hsnd; rewrite <- app_assoc; reflexivity.
    + apply page_size_in_range.
    + apply page_size_out_of_range.
    + intros children sent' Hc. rewrite Hrun, Hc. split; reflexivity.
  - intros Hopts.
    assert (Hrun' : GetIssue env c issueID opts sent
                    = (Returned (Some (detailed_issue_of issueData), None),
                       (sent ++ [primary_request c query issueID])%list)).
    { rewrite Hrun. destruct Hopts as [-> | (o & -> & Ho)]; [reflexivity|].
      rewrite Ho. reflexivity. }
    split; [|split].
    + apply issued_app. rewrite Hrun'. reflexivity.
    + rewrite Hrun'. reflexivity.
    + reflexivity.
Qed.

(** C8.  When the primary fetch of [GetIssue] brought back an issue object
    and the fetch of the children then returns an error, [GetIssue]
    returns the mapped primary issue, its Children unset, together with
    that error wrapped as a failure to load the children. *)
Theorem GetIssue_keeps_issue_when_children_fail
    env c issueID o sent query hr resp issueData children err sent' :
  url_Parse_error env (apiURL c) = None ->
  getGraphQLQuery env "get_issue.graphql" = (query, None) ->
  httpCli c sent (primary_request c query issueID) = DoReturned hr ->
  ResponseBody hr = Decoded resp ->
  Errors resp = [] ->
  as_map (index (Data resp) "issue") = Some issueData ->
  IncludeChildren o = true ->
  GetIssueChildren env c issueID (Some (childrenOpts_of o))
    (sent ++ [primary_request c query issueID])%list
  = (Returned (children, Some err), sent') ->
  GetIssue env c issueID (Some o) sent
  = (Returned (Some (detailed_issue_of issueData), Some (ChildrenLoadError err)),
     sent')
  /\ Issue_Children (detailed_issue_of issueData) = None
  /\ Error (ChildrenLoadError err) = "failed to load children: " +:+ Error err.
Proof.
  intros Hu Hq Hrt Hbody He Hi Ho Hc.
  rewrite (GetIssue_after_primary env c issueID (Some o) sent query hr resp
             issueData Hu Hq Hrt Hbody He Hi).
  rewrite Ho, Hc. repeat split.
Qed.

(** C7 at ChildrenFirst = 500 against a peer that answers both requests,
    and at nil options. *)
Lemma GetIssue_children_fetch_witness :
  issued (GetIssue sample_env
            (sample_client [ok_answer issue_data []; ok_answer children_data []])
            "issue-1" (Some (mkGetIssueOptions true 500))) []
  = [primary_request
       (sample_client [ok_answer issue_data []; ok_answer children_data []])
       "query GetIssue" "issue-1";
     children_request
       (sample_client [ok_answer issue_data []; ok_answer children_data []])
       "query GetIssueChildren" "issue-1" 50]
  /\ (exists issue children,
        fst (GetIssue sample_env
               (sample_client [ok_answer issue_data []; ok_answer children_data []])
               "issue-1" (Some (mkGetIssueOptions true 500)) [])
        = Returned (Some issue, None)
        /\ Issue_Children issue = Some children
        /\ map Issue_ID children = ["issue-2"; "issue-3"])
  /\ issued (GetIssue sample_env
               (sample_client [ok_answer issue_data []; ok_answer children_data []])
               "issue-1" None) []
     = [primary_request
          (sample_client [ok_answer issue_data []; ok_answer children_data []])
          "query GetIssue" "issue-1"].
Proof.
  destruct (GetIssue_children_fetch sample_env
              (sample_client [ok_answer issue_data []; ok_answer children_data []])
              "issue-1" (Some (mkGetIssueOptions true 500)) []
              "query GetIssue" (ok_response issue_data [])
              (ok_decoded issue_data [])
              {[ "id" := VString "issue-1"; "identifier" := VString "ENG-1";
                 "title" := VString "Fix";
                 "priority" := VFloat (float64_of_int 2) ]})
    as [Hyes _]; [vm_compute; reflexivity ..|].
  destruct (Hyes (mkGetIssueOptions true 500) "query GetIssueChildren")
    as (Hsent & _ & _ & Hstore); [vm_compute; reflexivity ..|].
  split; [exact Hsent|]. split.
  - destruct (Hstore
                [list_issue_of {[ "id" := VString "issue-2" ]};
                 list_issue_of {[ "id" := VString "issue-3" ]}]
                [primary_request
                   (sample_client [ok_answer issue_data [];
                                   ok_answer children_data []])
                   "query GetIssue" "issue-1";
                 children_request
                   (sample_client [ok_answer issue_data [];
                                   ok_answer children_data []])
                   "query GetIssueChildren" "issue-1" 50])
      as [Hfst Hchildren]; [vm_compute; reflexivity|].
    eexists _, _. split; [exact Hfst|]. split; [exact Hchildren|].
    vm_compute. reflexivity.
  - destruct (GetIssue_children_fetch sample_env
                (sample_client [ok_answer issue_data []; ok_answer children_data []])
                "issue-1" None []
                "query GetIssue" (ok_response issue_data [])
                (ok_decoded issue_data [])
                {[ "id" := VString "issue-1"; "identifier" := VString "ENG-1";
                   "title" := VString "Fix";
                   "priority" := VFloat (float64_of_int 2) ]})
      as [_ Hno]; [vm_compute; reflexivity ..|].
    destruct Hno as [Hone _]; [left; reflexivity|].
    exact Hone.
Defined.

(** C7 as stated fails: with IncludeChildren true and a primary response
    that holds no issue object, [GetIssue] issues its primary request and
    no fetch of the children. *)
Lemma GetIssue_failed_primary_skips_children :
  issued (GetIssue sample_env
            (sample_client [ok_answer ∅ []; ok_answer children_data []])
            "issue-1" (Some (mkGetIssueOptions true 0))) []
  = [primary_request
       (sample_client [ok_answer ∅ []; ok_answer children_data []])
       "query GetIssue" "issue-1"]
  /\ fst (GetIssue sample_env
            (sample_client [ok_answer ∅ []; ok_answer children_data []])
            "issue-1" (Some (mkGetIssueOptions true 0)) [])
     = Returned (None, Some (MalformedResponseError "issue data")).
Proof.
  split; vm_compute; reflexivity.
Qed.

(** C8 at a connection that drops after the primary answer. *)
Lemma GetIssue_keeps_issue_when_children_fail_witness :
  exists issue,
    fst (GetIssue sample_env (sample_client [ok_answer issue_data []])
           "issue-1" (Some (mkGetIssueOptions true 0)) [])
    = Returned (Some issue,
                Some (ChildrenLoadError
                        (TransportError MakeRequest
                           (LibraryError "connection reset"))))
    /\ Issue_ID issue = "issue-1"
    /\ Issue_Identifier issue = "ENG-1"
    /\ Issue_Priority issue = 2
    /\ Issue_Children issue = None.
Proof.
  destruct (GetIssue_keeps_issue_when_children_fail sample_env
              (sample_client [ok_answer issue_data []])
              "issue-1" (mkGetIssueOptions true 0) []
              "query GetIssue" (ok_response issue_data [])
              (ok_decoded issue_data [])
              {[ "id" := VString "issue-1"; "identifier" := VString "ENG-1";
                 "title" := VString "Fix";
                 "priority" := VFloat (float64_of_int 2) ]}
              None
              (TransportError MakeRequest (LibraryError "connection reset"))
              [primary_request (sample_client [ok_answer issue_data []])
                 "query GetIssue" "issue-1";
               children_request (sample_client [ok_answer issue_data []])
                 "query GetIssueChildren" "issue-1" 50])
    as (Hrun & Hchildren & _); [vm_compute; reflexivity ..|].
  eexists. rewrite Hrun. cbn [fst].
  split; [reflexivity|]. repeat split; vm_compute; reflexivity.
Defined.

(** ** The conversions and the path helper at sample inputs *)

Example int_of_float64_truncates :
  int_of_float64 (S754_finite false 5 (-1)) = 2
  /\ int_of_float64 (S754_finite true 5 (-1)) = -2
  /\ int_of_float64 (float64_of_int 42) = 42
  /\ int_of_float64 S754_nan = min_int.
Proof. repeat split. Qed.

Example safeGetInt_reads_numbers_only :
  safeGetInt {[ "priority" := VFloat (float64_of_int 3) ]} "priority" = 3
  /\ safeGetInt {[ "priority" := VString "3" ]} "priority" = 0
  /\ safeGetInt ∅ "priority" = 0.
Proof. repeat split; vm_compute; reflexivity. Qed.

Example filepath_Base_samples :
  filepath_Base "get_issue.graphql" = "get_issue.graphql"
  /\ filepath_Base "../secret/get_issue.graphql" = "get_issue.graphql"
  /\ filepath_Base "graphql/" = "graphql"
  /\ filepath_Base "" = "."
  /\ filepath_Base "//" = "/".
Proof. repeat split. Qed.


(** * Properties of the further parts *)

(** ** One call, one request *)

(** X1.  What [ExecuteGraphQL] puts on the wire. *)
Theorem ExecuteGraphQL_request env c query variables sent :
  snd (ExecuteGraphQL env c query variables sent)
  = (sent ++ issued (ExecuteGraphQL env c query variables) sent)%list
  /\ issued (ExecuteGraphQL env c query variables) sent
     = match json_Marshal_error (mkGraphQLRequest query variables),
             url_Parse_error env (apiURL c) with
       | None, None =>
           [ {| Method := "POST"; URL := apiURL c;
                ContentType := "application/json";
                Authorization := apiKey c;
                Body := {| Query := query; Variables := variables |} |} ]
       | _, _ => []
       end.
Proof.
  destruct (json_Marshal_error (mkGraphQLRequest query variables)) as [e|] eqn:Hm.
  { assert (E : ExecuteGraphQL env c query variables sent
                = (Returned (None, Some (TransportError MarshalRequestBody e)), sent))
      by (unfold ExecuteGraphQL; rewrite Hm; reflexivity).
    rewrite (issued_nil _ sent) by (rewrite E; reflexivity).
    rewrite E, app_nil_r. split; reflexivity. }
  destruct (url_Parse_error env (apiURL c)) as [e|] eqn:Hu.
  { assert (E : ExecuteGraphQL env c query variables sent
                = (Returned (None, Some (TransportError CreateRequest e)), sent))
      by (unfold ExecuteGraphQL; rewrite Hm, Hu; reflexivity).
    rewrite (issued_nil _ sent) by (rewrite E; reflexivity).
    rewrite E, app_nil_r. split; reflexivity. }
  pose proof (ExecuteGraphQL_sends env c query variables sent Hm Hu) as E.
  rewrite (issued_app _ sent [NewRequest c (mkGraphQLRequest query variables)])
    by (rewrite E; reflexivity).
  rewrite E. split; reflexivity.
Qed.


Lemma sends_at_most_ret {A : Type} (a : A) : sends_at_most 0 (mret a : M A).
Proof. intros sent. exists []. rewrite app_nil_r. split; [reflexivity|simpl; lia]. Qed.

Lemma sends_at_most_quiet {A : Type} (m : M A) : quiet m -> sends_at_most 0 m.
Proof.
  intros Hq sent. exists []. rewrite app_nil_r. split; [apply Hq|simpl; lia].
Qed.

Lemma sends_at_most_weaken {A : Type} (n n' : nat) (m : M A) :
  (n <= n')%nat -> sends_at_most n m -> sends_at_most n' m.
Proof.
  intros Hle H sent. destruct (H sent) as (new & E & Hn).
  exists new. split; [exact E|lia].
Qed.

Lemma sends_at_most_exec env c query variables :
  sends_at_most 1 (ExecuteGraphQL env c query variables).
Proof.
  intros sent.
  destruct (ExecuteGraphQL_shape env c query variables sent)
    as (r & new & E & Hnew & _).
  exists new. rewrite E. split; [reflexivity|].
  destruct Hnew as [-> | ->]; simpl; lia.
Qed.

Lemma sends_at_most_bind {A B : Type} (n1 n2 : nat) (m : M A) (k : A -> M B) :
  sends_at_most n1 m ->
  (forall a, sends_at_most n2 (k a)) ->
  sends_at_most (n1 + n2) (m ≫= k).
Proof.
  intros Hm Hk sent. rewrite M_bind_run.
  destruct (Hm sent) as (new1 & E1 & H1).
  destruct (m sent) as [[a|] sent1]; cbn [snd] in E1; subst sent1.
  - destruct (Hk a (sent ++ new1)%list) as (new2 & E2 & H2).
    exists (new1 ++ new2)%list. rewrite E2, app_assoc, length_app.
    split; [reflexivity|lia].
  - exists new1. split; [reflexivity|lia].
Qed.

Lemma sends_at_most_issued {A : Type} (n : nat) (m : M A) sent :
  sends_at_most n m -> (length (issued m sent) <= n)%nat.
Proof.
  intros H. destruct (H sent) as (new & E & Hn).
  rewrite (issued_app m sent new E). exact Hn.
Qed.

(** An operation made of one call of [ExecuteGraphQL] and a mapper. *)
Lemma sends_at_most_exec_then {B : Type} env c query variables
    (k : result GraphQLResponse -> M B) :
  (forall r, quiet (k r)) ->
  sends_at_most 1 (ExecuteGraphQL env c query variables ≫= k).
Proof.
  intros Hk. change 1%nat with (1 + 0)%nat.
  apply sends_at_most_bind; [apply sends_at_most_exec|].
  intros r. apply sends_at_most_quiet, Hk.
Qed.

(** Settling the bound for an operation that loads its document first. *)
Ltac one_request :=
  cbv zeta;
  lazymatch goal with
  | |- sends_at_most _ (match getGraphQLQuery ?env ?f with _ => _ end) =>
      destruct (getGraphQLQuery env f) as [? [?|]];
      [ apply (sends_at_most_weaken 0); [lia|apply sends_at_most_ret]
      | apply sends_at_most_exec_then; intros ?; quiet_cases ]
  | |- _ => apply sends_at_most_exec_then; intros ?; quiet_cases
  end.

Lemma GetIssueChildren_one_request env c issueID opts :
  sends_at_most 1 (GetIssueChildren env c issueID opts).
Proof. unfold GetIssueChildren. one_request. Qed.

Lemma GetIssue_two_requests env c issueID opts :
  sends_at_most 2 (GetIssue env c issueID opts).
Proof.
  unfold GetIssue. cbv zeta.
  destruct (getGraphQLQuery env "get_issue.graphql") as [query [err|]].
  { apply (sends_at_most_weaken 0); [lia|apply sends_at_most_ret]. }
  change 2%nat with (1 + 1)%nat.
  apply sends_at_most_bind; [apply sends_at_most_exec|].
  intros [[resp|] [err|]];
    try solve [ apply (sends_at_most_weaken 0);
                [lia|apply sends_at_most_quiet; first [apply quiet_ret|apply quiet_panic]] ].
  destruct (as_map (index (Data resp) "issue")) as [issueData|];
    [|apply (sends_at_most_weaken 0); [lia|apply sends_at_most_ret]].
  destruct opts as [o|];
    [|apply (sends_at_most_weaken 0); [lia|apply sends_at_most_ret]].
  destruct (IncludeChildren o);
    [|apply (sends_at_most_weaken 0); [lia|apply sends_at_most_ret]].
  change 1%nat with (1 + 0)%nat.
  apply sends_at_most_bind; [apply GetIssueChildren_one_request|].
  intros [children [err|]]; apply sends_at_most_ret.
Qed.

(** X2.  No operation retries: each adds at most one request to those
    sent before it, and [GetIssue] at most two. *)
Theorem operations_send_at_most_one_request env c :
  (forall teamID opts, sends_at_most 1 (GetTeamIssues env c teamID opts))
  /\ (forall issueID opts, sends_at_most 2 (GetIssue env c issueID opts))
  /\ (forall issueID opts, sends_at_most 1 (GetIssueChildren env c issueID opts))
  /\ (forall input, sends_at_most 1 (CreateIssue env c input))
  /\ (forall issueID input, sends_at_most 1 (UpdateIssue env c issueID input))
  /\ (forall opts, sends_at_most 1 (GetProjects env c opts))
  /\ (forall projectID, sends_at_most 1 (GetProject env c projectID))
  /\ (forall input, sends_at_most 1 (CreateProject env c input))
  /\ (forall projectID input, sends_at_most 1 (UpdateProject env c projectID input))
  /\ (forall projectID opts, sends_at_most 1 (GetProjectIssues env c projectID opts))
  /\ sends_at_most 1 (GetViewer env c)
  /\ sends_at_most 1 (GetTeams env c)
  /\ (forall teamID opts, sends_at_most 1 (GetTeamProjects env c teamID opts)).
Proof.
  repeat apply conj; intros.
  - unfold GetTeamIssues. one_request.
  - apply GetIssue_two_requests.
  - apply GetIssueChildren_one_request.
  - unfold CreateIssue. one_request.
  - unfold UpdateIssue. one_request.
  - unfold GetProjects. one_request.
  - unfold GetProject. one_request.
  - unfold CreateProject. one_request.
  - unfold UpdateProject. one_request.
  - unfold GetProjectIssues. one_request.
  - unfold GetViewer. one_request.
  - unfold GetTeams. one_request.
  - unfold GetTeamProjects. one_request.
Qed.


(** ** No response makes a safe operation panic *)

(** X3.  Apart from [GetViewer] and [GetTeams], no operation panics,
    whatever the options, the input and the answers of the peer. *)
Theorem operations_never_panic env c sent :
  (forall teamID opts, fst (GetTeamIssues env c teamID opts sent) <> Panicked)
  /\ (forall issueID opts, fst (GetIssue env c issueID opts sent) <> Panicked)
  /\ (forall issueID opts, fst (GetIssueChildren env c issueID opts sent) <> Panicked)
  /\ (forall input, fst (CreateIssue env c input sent) <> Panicked)
  /\ (forall issueID input, fst (UpdateIssue env c issueID input sent) <> Panicked)
  /\ (forall opts, fst (GetProjects env c opts sent) <> Panicked)
  /\ (forall projectID, fst (GetProject env c projectID sent) <> Panicked)
  /\ (forall input, fst (CreateProject env c input sent) <> Panicked)
  /\ (forall projectID input, fst (UpdateProject env c projectID input sent) <> Panicked)
  /\ (forall projectID opts, fst (GetProjectIssues env c projectID opts sent) <> Panicked)
  /\ (forall teamID opts, fst (GetTeamProjects env c teamID opts sent) <> Panicked).
Proof.
  repeat apply conj; intros.
  - apply GetTeamIssues_never_panics.
  - apply GetIssue_never_panics.
  - apply GetIssueChildren_never_panics.
  - unfold CreateIssue. cbv zeta.
    destruct (getGraphQLQuery env "create_issue.graphql") as [query [err|]];
      [discriminate|].
    apply exec_then_no_panic. no_panic_cases.
  - unfold UpdateIssue. cbv zeta.
    destruct (getGraphQLQuery env "update_issue.graphql") as [query [err|]];
      [discriminate|].
    apply exec_then_no_panic. no_panic_cases.
  - apply GetProjects_never_panics.
  - unfold GetProject. apply exec_then_no_panic. no_panic_cases.
  - unfold CreateProject. apply exec_then_no_panic. no_panic_cases.
  - unfold UpdateProject. apply exec_then_no_panic. no_panic_cases.
  - apply GetProjectIssues_never_panics.
  - apply GetTeamProjects_never_panics.
Qed.

(** ** The loops over nodes *)

Lemma GetTeamIssues_loop_all nodes acc :
  GetTeamIssues_loop nodes acc
  = match all_objects nodes with
    | Some maps => (Some (acc ++ (list_issue_of <$> maps))%list, None)
    | None => (None, Some (MalformedResponseError "issue node"))
    end.
Proof.
  unfold all_objects. revert acc.
  induction nodes as [|node nodes IH]; intros acc; simpl.
  - rewrite app_nil_r. reflexivity.
  - destruct (as_map node) as [nodeMap|]; simpl; [|reflexivity].
    rewrite IH. destruct (mapM as_map nodes); simpl; [|reflexivity].
    rewrite <- app_assoc. reflexivity.
Qed.

Lemma GetIssueChildren_loop_all nodes acc :
  GetIssueChildren_loop nodes acc
  = match all_objects nodes with
    | Some maps => (Some (acc ++ (list_issue_of <$> maps))%list, None)
    | None => (None, Some (MalformedResponseError "child node"))
    end.
Proof.
  unfold all_objects. revert acc.
  induction nodes as [|node nodes IH]; intros acc; simpl.
  - rewrite app_nil_r. reflexivity.
  - destruct (as_map node) as [nodeMap|]; simpl; [|reflexivity].
    rewrite IH. destruct (mapM as_map nodes); simpl; [|reflexivity].
    rewrite <- app_assoc. reflexivity.
Qed.

Lemma GetProjects_loop_all nodes acc :
  GetProjects_loop nodes acc
  = match all_objects nodes with
    | Some maps => (Some (acc ++ (project_of <$> maps))%list, None)
    | None => (None, Some (MalformedResponseError "project node"))
    end.
Proof.
  unfold all_objects. revert acc.
  induction nodes as [|node nodes IH]; intros acc; simpl.
  - rewrite app_nil_r. reflexivity.
  - destruct (as_map node) as [nodeMap|]; simpl; [|reflexivity].
    rewrite IH. destruct (mapM as_map nodes); simpl; [|reflexivity].
    rewrite <- app_assoc. reflexivity.
Qed.

Lemma GetTeamProjects_loop_all nodes acc :
  GetTeamProjects_loop nodes acc
  = match all_objects nodes with
    | Some maps => (Some (acc ++ (team_project_of <$> maps))%list, None)
    | None => (None, Some (MalformedResponseError "project node"))
    end.
Proof.
  unfold all_objects. revert acc.
  induction nodes as [|node nodes IH]; intros acc; simpl.
  - rewrite app_nil_r. reflexivity.
  - destruct (as_map node) as [nodeMap|]; simpl; [|reflexivity].
    rewrite IH. destruct (mapM as_map nodes); simpl; [|reflexivity].
    rewrite <- app_assoc. reflexivity.
Qed.

Lemma teams_loop_objects nodes acc :
  teams_loop nodes acc = (acc ++ (team_of <$> objects nodes))%list.
Proof.
  unfold objects. revert acc.
  induction nodes as [|node nodes IH]; intros acc; simpl.
  - rewrite app_nil_r. reflexivity.
  - destruct (as_map node) as [nodeMap|]; simpl; [|apply IH].
    rewrite IH, <- app_assoc. reflexivity.
Qed.

Lemma GetProjectIssues_loop_objects nodes acc :
  GetProjectIssues_loop nodes acc
  = (acc ++ (project_issue_of <$> objects nodes))%list.
Proof.
  unfold objects. revert acc.
  induction nodes as [|node nodes IH]; intros acc; simpl.
  - rewrite app_nil_r. reflexivity.
  - destruct (as_map node) as [nodeMap|]; simpl; [|apply IH].
    rewrite IH, <- app_assoc. reflexivity.
Qed.

(** All the nodes are objects exactly when none fails the assertion, and
    then there is one object per node. *)
Lemma all_objects_Some nodes maps :
  all_objects nodes = Some maps <-> nodes = VMap <$> maps.
Proof.
  unfold all_objects. split.
  - intros H. symmetry. apply (mapM_fmap_Some_inv as_map VMap _ _ H).
    intros [] y; simpl; intros E; inversion E. reflexivity.
  - intros ->. apply mapM_fmap_Some. reflexivity.
Qed.

Lemma all_objects_None nodes :
  all_objects nodes = None <-> Exists (fun node => as_map node = None) nodes.
Proof.
  unfold all_objects. induction nodes as [|node nodes IH]; simpl.
  - split; [discriminate|]. intros H. inversion H.
  - rewrite Exists_cons. destruct (as_map node) as [m|]; simpl.
    + destruct (mapM as_map nodes) as [maps|]; simpl.
      * split; [discriminate|]. intros [H|H]; [discriminate|].
        apply IH in H. discriminate.
      * split; [|reflexivity]. intros _. right. apply IH. reflexivity.
    + split; [|reflexivity]. intros _. left. reflexivity.
Qed.


(** ** The list operations on a well-shaped response *)

(** Settling a list operation whose [nodes] array is there. *)
Ltac list_nodes env c sent hr resp Hu Hrt Hbody He Hnodes :=
  cbv zeta;
  match goal with
  | |- context [(ExecuteGraphQL env c ?q ?v ≫= ?k) sent] =>
      let Hm := fresh "Hm" in
      assert (Hm : json_Marshal_error (mkGraphQLRequest q v) = None)
        by (lazymatch v with
            | None => apply marshal_ok_nil
            | Some _ => apply marshal_ok; auto with marshal
            end);
      rewrite (exec_then_map env c q v _ sent hr resp Hm Hu Hrt Hbody);
      clear Hm
  end;
  rewrite He;
  unfold nodes_at in Hnodes; cbn [descend] in Hnodes;
  repeat match type of Hnodes with
         | context [as_map ?x] =>
             destruct (as_map x); [|discriminate Hnodes]
         end;
  rewrite Hnodes.

(** X4.  All or nothing.  When the [nodes] array of a list operation is
    there, the operation returns one record per node, in the order of the
    nodes, if every node is an object; if one node is not, it returns a
    nil list and the error of a malformed node, wherever that node
    stands. *)
Theorem list_operations_all_or_nothing env c sent hr resp nodes :
  url_Parse_error env (apiURL c) = None ->
  ResponseBody hr = Decoded resp ->
  Errors resp = [] ->
  (forall teamID opts query,
      getGraphQLQuery env "get_team_issues.graphql" = (query, None) ->
      httpCli c sent
        (NewRequest c
           (mkGraphQLRequest query
              (Some (<[ "first" :=
                          VInt (page_size (GetTeamIssuesOptions_First <$> opts)) ]>
                       {[ "teamId" := VString teamID ]}))))
      = DoReturned hr ->
      nodes_at (Data resp) ["team"; "issues"] = Some nodes ->
      fst (GetTeamIssues env c teamID opts sent)
      = Returned match all_objects nodes with
                 | Some maps => (Some (list_issue_of <$> maps), None)
                 | None => (None, Some (MalformedResponseError "issue node"))
                 end)
  /\ (forall issueID opts query,
      getGraphQLQuery env "get_issue_children.graphql" = (query, None) ->
      httpCli c sent
        (NewRequest c
           (mkGraphQLRequest query
              (Some (<[ "first" :=
                          VInt (page_size (GetIssueChildrenOptions_First <$> opts)) ]>
                       {[ "id" := VString issueID ]}))))
      = DoReturned hr ->
      nodes_at (Data resp) ["issue"; "children"] = Some nodes ->
      fst (GetIssueChildren env c issueID opts sent)
      = Returned match all_objects nodes with
                 | Some maps => (Some (list_issue_of <$> maps), None)
                 | None => (None, Some (MalformedResponseError "child node"))
                 end)
  /\ (forall opts,
      httpCli c sent
        (NewRequest c
           (mkGraphQLRequest (GetProjects_query opts)
              (Some (<[ "first" :=
                          VInt (page_size (GetProjectsOptions_First <$> opts)) ]>
                       ∅))))
      = DoReturned hr ->
      nodes_at (Data resp) ["projects"] = Some nodes ->
      fst (GetProjects env c opts sent)
      = Returned match all_objects nodes with
                 | Some maps => (Some (project_of <$> maps), None)
                 | None => (None, Some (MalformedResponseError "project node"))
                 end)
  /\ (forall teamID opts query,
      getGraphQLQuery env "get_team_projects.graphql" = (query, None) ->
      httpCli c sent
        (NewRequest c
           (mkGraphQLRequest query (Some {[ "teamId" := VString teamID ]})))
      = DoReturned hr ->
      nodes_at (Data resp) ["team"; "projects"] = Some nodes ->
      fst (GetTeamProjects env c teamID opts sent)
      = Returned match all_objects nodes with
                 | Some maps => (Some (team_project_of <$> maps), None)
                 | None => (None, Some (MalformedResponseError "project node"))
                 end)
  /\ (forall maps, all_objects nodes = Some maps <-> nodes = VMap <$> maps)
  /\ (all_objects nodes = None
      <-> Exists (fun node => as_map node = None) nodes).
Proof.
  intros Hu Hbody He.
  split; [|split; [|split; [|split; [|split]]]].
  - intros teamID opts query Hq Hrt Hnodes. unfold GetTeamIssues. rewrite Hq.
    replace (match opts with
             | Some o =>
                 if (0 <? GetTeamIssuesOptions_First o)
                    && (GetTeamIssuesOptions_First o <=? 100)
                 then GetTeamIssuesOptions_First o else 50
             | None => 50
             end)
      with (page_size (GetTeamIssuesOptions_First <$> opts))
      by (destruct opts; reflexivity).
    list_nodes env c sent hr resp Hu Hrt Hbody He Hnodes.
    rewrite M_ret_run, GetTeamIssues_loop_all. reflexivity.
  - intros issueID opts query Hq Hrt Hnodes. unfold GetIssueChildren. rewrite Hq.
    replace (match opts with
             | Some o =>
                 if (0 <? GetIssueChildrenOptions_First o)
                    && (GetIssueChildrenOptions_First o <=? 100)
                 then GetIssueChildrenOptions_First o else 50
             | None => 50
             end)
      with (page_size (GetIssueChildrenOptions_First <$> opts))
      by (destruct opts; reflexivity).
    list_nodes env c sent hr resp Hu Hrt Hbody He Hnodes.
    rewrite M_ret_run, GetIssueChildren_loop_all. reflexivity.
  - intros opts Hrt Hnodes. unfold GetProjects.
    replace (match opts with
             | Some o =>
                 if (0 <? GetProjectsOptions_First o)
                    && (GetProjectsOptions_First o <=? 100)
                 then GetProjectsOptions_First o else 50
             | None => 50
             end)
      with (page_size (GetProjectsOptions_First <$> opts))
      by (destruct opts; reflexivity).
    list_nodes env c sent hr resp Hu Hrt Hbody He Hnodes.
    rewrite M_ret_run, GetProjects_loop_all. reflexivity.
  - intros teamID opts query Hq Hrt Hnodes. unfold GetTeamProjects. rewrite Hq.
    list_nodes env c sent hr resp Hu Hrt Hbody He Hnodes.
    rewrite M_ret_run, GetTeamProjects_loop_all. reflexivity.
  - intros maps. apply all_objects_Some.
  - apply all_objects_None.
Qed.

(** An instance: two issue nodes give two issues; a nil node after them
    gives no list at all. *)
Lemma list_operations_all_or_nothing_witness :
  fst (GetTeamIssues sample_env
         (sample_client [ok_answer (team_issues_data two_issue_nodes) []])
         "team-1" None [])
  = Returned (Some (list_issue_of
                      <$> [ {[ "id" := VString "issue-1"; "title" := VString "Fix" ]};
                            {[ "id" := VString "issue-2" ]} ]),
              None)
  /\ fst (GetTeamIssues sample_env
            (sample_client
               [ok_answer (team_issues_data (two_issue_nodes ++ [VNil])) []])
            "team-1" None [])
     = Returned (None, Some (MalformedResponseError "issue node")).
Proof.
  split.
  - destruct (list_operations_all_or_nothing sample_env
                (sample_client [ok_answer (team_issues_data two_issue_nodes) []])
                [] (ok_response (team_issues_data two_issue_nodes) [])
                (ok_decoded (team_issues_data two_issue_nodes) [])
                two_issue_nodes eq_refl eq_refl eq_refl) as (H & _).
    etransitivity;
      [apply (H "team-1" None "query GetTeamIssues"); vm_compute; reflexivity|].
    vm_compute. reflexivity.
  - destruct (list_operations_all_or_nothing sample_env
                (sample_client
                   [ok_answer (team_issues_data (two_issue_nodes ++ [VNil])) []])
                [] (ok_response (team_issues_data (two_issue_nodes ++ [VNil])) [])
                (ok_decoded (team_issues_data (two_issue_nodes ++ [VNil])) [])
                (two_issue_nodes ++ [VNil])%list eq_refl eq_refl eq_refl)
      as (H & _).
    etransitivity;
      [apply (H "team-1" None "query GetTeamIssues"); vm_compute; reflexivity|].
    vm_compute. reflexivity.
Defined.


Lemma objects_length nodes : (length (objects nodes) <= length nodes)%nat.
Proof.
  unfold objects. induction nodes as [|node nodes IH]; [reflexivity|].
  cbn [omap list_omap]. destruct (as_map node); cbn [length]; lia.
Qed.

(** X5.  [GetProjectIssues] on a project whose [nodes] array is there:
    the project comes back without error, with one issue per node that is
    an object, in the order of the nodes; the other nodes are skipped. *)
Theorem GetProjectIssues_skips_malformed_nodes
    env c projectID opts sent query hr resp projectData nodes :
  url_Parse_error env (apiURL c) = None ->
  getGraphQLQuery env "get_project_issues.graphql" = (query, None) ->
  httpCli c sent
    (NewRequest c
       (mkGraphQLRequest query (Some {[ "projectId" := VString projectID ]})))
  = DoReturned hr ->
  ResponseBody hr = Decoded resp ->
  Errors resp = [] ->
  as_map (index (Data resp) "project") = Some projectData ->
  nodes_at projectData ["issues"] = Some nodes ->
  fst (GetProjectIssues env c projectID opts sent)
  = Returned (Some {| ProjectWithIssues_ID := safeGetString projectData "id";
                      ProjectWithIssues_Status := status_block projectData;
                      ProjectWithIssues_Issues :=
                        Some (project_issue_of <$> objects nodes) |},
              None)
  /\ (forall m, m ∈ objects nodes <-> VMap m ∈ nodes)
  /\ (length (objects nodes) <= length nodes)%nat.
Proof.
  intros Hu Hq Hrt Hbody He Hp Hnodes. split; [|split].
  - unfold GetProjectIssues. rewrite Hq. cbv zeta.
    rewrite (exec_then_map env c query _ _ sent hr resp
               (marshal_ok _ _ (supported_singleton "projectId"
                                  (VString projectID) eq_refl))
               Hu Hrt Hbody).
    rewrite He, Hp. unfold nodes_at in Hnodes. cbn [descend] in Hnodes.
    destruct (as_map (index projectData "issues")) as [issuesData|];
      [|discriminate Hnodes].
    rewrite Hnodes, GetProjectIssues_loop_objects. reflexivity.
  - intros m. unfold objects. rewrite list_elem_of_omap. split.
    + intros (v & Hv & E). destruct v; try discriminate E.
      inversion E. subst. exact Hv.
    + intros Hv. exists (VMap m). split; [exact Hv|reflexivity].
  - apply objects_length.
Qed.

(** An instance: of three nodes, the second a string, two issues come
    back. *)
Lemma GetProjectIssues_skips_malformed_nodes_witness :
  fst (GetProjectIssues sample_env (sample_client [ok_answer project_data []])
         "project-1" None [])
  = Returned (Some {| ProjectWithIssues_ID := "project-1";
                      ProjectWithIssues_Status := None;
                      ProjectWithIssues_Issues :=
                        Some (project_issue_of
                                <$> [ {[ "id" := VString "issue-1" ]};
                                      {[ "id" := VString "issue-2" ]} ]) |},
              None).
Proof.
  destruct (GetProjectIssues_skips_malformed_nodes sample_env
              (sample_client [ok_answer project_data []]) "project-1" None []
              "query GetProjectIssues" (ok_response project_data [])
              (ok_decoded project_data []) sample_project
              [VMap {[ "id" := VString "issue-1" ]}; VString "stray";
               VMap {[ "id" := VString "issue-2" ]}]
              eq_refl eq_refl eq_refl eq_refl eq_refl)
    as (H & _); [vm_compute; reflexivity .. | ].
  etransitivity; [exact H|]. vm_compute. reflexivity.
Defined.

(** X6.  [GetProject] maps the [project] object when there is one, and
    reports a malformed response when there is none.  The teams of the
    project are the objects among the nodes of its [teams] container; its
    issues, which the query document asks for, and its status are never
    mapped. *)
Theorem GetProject_maps_project env c projectID sent hr resp :
  url_Parse_error env (apiURL c) = None ->
  httpCli c sent
    (NewRequest c
       (mkGraphQLRequest GetProject_query (Some {[ "id" := VString projectID ]})))
  = DoReturned hr ->
  ResponseBody hr = Decoded resp ->
  Errors resp = [] ->
  fst (GetProject env c projectID sent)
  = Returned match as_map (index (Data resp) "project") with
             | Some projectData => (Some (project_of projectData), None)
             | None => (None, Some (MalformedResponseError "project data"))
             end
  /\ (forall projectData,
        Project_Teams (project_of projectData)
        = (fun nodes => team_of <$> objects nodes)
            <$> nodes_at projectData ["teams"]
        /\ Project_Issues (project_of projectData) = None
        /\ Project_Status (project_of projectData) = None)
  /\ String.index 0 "issues {" GetProject_query <> None.
Proof.
  intros Hu Hrt Hbody He. split; [|split].
  - unfold GetProject. cbv zeta.
    rewrite (exec_then_map env c GetProject_query _ _ sent hr resp
               (marshal_ok _ _ (supported_singleton "id" (VString projectID)
                                  eq_refl))
               Hu Hrt Hbody).
    rewrite He. destruct (as_map (index (Data resp) "project")); reflexivity.
  - intros projectData. split; [|split; reflexivity].
    cbn [project_of Project_Teams]. unfold teams_block, nodes_at.
    cbn [descend].
    destruct (as_map (index projectData "teams")) as [teamsMap|]; [|reflexivity].
    destruct (as_list (index teamsMap "nodes")) as [teamsNodes|]; [|reflexivity].
    rewrite teams_loop_objects. reflexivity.
  - vm_compute. discriminate.
Qed.

(** An instance: a project with one team and two issues comes back with
    its team and without issues. *)
Lemma GetProject_maps_project_witness :
  fst (GetProject sample_env (sample_client [ok_answer project_data []])
         "project-1" [])
  = Returned (Some (project_of sample_project), None)
  /\ Project_Teams (project_of sample_project)
     = Some [{| Team_ID := "team-1"; Team_Name := "Core"; Team_Key := "ENG" |}]
  /\ Project_Issues (project_of sample_project) = None.
Proof.
  destruct (GetProject_maps_project sample_env
              (sample_client [ok_answer project_data []]) "project-1" []
              (ok_response project_data []) (ok_decoded project_data [])
              eq_refl eq_refl eq_refl eq_refl) as (H & Hfields & _).
  destruct (Hfields sample_project) as (Hteams & Hissues & _).
  split; [|split].
  - etransitivity; [exact H|]. vm_compute. reflexivity.
  - etransitivity; [exact Hteams|]. vm_compute. reflexivity.
  - exact Hissues.
Defined.

Lemma GetTeams_loop_well_typed nodes acc teams :
  mapM well_typed_team nodes = Some teams ->
  GetTeams_loop nodes acc = Returned (Some (acc ++ teams)%list, None).
Proof.
  revert acc teams. induction nodes as [|node nodes IH]; intros acc teams H.
  - inversion H. simpl. rewrite app_nil_r. reflexivity.
  - cbn [mapM] in H.
    destruct (well_typed_team node) as [team|] eqn:Hteam; [|discriminate H].
    destruct (mapM well_typed_team nodes) as [rest|]; [|discriminate H].
    inversion H. subst teams. cbn [GetTeams_loop].
    unfold well_typed_team in Hteam.
    destruct (as_map node) as [nodeMap|]; [|discriminate Hteam].
    destruct (as_string (index nodeMap "id")) as [id|]; [|discriminate Hteam].
    destruct (as_string (index nodeMap "name")) as [name|]; [|discriminate Hteam].
    destruct (as_string (index nodeMap "key")) as [key|]; [|discriminate Hteam].
    inversion Hteam. subst team.
    rewrite (IH _ rest eq_refl), <- app_assoc. reflexivity.
Qed.

(** X7.  On fields of the expected type the two unchecked readers
    succeed: [GetViewer] returns the user made of the three strings of
    the [viewer] object, and [GetTeams] one team per node, in order, when
    every node is an object whose id, name and key are strings. *)
Theorem GetViewer_GetTeams_on_well_typed_fields env c sent hr resp :
  url_Parse_error env (apiURL c) = None ->
  ResponseBody hr = Decoded resp ->
  Errors resp = [] ->
  (forall viewerData id name email,
      httpCli c sent (NewRequest c (mkGraphQLRequest GetViewer_query None))
      = DoReturned hr ->
      as_map (index (Data resp) "viewer") = Some viewerData ->
      viewerData !! "id" = Some (VString id) ->
      viewerData !! "name" = Some (VString name) ->
      viewerData !! "email" = Some (VString email) ->
      fst (GetViewer env c sent)
      = Returned (Some {| User_ID := id; User_Name := name; User_Email := email |},
                  None))
  /\ (forall nodes teams,
      httpCli c sent (NewRequest c (mkGraphQLRequest GetTeams_query None))
      = DoReturned hr ->
      nodes_at (Data resp) ["teams"] = Some nodes ->
      mapM well_typed_team nodes = Some teams ->
      fst (GetTeams env c sent) = Returned (Some teams, None)
      /\ length teams = length nodes).
Proof.
  intros Hu Hbody He. split.
  - intros viewerData id name email Hrt Hv Hid Hname Hemail.
    unfold GetViewer. cbv zeta.
    rewrite (exec_then_map env c GetViewer_query None _ sent hr resp
               (marshal_ok_nil _) Hu Hrt Hbody).
    rewrite He, Hv. unfold index. rewrite Hid, Hname, Hemail. reflexivity.
  - intros nodes teams Hrt Hnodes Hteams. split.
    + unfold GetTeams. cbv zeta.
      rewrite (exec_then_map env c GetTeams_query None _ sent hr resp
                 (marshal_ok_nil _) Hu Hrt Hbody).
      rewrite He. unfold nodes_at in Hnodes. cbn [descend] in Hnodes.
      destruct (as_map (index (Data resp) "teams")) as [teamsData|];
        [|discriminate Hnodes].
      rewrite Hnodes. unfold of_outcome. cbn [fst].
      rewrite (GetTeams_loop_well_typed nodes [] teams Hteams). reflexivity.
    + apply length_mapM in Hteams. symmetry. exact Hteams.
Qed.

(** An instance: the viewer of the test of the package, and one team. *)
Lemma GetViewer_GetTeams_on_well_typed_fields_witness :
  fst (GetViewer sample_env (sample_client [ok_answer viewer_data []]) [])
  = Returned (Some {| User_ID := "user123"; User_Name := "Test User";
                      User_Email := "test@example.com" |}, None)
  /\ fst (GetTeams sample_env (sample_client [ok_answer teams_data []]) [])
     = Returned (Some [{| Team_ID := "team-1"; Team_Name := "Core";
                          Team_Key := "ENG" |}], None).
Proof.
  split.
  - destruct (GetViewer_GetTeams_on_well_typed_fields sample_env
                (sample_client [ok_answer viewer_data []]) []
                (ok_response viewer_data []) (ok_decoded viewer_data [])
                eq_refl eq_refl eq_refl) as (H & _).
    apply (H {[ "id" := VString "user123"; "name" := VString "Test User";
                "email" := VString "test@example.com" ]});
      vm_compute; reflexivity.
  - destruct (GetViewer_GetTeams_on_well_typed_fields sample_env
                (sample_client [ok_answer teams_data []]) []
                (ok_response teams_data []) (ok_decoded teams_data [])
                eq_refl eq_refl eq_refl) as (_ & H).
    apply (H [VMap {[ "id" := VString "team-1"; "name" := VString "Core";
                      "key" := VString "ENG" ]}]);
      vm_compute; reflexivity.
Defined.


(** ** The mutations on an accepted response *)

Lemma success_true (m : gmap string value) :
  m !! "success" = Some (VBool true) -> as_bool (index m "success") = Some true.
Proof. intros H. unfold index. rewrite H. reflexivity. Qed.

(** X8.  When the body decodes without GraphQL errors and the mutation
    container reports [success] true, each mutation returns the record
    mapped from the [issue] (or [project]) object of the container, and
    no error; without such an object it returns a nil record and the
    error of malformed issue (or project) data. *)
Theorem accepted_mutation_returns_record env c sent hr resp m :
  url_Parse_error env (apiURL c) = None ->
  ResponseBody hr = Decoded resp ->
  Errors resp = [] ->
  m !! "success" = Some (VBool true) ->
  (forall input query,
      getGraphQLQuery env "create_issue.graphql" = (query, None) ->
      httpCli c sent
        (NewRequest c (mkGraphQLRequest query (Some (CreateIssue_variables input))))
      = DoReturned hr ->
      as_map (index (Data resp) "issueCreate") = Some m ->
      fst (CreateIssue env c input sent)
      = Returned match as_map (index m "issue") with
                 | Some issueData => (Some (mutated_issue_of issueData), None)
                 | None => (None, Some (MalformedResponseError "issue data"))
                 end)
  /\ (forall issueID input query,
      getGraphQLQuery env "update_issue.graphql" = (query, None) ->
      httpCli c sent
        (NewRequest c (mkGraphQLRequest query
                         (Some (UpdateIssue_variables issueID input))))
      = DoReturned hr ->
      as_map (index (Data resp) "issueUpdate") = Some m ->
      fst (UpdateIssue env c issueID input sent)
      = Returned match as_map (index m "issue") with
                 | Some issueData => (Some (mutated_issue_of issueData), None)
                 | None => (None, Some (MalformedResponseError "issue data"))
                 end)
  /\ (forall input,
      httpCli c sent
        (NewRequest c (mkGraphQLRequest CreateProject_query
                         (Some (CreateProject_variables input))))
      = DoReturned hr ->
      as_map (index (Data resp) "projectCreate") = Some m ->
      fst (CreateProject env c input sent)
      = Returned match as_map (index m "project") with
                 | Some projectData => (Some (project_of projectData), None)
                 | None => (None, Some (MalformedResponseError "project data"))
                 end)
  /\ (forall projectID input,
      httpCli c sent
        (NewRequest c (mkGraphQLRequest UpdateProject_query
                         (Some (UpdateProject_variables projectID input))))
      = DoReturned hr ->
      as_map (index (Data resp) "projectUpdate") = Some m ->
      fst (UpdateProject env c projectID input sent)
      = Returned match as_map (index m "project") with
                 | Some projectData => (Some (project_of projectData), None)
                 | None => (None, Some (MalformedResponseError "project data"))
                 end).
Proof.
  intros Hu Hbody He Hs. apply success_true in Hs.
  split; [|split; [|split]].
  - intros input query Hq Hrt Hc. unfold CreateIssue. rewrite Hq.
    rewrite (exec_then_map env c query _ _ sent hr resp
               (marshal_ok _ _ (CreateIssue_variables_supported input))
               Hu Hrt Hbody).
    rewrite He, M_ret_run. cbn [fst]. unfold issue_mutation_result.
    rewrite Hc, Hs. destruct (as_map (index m "issue")); reflexivity.
  - intros issueID input query Hq Hrt Hc. unfold UpdateIssue. rewrite Hq.
    rewrite (exec_then_map env c query _ _ sent hr resp
               (marshal_ok _ _ (UpdateIssue_variables_supported issueID input))
               Hu Hrt Hbody).
    rewrite He, M_ret_run. cbn [fst]. unfold issue_mutation_result.
    rewrite Hc, Hs. destruct (as_map (index m "issue")); reflexivity.
  - intros input Hrt Hc. unfold CreateProject. cbv zeta.
    rewrite (exec_then_map env c CreateProject_query _ _ sent hr resp
               (marshal_ok _ _ (CreateProject_variables_supported input))
               Hu Hrt Hbody).
    rewrite He, M_ret_run. cbn [fst]. unfold project_mutation_result.
    rewrite Hc, Hs. destruct (as_map (index m "project")); reflexivity.
  - intros projectID input Hrt Hc. unfold UpdateProject. cbv zeta.
    rewrite (exec_then_map env c UpdateProject_query _ _ sent hr resp
               (marshal_ok _ _ (UpdateProject_variables_supported projectID input))
               Hu Hrt Hbody).
    rewrite He, M_ret_run. cbn [fst]. unfold project_mutation_result.
    rewrite Hc, Hs. destruct (as_map (index m "project")); reflexivity.
Qed.

(** An instance: an accepted creation of an issue and an accepted update
    of a project. *)
Lemma accepted_mutation_returns_record_witness :
  fst (CreateIssue sample_env (sample_client [ok_answer accepting_data []])
         sample_CreateIssueInput [])
  = Returned (Some (mutated_issue_of
                      {[ "id" := VString "issue-1"; "title" := VString "Fix" ]}),
              None)
  /\ fst (UpdateProject sample_env (sample_client [ok_answer accepting_data []])
            "project-1" sample_UpdateProjectInput [])
     = Returned (Some (project_of
                         {[ "id" := VString "project-1"; "name" := VString "Q3" ]}),
                 None).
Proof.
  destruct (accepted_mutation_returns_record sample_env
              (sample_client [ok_answer accepting_data []]) []
              (ok_response accepting_data []) (ok_decoded accepting_data [])
              acceptance eq_refl eq_refl eq_refl)
    as (H1 & _ & _ & H4); [vm_compute; reflexivity|].
  split.
  - etransitivity;
      [apply (H1 sample_CreateIssueInput "mutation CreateIssue");
       vm_compute; reflexivity|].
    vm_compute. reflexivity.
  - etransitivity;
      [apply (H4 "project-1" sample_UpdateProjectInput); vm_compute; reflexivity|].
    vm_compute. reflexivity.
Defined.

(** ** The variables of the mutations *)

Lemma lookup_put_nonempty key s (inputObj : gmap string value) :
  put_nonempty key s inputObj !! key
  = match pointer_if_provided s with
    | Some v => Some (VString v)
    | None => inputObj !! key
    end.
Proof.
  unfold put_nonempty, pointer_if_provided.
  destruct (decide (s = "")); [reflexivity|]. apply lookup_insert_eq.
Qed.

Lemma lookup_put_nonempty_ne key s (inputObj : gmap string value) key' :
  key <> key' -> put_nonempty key s inputObj !! key' = inputObj !! key'.
Proof.
  intros H. unfold put_nonempty.
  destruct (decide (s = "")); [reflexivity|]. apply lookup_insert_ne, H.
Qed.

Lemma lookup_put_present key p (inputObj : gmap string value) :
  put_present key p inputObj !! key
  = match p with
    | Some v => Some (VString v)
    | None => inputObj !! key
    end.
Proof. destruct p; [apply lookup_insert_eq|reflexivity]. Qed.

Lemma lookup_put_present_ne key p (inputObj : gmap string value) key' :
  key <> key' -> put_present key p inputObj !! key' = inputObj !! key'.
Proof.
  intros H. destruct p; [apply lookup_insert_ne, H|reflexivity].
Qed.

Lemma lookup_put_teamIds ids (inputObj : gmap string value) :
  put_teamIds ids inputObj !! "teamIds"
  = match ids with
    | [] => inputObj !! "teamIds"
    | _ :: _ => Some (VStrings ids)
    end.
Proof.
  unfold put_teamIds. destruct ids as [|id ids]; [reflexivity|].
  replace (0 <? Z.of_nat (length (id :: ids))) with true
    by (symmetry; apply Z.ltb_lt; simpl; lia).
  apply lookup_insert_eq.
Qed.

Lemma lookup_put_teamIds_ne ids (inputObj : gmap string value) key' :
  "teamIds" <> key' -> put_teamIds ids inputObj !! key' = inputObj !! key'.
Proof.
  intros H. unfold put_teamIds.
  destruct (0 <? Z.of_nat (length ids)); [apply lookup_insert_ne, H|reflexivity].
Qed.

(** Looking a key up through the steps that build an input object. *)
Ltac through_puts :=
  repeat first
    [ rewrite lookup_put_nonempty_ne by congruence
    | rewrite lookup_put_present_ne by congruence
    | rewrite lookup_put_teamIds_ne by congruence
    | rewrite lookup_insert_ne by congruence
    | rewrite lookup_put_nonempty
    | rewrite lookup_put_present
    | rewrite lookup_put_teamIds
    | rewrite lookup_insert_eq
    | rewrite lookup_empty ].


Ltac through_puts' :=
  repeat first
    [ rewrite lookup_put_nonempty_ne by congruence
    | rewrite lookup_put_present_ne by congruence
    | rewrite lookup_put_teamIds_ne by congruence
    | rewrite lookup_insert_ne by congruence
    | rewrite lookup_singleton_ne by congruence
    | rewrite lookup_put_nonempty
    | rewrite lookup_put_present
    | rewrite lookup_put_teamIds
    | rewrite lookup_insert_eq
    | rewrite lookup_singleton_eq
    | rewrite lookup_empty ].

Lemma CreateIssue_variables_fields :
  forall input, exists inputObj : gmap string value,
      CreateIssue_variables input = {[ "input" := VMap inputObj ]}
      /\ inputObj !! "teamId" = Some (VString (CreateIssueInput_TeamID input))
      /\ inputObj !! "title" = Some (VString (CreateIssueInput_Title input))
      /\ inputObj !! "description"
         = Some (VString (CreateIssueInput_Description input))
      /\ inputObj !! "priority"
         = (if 0 <? CreateIssueInput_Priority input
            then Some (VInt (CreateIssueInput_Priority input)) else None)
      /\ inputObj !! "stateId"
         = VString <$> pointer_if_provided (CreateIssueInput_StateID input)
      /\ inputObj !! "assigneeId"
         = VString <$> pointer_if_provided (CreateIssueInput_AssigneeID input)
      /\ inputObj !! "projectId"
         = VString <$> pointer_if_provided (CreateIssueInput_ProjectID input)
      /\ inputObj !! "parentId"
         = VString <$> pointer_if_provided (CreateIssueInput_ParentID input)
      /\ (forall key,
            key ∉ ["teamId"; "title"; "description"; "priority"; "stateId";
                   "assigneeId"; "projectId"; "parentId"] ->
            inputObj !! key = None).
Proof.
intros input. eexists. split; [reflexivity|].
repeat apply conj;
  try (intros key Hkey; repeat (apply not_elem_of_cons in Hkey as [? Hkey]));
  through_puts';
  try (destruct (0 <? CreateIssueInput_Priority input); through_puts');
  repeat match goal with
         | |- context [pointer_if_provided ?s] =>
             destruct (pointer_if_provided s)
         end;
  reflexivity.
Qed.

Lemma CreateProject_variables_fields :
  forall input, exists inputObj : gmap string value,
      CreateProject_variables input = {[ "input" := VMap inputObj ]}
      /\ inputObj !! "name" = Some (VString (CreateProjectInput_Name input))
      /\ inputObj !! "description"
         = Some (VString (CreateProjectInput_Description input))
      /\ inputObj !! "icon"
         = VString <$> pointer_if_provided (CreateProjectInput_Icon input)
      /\ inputObj !! "color"
         = VString <$> pointer_if_provided (CreateProjectInput_Color input)
      /\ inputObj !! "state"
         = VString <$> pointer_if_provided (CreateProjectInput_State input)
      /\ inputObj !! "teamIds"
         = match CreateProjectInput_TeamIDs input with
           | [] => None
           | ids => Some (VStrings ids)
           end
      /\ inputObj !! "leadId"
         = VString <$> pointer_if_provided (CreateProjectInput_LeadID input)
      /\ inputObj !! "startDate"
         = VString <$> pointer_if_provided (CreateProjectInput_StartDate input)
      /\ inputObj !! "targetDate"
         = VString <$> pointer_if_provided (CreateProjectInput_TargetDate input)
      /\ (forall key,
            key ∉ ["name"; "description"; "icon"; "color"; "state"; "teamIds";
                   "leadId"; "startDate"; "targetDate"] ->
            inputObj !! key = None).
Proof.
intros input. eexists. split; [reflexivity|].
repeat apply conj;
  try (intros key Hkey; repeat (apply not_elem_of_cons in Hkey as [? Hkey]));
  through_puts';
  repeat match goal with
         | |- context [pointer_if_provided ?s] =>
             destruct (pointer_if_provided s)
         | |- context [match ?l with [] => _ | _ :: _ => _ end] =>
             destruct l
         end;
  reflexivity.
Qed.

(** X9.  What the two create mutations send.  The input object of
    [CreateIssue] always holds teamId, title and description, empty or
    not; it holds priority exactly when the priority is positive, and
    each of stateId, assigneeId, projectId and parentId exactly when the
    field is not empty; it holds no other key.  [CreateProject] likewise
    always sends name and description, sends teamIds exactly when the
    list is not empty, and each other field exactly when not empty. *)
Theorem create_mutations_send_provided_fields :
  (forall input, exists inputObj : gmap string value,
      CreateIssue_variables input = {[ "input" := VMap inputObj ]}
      /\ inputObj !! "teamId" = Some (VString (CreateIssueInput_TeamID input))
      /\ inputObj !! "title" = Some (VString (CreateIssueInput_Title input))
      /\ inputObj !! "description"
         = Some (VString (CreateIssueInput_Description input))
      /\ inputObj !! "priority"
         = (if 0 <? CreateIssueInput_Priority input
            then Some (VInt (CreateIssueInput_Priority input)) else None)
      /\ inputObj !! "stateId"
         = VString <$> pointer_if_provided (CreateIssueInput_StateID input)
      /\ inputObj !! "assigneeId"
         = VString <$> pointer_if_provided (CreateIssueInput_AssigneeID input)
      /\ inputObj !! "projectId"
         = VString <$> pointer_if_provided (CreateIssueInput_ProjectID input)
      /\ inputObj !! "parentId"
         = VString <$> pointer_if_provided (CreateIssueInput_ParentID input)
      /\ (forall key,
            key ∉ ["teamId"; "title"; "description"; "priority"; "stateId";
                   "assigneeId"; "projectId"; "parentId"] ->
            inputObj !! key = None))
  /\ (forall input, exists inputObj : gmap string value,
      CreateProject_variables input = {[ "input" := VMap inputObj ]}
      /\ inputObj !! "name" = Some (VString (CreateProjectInput_Name input))
      /\ inputObj !! "description"
         = Some (VString (CreateProjectInput_Description input))
      /\ inputObj !! "icon"
         = VString <$> pointer_if_provided (CreateProjectInput_Icon input)
      /\ inputObj !! "color"
         = VString <$> pointer_if_provided (CreateProjectInput_Color input)
      /\ inputObj !! "state"
         = VString <$> pointer_if_provided (CreateProjectInput_State input)
      /\ inputObj !! "teamIds"
         = match CreateProjectInput_TeamIDs input with
           | [] => None
           | ids => Some (VStrings ids)
           end
      /\ inputObj !! "leadId"
         = VString <$> pointer_if_provided (CreateProjectInput_LeadID input)
      /\ inputObj !! "startDate"
         = VString <$> pointer_if_provided (CreateProjectInput_StartDate input)
      /\ inputObj !! "targetDate"
         = VString <$> pointer_if_provided (CreateProjectInput_TargetDate input)
      /\ (forall key,
            key ∉ ["name"; "description"; "icon"; "color"; "state"; "teamIds";
                   "leadId"; "startDate"; "targetDate"] ->
            inputObj !! key = None)).
Proof.
  split; [exact CreateIssue_variables_fields|exact CreateProject_variables_fields].
Qed.


Lemma UpdateIssue_variables_fields :
  forall issueID input, exists inputObj : gmap string value,
      UpdateIssue_variables issueID input
      = {[ "id" := VString issueID; "input" := VMap inputObj ]}
      /\ inputObj !! "title" = VString <$> UpdateIssueInput_Title input
      /\ inputObj !! "description"
         = VString <$> UpdateIssueInput_Description input
      /\ inputObj !! "priority" = VInt <$> UpdateIssueInput_Priority input
      /\ inputObj !! "stateId" = VString <$> UpdateIssueInput_StateID input
      /\ inputObj !! "assigneeId" = VString <$> UpdateIssueInput_AssigneeID input
      /\ inputObj !! "projectId" = VString <$> UpdateIssueInput_ProjectID input
      /\ inputObj !! "parentId" = VString <$> UpdateIssueInput_ParentID input
      /\ (forall key,
            key ∉ ["title"; "description"; "priority"; "stateId";
                   "assigneeId"; "projectId"; "parentId"] ->
            inputObj !! key = None).
Proof.
intros issueID input. eexists. split; [reflexivity|].
destruct input as [title description priority stateID assigneeID projectID
                     parentID].
cbn [UpdateIssueInput_Title UpdateIssueInput_Description
     UpdateIssueInput_Priority UpdateIssueInput_StateID
     UpdateIssueInput_AssigneeID UpdateIssueInput_ProjectID
     UpdateIssueInput_ParentID].
repeat apply conj;
  try (intros key Hkey; repeat (apply not_elem_of_cons in Hkey as [? Hkey]));
  through_puts';
  try (destruct priority; through_puts');
  repeat match goal with
         | |- context [match ?p with Some _ => _ | None => _ end] =>
             is_var p; destruct p
         end;
  reflexivity.
Qed.

Lemma UpdateProject_variables_fields :
  forall projectID input, exists inputObj : gmap string value,
      UpdateProject_variables projectID input
      = {[ "id" := VString projectID; "input" := VMap inputObj ]}
      /\ inputObj !! "name" = VString <$> UpdateProjectInput_Name input
      /\ inputObj !! "description"
         = VString <$> UpdateProjectInput_Description input
      /\ inputObj !! "icon" = VString <$> UpdateProjectInput_Icon input
      /\ inputObj !! "color" = VString <$> UpdateProjectInput_Color input
      /\ inputObj !! "state" = VString <$> UpdateProjectInput_State input
      /\ inputObj !! "teamIds"
         = match UpdateProjectInput_TeamIDs input with
           | [] => None
           | ids => Some (VStrings ids)
           end
      /\ inputObj !! "leadId" = VString <$> UpdateProjectInput_LeadID input
      /\ inputObj !! "startDate" = VString <$> UpdateProjectInput_StartDate input
      /\ inputObj !! "targetDate"
         = VString <$> UpdateProjectInput_TargetDate input
      /\ (forall key,
            key ∉ ["name"; "description"; "icon"; "color"; "state"; "teamIds";
                   "leadId"; "startDate"; "targetDate"] ->
            inputObj !! key = None).
Proof.
intros projectID input. eexists. split; [reflexivity|].
destruct input as [name description icon color state teamIDs leadID
                     startDate targetDate].
cbn [UpdateProjectInput_Name UpdateProjectInput_Description
     UpdateProjectInput_Icon UpdateProjectInput_Color
     UpdateProjectInput_State UpdateProjectInput_TeamIDs
     UpdateProjectInput_LeadID UpdateProjectInput_StartDate
     UpdateProjectInput_TargetDate].
repeat apply conj;
  try (intros key Hkey; repeat (apply not_elem_of_cons in Hkey as [? Hkey]));
  through_puts';
  repeat match goal with
         | |- context [match ?p with Some _ => _ | None => _ end] =>
             is_var p; destruct p
         | |- context [match ?l with [] => _ | _ :: _ => _ end] =>
             is_var l; destruct l
         end;
  reflexivity.
Qed.

(** X10.  What the two update mutations send.  The variables hold the id
    given, and an input object with exactly the fields that were
    provided: a nil field is left out, and a field provided as the empty
    string is sent as the empty string.  [UpdateProject] sends teamIds
    exactly when the list is not empty. *)
Theorem update_mutations_send_provided_fields :
  (forall issueID input, exists inputObj : gmap string value,
      UpdateIssue_variables issueID input
      = {[ "id" := VString issueID; "input" := VMap inputObj ]}
      /\ inputObj !! "title" = VString <$> UpdateIssueInput_Title input
      /\ inputObj !! "description"
         = VString <$> UpdateIssueInput_Description input
      /\ inputObj !! "priority" = VInt <$> UpdateIssueInput_Priority input
      /\ inputObj !! "stateId" = VString <$> UpdateIssueInput_StateID input
      /\ inputObj !! "assigneeId" = VString <$> UpdateIssueInput_AssigneeID input
      /\ inputObj !! "projectId" = VString <$> UpdateIssueInput_ProjectID input
      /\ inputObj !! "parentId" = VString <$> UpdateIssueInput_ParentID input
      /\ (forall key,
            key ∉ ["title"; "description"; "priority"; "stateId";
                   "assigneeId"; "projectId"; "parentId"] ->
            inputObj !! key = None))
  /\ (forall projectID input, exists inputObj : gmap string value,
      UpdateProject_variables projectID input
      = {[ "id" := VString projectID; "input" := VMap inputObj ]}
      /\ inputObj !! "name" = VString <$> UpdateProjectInput_Name input
      /\ inputObj !! "description"
         = VString <$> UpdateProjectInput_Description input
      /\ inputObj !! "icon" = VString <$> UpdateProjectInput_Icon input
      /\ inputObj !! "color" = VString <$> UpdateProjectInput_Color input
      /\ inputObj !! "state" = VString <$> UpdateProjectInput_State input
      /\ inputObj !! "teamIds"
         = match UpdateProjectInput_TeamIDs input with
           | [] => None
           | ids => Some (VStrings ids)
           end
      /\ inputObj !! "leadId" = VString <$> UpdateProjectInput_LeadID input
      /\ inputObj !! "startDate" = VString <$> UpdateProjectInput_StartDate input
      /\ inputObj !! "targetDate"
         = VString <$> UpdateProjectInput_TargetDate input
      /\ (forall key,
            key ∉ ["name"; "description"; "icon"; "color"; "state"; "teamIds";
                   "leadId"; "startDate"; "targetDate"] ->
            inputObj !! key = None)).
Proof.
  split; [exact UpdateIssue_variables_fields|exact UpdateProject_variables_fields].
Qed.


(** ** The tool handlers *)

Lemma issued_then_quiet {A B : Type} (m : M A) (k : A -> M B) sent :
  (forall a, quiet (k a)) -> issued (m ≫= k) sent = issued m sent.
Proof.
  intros Hk. unfold issued. rewrite M_bind_run.
  destruct (m sent) as [[a|] sent']; [rewrite Hk|]; reflexivity.
Qed.

(** X11.  The project tools send an argument only when it is provided:
    [update_project] sends each text argument that is not empty under its
    key and leaves the key out for an empty one, [create_project] always
    sends name and description, and neither ever sends a start date or a
    target date. *)
Theorem project_tools_send_only_provided_arguments env c sent :
  (forall args,
     Forall
       (sends_input (fun inputObj =>
          inputObj !! "name"
          = VString <$> pointer_if_provided (UpdateProjectArguments_Name args)
          /\ inputObj !! "description"
             = VString <$> pointer_if_provided
                             (UpdateProjectArguments_Description args)
          /\ inputObj !! "icon"
             = VString <$> pointer_if_provided (UpdateProjectArguments_Icon args)
          /\ inputObj !! "color"
             = VString <$> pointer_if_provided (UpdateProjectArguments_Color args)
          /\ inputObj !! "state"
             = VString <$> pointer_if_provided (UpdateProjectArguments_State args)
          /\ inputObj !! "leadId"
             = VString <$> pointer_if_provided (UpdateProjectArguments_LeadID args)
          /\ inputObj !! "teamIds"
             = match UpdateProjectArguments_TeamIDs args with
               | [] => None
               | ids => Some (VStrings ids)
               end
          /\ inputObj !! "startDate" = None
          /\ inputObj !! "targetDate" = None))
       (issued (tool_update_project env c args) sent))
  /\ (forall args,
        Forall
          (sends_input (fun inputObj =>
             inputObj !! "name"
             = Some (VString (CreateProjectArguments_Name args))
             /\ inputObj !! "description"
                = Some (VString (CreateProjectArguments_Description args))
             /\ inputObj !! "icon"
                = VString <$> pointer_if_provided
                                (CreateProjectArguments_Icon args)
             /\ inputObj !! "color"
                = VString <$> pointer_if_provided
                                (CreateProjectArguments_Color args)
             /\ inputObj !! "state"
                = VString <$> pointer_if_provided
                                (CreateProjectArguments_State args)
             /\ inputObj !! "leadId"
                = VString <$> pointer_if_provided
                                (CreateProjectArguments_LeadID args)
             /\ inputObj !! "teamIds"
                = match CreateProjectArguments_TeamIDs args with
                  | [] => None
                  | ids => Some (VStrings ids)
                  end
             /\ inputObj !! "startDate" = None
             /\ inputObj !! "targetDate" = None))
          (issued (tool_create_project env c args) sent)).
Proof.
  split; intros args.
  - unfold tool_update_project. cbv zeta.
    rewrite issued_then_quiet by (intros r; apply quiet_ret).
    unfold UpdateProject. cbv zeta.
    apply exec_then_quiet_Forall; [intros r; quiet_cases|].
    destruct (UpdateProject_variables_fields
                (UpdateProjectArguments_ProjectID args)
                (update_project_input args))
      as (inputObj & E & Hname & Hdesc & Hicon & Hcolor & Hstate & Hteams
          & Hlead & Hstart & Htarget & _).
    exists (UpdateProject_variables (UpdateProjectArguments_ProjectID args)
              (update_project_input args)), inputObj.
    split; [reflexivity|]. split.
    { rewrite E. rewrite lookup_insert_ne by discriminate.
      apply lookup_singleton_eq. }
    repeat apply conj; assumption.
  - unfold tool_create_project. cbv zeta.
    rewrite issued_then_quiet by (intros r; apply quiet_ret).
    unfold CreateProject. cbv zeta.
    apply exec_then_quiet_Forall; [intros r; quiet_cases|].
    destruct (CreateProject_variables_fields (create_project_input args))
      as (inputObj & E & Hname & Hdesc & Hicon & Hcolor & Hstate & Hteams
          & Hlead & Hstart & Htarget & _).
    exists (CreateProject_variables (create_project_input args)), inputObj.
    split; [reflexivity|]. split.
    { rewrite E. apply lookup_singleton_eq. }
    repeat apply conj; assumption.
Qed.


Lemma returns_ret {A : Type} (P : A -> Prop) (a : A) :
  P a -> returns P (mret a : M A).
Proof. intros H sent. exact H. Qed.

Lemma returns_panic {A : Type} (P : A -> Prop) : returns P (panic : M A).
Proof. intros sent. exact I. Qed.

Lemma returns_bind {A B : Type} (P : B -> Prop) (m : M A) (k : A -> M B) :
  (forall a, returns P (k a)) -> returns P (m ≫= k).
Proof.
  intros Hk sent. rewrite M_bind_run.
  destruct (m sent) as [[a|] sent']; [apply Hk|exact I].
Qed.

(** Settling [returns] for an operation: through the loading of the
    document, the call of [ExecuteGraphQL] and the case distinctions of
    the mapper, down to what the mapper builds. *)
Ltac returns_cases :=
  cbv zeta;
  lazymatch goal with
  | |- returns _ (match getGraphQLQuery ?env ?f with _ => _ end) =>
      destruct (getGraphQLQuery env f) as [? [?|]];
      [apply returns_ret|apply returns_bind; intros [[?|] [?|]]]
  | |- _ => apply returns_bind; intros [[?|] [?|]]
  end;
  repeat lazymatch goal with
         | |- returns _ panic => apply returns_panic
         | |- returns _ (mret _) => apply returns_ret
         | |- returns _ _ => case_match
         end.

(** The values of the operations on issues and teams hold no float. *)
Lemma list_issues_encodable (maps : list (gmap string value)) (acc : list Issue) :
  unsupported_Issues (Some acc) = None ->
  unsupported_Issues (Some (acc ++ (list_issue_of <$> maps))%list) = None.
Proof.
  unfold unsupported_Issues. intros Hacc.
  rewrite fold_right_app.
  replace (fold_right (fun x acc => first_some (unsupported_Issue x) acc) None
             (list_issue_of <$> maps)) with (@None string); [exact Hacc|].
  induction maps as [|m maps IH]; [reflexivity|].
  rewrite fmap_cons. cbn [fold_right]. rewrite <- IH. reflexivity.
Qed.

Lemma detailed_issue_encodable (issueData : gmap string value) :
  unsupported_Issue (detailed_issue_of issueData) = None.
Proof.
  unfold detailed_issue_of, parent_block.
  destruct (as_map (index issueData "parent")); reflexivity.
Qed.

Lemma mutated_issue_encodable (issueData : gmap string value) :
  unsupported_Issue (mutated_issue_of issueData) = None.
Proof.
  unfold mutated_issue_of, parent_block, project_block.
  destruct (as_map (index issueData "parent"));
    destruct (as_map (index issueData "project")); reflexivity.
Qed.

Lemma set_Children_encodable (issue : Issue) (children : option (list Issue)) :
  unsupported_Issue issue = None ->
  Issue_Children issue = None ->
  unsupported_Issues children = None ->
  unsupported_Issue (set_Children issue children) = None.
Proof.
  destruct issue as [id identifier title description state assignee project
                       parent children0 priority createdAt updatedAt url
                       branchName].
  cbn [Issue_Children]. intros Hissue -> Hchildren.
  cbn in Hissue |- *.
  destruct (match project with Some p => unsupported_Project p | None => None end);
    [discriminate|].
  destruct (match parent with Some q => unsupported_Issue q | None => None end);
    [discriminate|].
  exact Hchildren.
Qed.

Lemma GetTeamIssues_encodable env c teamID opts :
  returns (fun r => unsupported_Issues (fst r) = None)
          (GetTeamIssues env c teamID opts).
Proof.
  unfold GetTeamIssues. returns_cases; try reflexivity.
  rewrite GetTeamIssues_loop_all.
  destruct (all_objects _); [|reflexivity].
  apply list_issues_encodable. reflexivity.
Qed.

Lemma GetIssueChildren_encodable env c issueID opts :
  returns (fun r => unsupported_Issues (fst r) = None)
          (GetIssueChildren env c issueID opts).
Proof.
  unfold GetIssueChildren. returns_cases; try reflexivity.
  rewrite GetIssueChildren_loop_all.
  destruct (all_objects _); [|reflexivity].
  apply list_issues_encodable. reflexivity.
Qed.


Lemma project_issues_encodable (maps : list (gmap string value)) (acc : list Issue) :
  unsupported_Issues (Some acc) = None ->
  unsupported_Issues (Some (acc ++ (project_issue_of <$> maps))%list) = None.
Proof.
  unfold unsupported_Issues. intros Hacc.
  rewrite fold_right_app.
  replace (fold_right (fun x acc => first_some (unsupported_Issue x) acc) None
             (project_issue_of <$> maps)) with (@None string); [exact Hacc|].
  induction maps as [|m maps IH]; [reflexivity|].
  rewrite fmap_cons. cbn [fold_right]. rewrite <- IH. reflexivity.
Qed.

Lemma GetIssue_encodable env c issueID opts :
  returns (fun r => snd r = None ->
                    unsupported_Content (JSONIssue (fst r)) = None)
          (GetIssue env c issueID opts).
Proof.
  unfold GetIssue. cbv zeta.
  destruct (getGraphQLQuery env "get_issue.graphql") as [query [err|]];
    [apply returns_ret; reflexivity|].
  apply returns_bind. intros [[resp|] [err|]];
    try (apply returns_ret; reflexivity); try apply returns_panic.
  destruct (as_map (index (Data resp) "issue")) as [issueData|];
    [|apply returns_ret; reflexivity].
  destruct opts as [o|];
    [|apply returns_ret; intros _; apply detailed_issue_encodable].
  destruct (IncludeChildren o);
    [|apply returns_ret; intros _; apply detailed_issue_encodable].
  intros sent. rewrite M_bind_run.
  match goal with |- context [GetIssueChildren env c issueID ?co sent] =>
    pose proof (GetIssueChildren_encodable env c issueID co sent) as Hc;
    destruct (GetIssueChildren env c issueID co sent)
      as [[[children [err|]]|] sent']
  end; cbn [fst snd] in *; try exact I.
  - discriminate.
  - intros _. apply set_Children_encodable;
      [apply detailed_issue_encodable|reflexivity|exact Hc].
Qed.

Lemma issue_mutation_encodable resp container what :
  snd (issue_mutation_result resp container what) = None ->
  unsupported_Content (JSONIssue (fst (issue_mutation_result resp container what)))
  = None.
Proof.
  unfold issue_mutation_result. intros _.
  repeat case_match; try reflexivity.
  apply mutated_issue_encodable.
Qed.

Lemma CreateIssue_encodable env c input :
  returns (fun r => snd r = None ->
                    unsupported_Content (JSONIssue (fst r)) = None)
          (CreateIssue env c input).
Proof.
  unfold CreateIssue. returns_cases; try reflexivity.
  apply issue_mutation_encodable.
Qed.

Lemma UpdateIssue_encodable env c issueID input :
  returns (fun r => snd r = None ->
                    unsupported_Content (JSONIssue (fst r)) = None)
          (UpdateIssue env c issueID input).
Proof.
  unfold UpdateIssue. returns_cases; try reflexivity.
  apply issue_mutation_encodable.
Qed.

Lemma GetProjectIssues_encodable env c projectID opts :
  returns (fun r => snd r = None ->
                    unsupported_Content (JSONProjectWithIssues (fst r)) = None)
          (GetProjectIssues env c projectID opts).
Proof.
  unfold GetProjectIssues. returns_cases; try reflexivity.
  intros _. cbn [fst unsupported_Content ProjectWithIssues_Issues].
  repeat case_match; try reflexivity.
  rewrite GetProjectIssues_loop_objects.
  apply project_issues_encodable. reflexivity.
Qed.

Lemma returns_weaken {A : Type} (P Q : A -> Prop) (m : M A) :
  (forall a, P a -> Q a) -> returns P m -> returns Q m.
Proof.
  intros HPQ H sent. specialize (H sent).
  destruct (fst (m sent)); [apply HPQ, H|exact I].
Qed.

(** A handler whose operation returns only values the encoder accepts
    relays the outcome of the operation. *)
Lemma respond_relays {T : Type} operation noun (wrap : T -> Content)
    (m : M (T * option error)) sent :
  returns (fun r => snd r = None -> unsupported_Content (wrap (fst r)) = None) m ->
  (m ≫= (fun r => mret (respond operation noun wrap r))) sent
  = relayed operation wrap m sent.
Proof.
  intros H. unfold relayed. rewrite M_bind_run. specialize (H sent).
  destruct (m sent) as [[[v [err|]]|] sent']; cbn [fst snd] in *;
    try reflexivity.
  rewrite M_ret_run. unfold respond. rewrite (H eq_refl). reflexivity.
Qed.

(** X12.  Eight handlers do nothing but relay their operation: an error
    of the operation comes back wrapped under the name of the operation,
    with no response, even when the operation returned a value beside it;
    a value comes back as the content of the response; and the encoder
    never refuses a value of these operations, which hold no float. *)
Theorem handlers_relay_their_operation env c sent :
  (forall args,
     tool_get_issue env c args sent
     = relayed "get issue" JSONIssue
         (GetIssue env c (GetIssueArguments_ID args)
            (Some {| IncludeChildren := GetIssueArguments_IncludeChildren args;
                     ChildrenFirst := 0 |})) sent)
  /\ (forall args,
        tool_get_team_issues env c args sent
        = relayed "get team issues" JSONIssues
            (GetTeamIssues env c (GetTeamIssuesArguments_TeamID args)
               (Some {| GetTeamIssuesOptions_First :=
                          GetTeamIssuesArguments_First args |})) sent)
  /\ (forall args,
        tool_get_issue_children env c args sent
        = relayed "get issue children" JSONIssues
            (GetIssueChildren env c (GetIssueChildrenArguments_IssueID args)
               (Some {| GetIssueChildrenOptions_First :=
                          GetIssueChildrenArguments_First args |})) sent)
  /\ (forall args,
        tool_create_issue env c args sent
        = relayed "create issue" JSONIssue
            (CreateIssue env c (create_issue_input args)) sent)
  /\ (forall args,
        tool_update_issue env c args sent
        = relayed "update issue" JSONIssue
            (UpdateIssue env c (UpdateIssueArguments_IssueID args)
               (update_issue_input args)) sent)
  /\ tool_get_teams env c sent
     = relayed "get teams" JSONTeams (GetTeams env c) sent
  /\ (forall args,
        tool_get_team_projects env c args sent
        = relayed "get team projects" JSONTeamProjects
            (GetTeamProjects env c (GetTeamProjectsArguments_TeamID args)
               (Some {| GetTeamProjectsOptions_First :=
                          GetTeamProjectsArguments_First args |})) sent)
  /\ (forall args,
        tool_get_project_issues env c args sent
        = relayed "get project issues" JSONProjectWithIssues
            (GetProjectIssues env c (GetProjectIssuesArguments_ProjectID args)
               (Some {| GetProjectIssuesOptions_First :=
                          GetProjectIssuesArguments_First args |})) sent).
Proof.
  repeat apply conj; intros.
  - apply respond_relays, GetIssue_encodable.
  - apply respond_relays.
    eapply returns_weaken; [|apply GetTeamIssues_encodable].
    intros r H _. exact H.
  - apply respond_relays.
    eapply returns_weaken; [|apply GetIssueChildren_encodable].
    intros r H _. exact H.
  - apply respond_relays, CreateIssue_encodable.
  - apply respond_relays, UpdateIssue_encodable.
  - apply respond_relays. intros s. destruct (fst _); [reflexivity|exact I].
  - apply respond_relays. intros s. destruct (fst _); [reflexivity|exact I].
  - apply respond_relays, GetProjectIssues_encodable.
Qed.


(** ** What the handlers put on the wire *)

Lemma sends_only_ret {A : Type} (P : Request -> Prop) (a : A) :
  sends_only P (mret a : M A).
Proof. intros sent. exists []. rewrite app_nil_r. split; [reflexivity|constructor]. Qed.

Lemma sends_only_quiet {A : Type} (P : Request -> Prop) (m : M A) :
  quiet m -> sends_only P m.
Proof.
  intros Hq sent. exists []. rewrite app_nil_r. split; [apply Hq|constructor].
Qed.

Lemma sends_only_bind {A B : Type} (P : Request -> Prop) (m : M A) (k : A -> M B) :
  sends_only P m -> (forall a, sends_only P (k a)) -> sends_only P (m ≫= k).
Proof.
  intros Hm Hk sent. rewrite M_bind_run.
  destruct (Hm sent) as (new1 & E1 & H1).
  destruct (m sent) as [[a|] sent1]; cbn [snd] in E1; subst sent1.
  - destruct (Hk a (sent ++ new1)%list) as (new2 & E2 & H2).
    exists (new1 ++ new2)%list. rewrite E2, app_assoc.
    split; [reflexivity|]. apply Forall_app. split; assumption.
  - exists new1. split; [reflexivity|assumption].
Qed.

Lemma sends_only_exec (P : Request -> Prop) env c query variables :
  P (NewRequest c (mkGraphQLRequest query variables)) ->
  sends_only P (ExecuteGraphQL env c query variables).
Proof.
  intros HP sent.
  destruct (ExecuteGraphQL_shape env c query variables sent)
    as (r & new & E & Hnew & _).
  exists new. rewrite E. split; [reflexivity|].
  destruct Hnew as [-> | ->]; repeat constructor. exact HP.
Qed.

Lemma sends_only_weaken {A : Type} (P Q : Request -> Prop) (m : M A) :
  (forall req, P req -> Q req) -> sends_only P m -> sends_only Q m.
Proof.
  intros HPQ H sent. destruct (H sent) as (new & E & Hn).
  exists new. split; [exact E|]. eapply Forall_impl; eassumption.
Qed.

Lemma sends_only_issued {A : Type} (P : Request -> Prop) (m : M A) sent :
  sends_only P m -> Forall P (issued m sent).
Proof.
  intros H. destruct (H sent) as (new & E & Hn).
  rewrite (issued_app m sent new E). exact Hn.
Qed.

Lemma GetIssueChildren_sends_only env c issueID opts :
  sends_only (sends_first (page_size (GetIssueChildrenOptions_First <$> opts)))
             (GetIssueChildren env c issueID opts).
Proof.
  unfold GetIssueChildren. cbv zeta.
  destruct (getGraphQLQuery env "get_issue_children.graphql") as [query [err|]];
    [apply sends_only_ret|].
  apply sends_only_bind.
  - apply sends_only_exec. destruct opts; apply sends_first_insert.
  - intros r. apply sends_only_quiet. quiet_cases.
Qed.

(** The requests of [GetIssue]: the primary one carries no [first], the
    one for the children the page size computed from ChildrenFirst. *)
Lemma GetIssue_sends_only env c issueID opts :
  sends_only (fun req => sends_no_first req
                         \/ sends_first (page_size (ChildrenFirst <$> opts)) req)
             (GetIssue env c issueID opts).
Proof.
  unfold GetIssue. cbv zeta.
  destruct (getGraphQLQuery env "get_issue.graphql") as [query [err|]];
    [apply sends_only_ret|].
  apply sends_only_bind.
  { apply sends_only_exec. left. apply sends_no_first_singleton. discriminate. }
  intros [[resp|] [err|]];
    try solve [apply sends_only_quiet; first [apply quiet_ret|apply quiet_panic]].
  destruct (as_map (index (Data resp) "issue")) as [issueData|];
    [|apply sends_only_ret].
  destruct opts as [o|]; [|apply sends_only_ret].
  destruct (IncludeChildren o); [|apply sends_only_ret].
  apply sends_only_bind.
  - eapply sends_only_weaken; [|apply GetIssueChildren_sends_only].
    intros req H. right.
    change (sends_first (page_size (Some (page_size (Some (ChildrenFirst o)))))
              req) in H.
    rewrite page_size_idem in H. exact H.
  - intros [children [err|]]; apply sends_only_ret.
Qed.

(** X13.  The page sizes the handlers ask for: [get_team_issues] and
    [get_issue_children] ask for their [first] argument when it lies in
    1..100 and for 50 otherwise; [get_issue] cannot set the page size of
    the children, whose request always asks for 50. *)
Theorem handlers_page_sizes env c sent :
  (forall args,
     Forall (sends_first (page_size (Some (GetTeamIssuesArguments_First args))))
            (issued (tool_get_team_issues env c args) sent))
  /\ (forall args,
        Forall (sends_first
                  (page_size (Some (GetIssueChildrenArguments_First args))))
               (issued (tool_get_issue_children env c args) sent))
  /\ (forall args,
        Forall (fun req => sends_no_first req \/ sends_first 50 req)
               (issued (tool_get_issue env c args) sent)).
Proof.
  repeat apply conj; intros args.
  - unfold tool_get_team_issues. cbv zeta.
    rewrite issued_then_quiet by (intros r; apply quiet_ret).
    exact (GetTeamIssues_first env c (GetTeamIssuesArguments_TeamID args)
             (Some {| GetTeamIssuesOptions_First :=
                        GetTeamIssuesArguments_First args |}) sent).
  - unfold tool_get_issue_children. cbv zeta.
    rewrite issued_then_quiet by (intros r; apply quiet_ret).
    exact (GetIssueChildren_first env c
             (GetIssueChildrenArguments_IssueID args)
             (Some {| GetIssueChildrenOptions_First :=
                        GetIssueChildrenArguments_First args |}) sent).
  - unfold tool_get_issue. cbv zeta.
    rewrite issued_then_quiet by (intros r; apply quiet_ret).
    exact (sends_only_issued _ _ sent
             (GetIssue_sends_only env c (GetIssueArguments_ID args)
                (Some {| IncludeChildren := GetIssueArguments_IncludeChildren args;
                         ChildrenFirst := 0 |}))).
Qed.


(** ** [GetIssue] and its second request *)

(** X14.  [GetIssue] fetches children only for an issue it returns: a
    call that issues more than one request was asked for the children and
    returns an issue, with or without an error beside it. *)
Theorem GetIssue_second_request_only_with_issue env c issueID opts sent :
  (length (issued (GetIssue env c issueID opts) sent) <= 1)%nat
  \/ (exists o issue e,
         opts = Some o /\ IncludeChildren o = true
         /\ fst (GetIssue env c issueID opts sent) = Returned (Some issue, e)).
Proof.
  unfold GetIssue. cbv zeta.
  destruct (getGraphQLQuery env "get_issue.graphql") as [query [err|]].
  { left. rewrite issued_nil by reflexivity. simpl. lia. }
  destruct (ExecuteGraphQL_shape env c query
              (Some {[ "id" := VString issueID ]}) sent)
    as (r & new & E & Hnew & Hr).
  assert (Hlen : (length new <= 1)%nat)
    by (destruct Hnew as [-> | ->]; simpl; lia).
  assert (Hquiet : forall (k : result GraphQLResponse -> M (result Issue)),
             quiet (k r) ->
             (length (issued (ExecuteGraphQL env c query
                                (Some {[ "id" := VString issueID ]}) ≫= k) sent)
              <= 1)%nat).
  { intros k Hk. rewrite (issued_app _ sent new); [exact Hlen|].
    rewrite M_bind_run, E. apply Hk. }
  destruct r as [[resp|] [err|]];
    try solve [left; apply Hquiet; first [apply quiet_ret|apply quiet_panic]].
  destruct (as_map (index (Data resp) "issue")) as [issueData|] eqn:Hi;
    [|left; apply Hquiet; rewrite Hi; apply quiet_ret].
  destruct opts as [o|];
    [|left; apply Hquiet; rewrite Hi; apply quiet_ret].
  destruct (IncludeChildren o) eqn:Hinc;
    [|left; apply Hquiet; rewrite Hi; apply quiet_ret].
  right. exists o. rewrite M_bind_run, E. rewrite Hi.
  rewrite M_bind_run.
  match goal with |- context [GetIssueChildren env c issueID ?co ?s] =>
    pose proof (GetIssueChildren_never_panics env c issueID co s) as Hnp;
    destruct (GetIssueChildren env c issueID co s)
      as [[[children [err|]]|] sent']
  end; [| |exfalso; apply Hnp; reflexivity].
  - eexists _, _. split; [reflexivity|]. split; [exact Hinc|reflexivity].
  - eexists _, _. split; [reflexivity|]. split; [exact Hinc|reflexivity].
Qed.


(** ** A failed request, seen from the operations *)

Lemma exec_then_failed {B : Type} (P : outcome B -> Prop) env c query variables
    (k : result GraphQLResponse -> M B) sent err :
  json_Marshal_error (mkGraphQLRequest query variables) = None ->
  url_Parse_error env (apiURL c) = None ->
  (forall req, snd (reading (httpCli c sent req)) = Some err) ->
  (forall v s, P (fst (k (v, Some err) s))) ->
  P (fst ((ExecuteGraphQL env c query variables ≫= k) sent)).
Proof.
  intros Hm Hu Hall Hk. rewrite M_bind_run.
  rewrite (ExecuteGraphQL_sends env c query variables sent Hm Hu).
  specialize (Hall (NewRequest c (mkGraphQLRequest query variables))).
  destruct (reading _) as [v e]. cbn [snd] in Hall. subst e. apply Hk.
Qed.

(** Settling an operation whose request fails. *)
Ltac request_fails err Hu Hall Hdocs :=
  cbv zeta;
  lazymatch goal with
  | |- context [getGraphQLQuery ?env ?f] =>
      let H := fresh "Hdoc" in
      assert (H : snd (getGraphQLQuery env f) = None)
        by (unfold documents in Hdocs;
            repeat (apply Forall_cons in Hdocs as [? Hdocs]); assumption);
      destruct (getGraphQLQuery env f) as [? [?|]]; [discriminate H|]; clear H
  | |- _ => idtac
  end;
  lazymatch goal with
  | |- fst ((ExecuteGraphQL ?env ?c ?q ?v ≫= ?k) ?sent) = ?o =>
      apply (exec_then_failed (fun x => x = o) env c q v k sent err);
      [ lazymatch v with
        | None => apply marshal_ok_nil
        | Some (CreateIssue_variables _) =>
            apply marshal_ok, CreateIssue_variables_supported
        | Some (UpdateIssue_variables _ _) =>
            apply marshal_ok, UpdateIssue_variables_supported
        | Some (CreateProject_variables _) =>
            apply marshal_ok, CreateProject_variables_supported
        | Some (UpdateProject_variables _ _) =>
            apply marshal_ok, UpdateProject_variables_supported
        | Some _ => apply marshal_ok; auto 20 with marshal
        end
      | exact Hu | exact Hall | intros [?|] ?; reflexivity ]
  end.

(** X15.  When the one request of an operation fails before a response
    without listed errors is read (the peer cannot be reached, answers
    with another status than 200, sends a body that does not decode, or
    lists GraphQL errors), every operation returns no value and the error
    of [ExecuteGraphQL] as it is, not wrapped: no operation panics, maps a
    partial response, or sends a second request. *)
Theorem operations_return_request_error_unwrapped env c sent err :
  url_Parse_error env (apiURL c) = None ->
  Forall (fun name => snd (getGraphQLQuery env name) = None) documents ->
  (forall req, snd (reading (httpCli c sent req)) = Some err) ->
  (forall teamID opts,
     fst (GetTeamIssues env c teamID opts sent) = Returned (None, Some err))
  /\ (forall issueID opts,
        fst (GetIssue env c issueID opts sent) = Returned (None, Some err))
  /\ (forall issueID opts,
        fst (GetIssueChildren env c issueID opts sent) = Returned (None, Some err))
  /\ (forall input,
        fst (CreateIssue env c input sent) = Returned (None, Some err))
  /\ (forall issueID input,
        fst (UpdateIssue env c issueID input sent) = Returned (None, Some err))
  /\ (forall opts, fst (GetProjects env c opts sent) = Returned (None, Some err))
  /\ (forall projectID,
        fst (GetProject env c projectID sent) = Returned (None, Some err))
  /\ (forall input,
        fst (CreateProject env c input sent) = Returned (None, Some err))
  /\ (forall projectID input,
        fst (UpdateProject env c projectID input sent) = Returned (None, Some err))
  /\ (forall projectID opts,
        fst (GetProjectIssues env c projectID opts sent)
        = Returned (None, Some err))
  /\ fst (GetViewer env c sent) = Returned (None, Some err)
  /\ fst (GetTeams env c sent) = Returned (None, Some err)
  /\ (forall teamID opts,
        fst (GetTeamProjects env c teamID opts sent) = Returned (None, Some err)).
Proof.
  intros Hu Hdocs Hall. repeat apply conj; intros.
  - unfold GetTeamIssues. request_fails err Hu Hall Hdocs.
  - unfold GetIssue. request_fails err Hu Hall Hdocs.
  - unfold GetIssueChildren. request_fails err Hu Hall Hdocs.
  - unfold CreateIssue. request_fails err Hu Hall Hdocs.
  - unfold UpdateIssue. request_fails err Hu Hall Hdocs.
  - unfold GetProjects. request_fails err Hu Hall Hdocs.
  - unfold GetProject. request_fails err Hu Hall Hdocs.
  - unfold CreateProject. request_fails err Hu Hall Hdocs.
  - unfold UpdateProject. request_fails err Hu Hall Hdocs.
  - unfold GetProjectIssues. request_fails err Hu Hall Hdocs.
  - unfold GetViewer. request_fails err Hu Hall Hdocs.
  - unfold GetTeams. request_fails err Hu Hall Hdocs.
  - unfold GetTeamProjects. request_fails err Hu Hall Hdocs.
Qed.

(** An instance: a peer that drops the connection, and one that lists a
    GraphQL error beside an accepted mutation. *)
Lemma operations_return_request_error_unwrapped_witness :
  fst (GetViewer sample_env (sample_client []) [])
  = Returned (None,
              Some (TransportError MakeRequest (LibraryError "connection reset")))
  /\ fst (GetIssue sample_env (sample_client []) "issue-1"
            (Some {| IncludeChildren := true; ChildrenFirst := 10 |}) [])
     = Returned (None,
                 Some (TransportError MakeRequest
                         (LibraryError "connection reset")))
  /\ fst (CreateProject sample_env (sample_client [ok_answer accepting_data ["denied"]])
            sample_CreateProjectInput [])
     = Returned (None, Some (GraphQLErrors "denied")).
Proof.
  assert (Hdocs : Forall (fun name => snd (getGraphQLQuery sample_env name) = None)
                         documents)
    by (repeat constructor).
  destruct (operations_return_request_error_unwrapped sample_env
              (sample_client []) []
              (TransportError MakeRequest (LibraryError "connection reset"))
              eq_refl Hdocs (fun req => eq_refl))
    as (_ & H2 & _ & _ & _ & _ & _ & _ & _ & _ & H11 & _).
  destruct (operations_return_request_error_unwrapped sample_env
              (sample_client [ok_answer accepting_data ["denied"]]) []
              (GraphQLErrors "denied")
              eq_refl Hdocs (fun req => eq_refl))
    as (_ & _ & _ & _ & _ & _ & _ & H8 & _).
  split; [exact H11|]. split; [apply H2|apply H8].
Defined.


(** ** The attachment download *)

Lemma append_empty (s : string) : s +:+ "" = s.
Proof. induction s as [|ch s IH]; [reflexivity|]. change (String ch (s +:+ "") = String ch s). rewrite IH. reflexivity. Qed.

Lemma download_success_text (path : string) :
  Sprintf1 "Successfully downloaded attachment to %s" (Some path)
  = "Successfully downloaded attachment to " +:+ path.
Proof.
  change "Successfully downloaded attachment to %s"
    with ("Successfully downloaded attachment to "
          +:+ String percent (String verb_s "")).
  rewrite Sprintf1_verb by reflexivity.
  cbn [Sprintf1]. rewrite append_empty. reflexivity.
Qed.

Lemma io_Copy_complete outside path resp written :
  io_Copy outside path resp = (written, None) ->
  written = Served_Body resp /\ Served_BodyError resp = None.
Proof.
  unfold io_Copy.
  destruct (write_fault outside path (Served_Body resp)) as [[n err]|].
  - destruct (n <? String.length (Served_Body resp))%nat; [discriminate|].
    intros E. inversion E. split; reflexivity.
  - intros E. inversion E. split; reflexivity.
Qed.


(** X17.  The attachment handler answers with a response exactly when the
    file holds the whole body: a response comes without an error, names
    the path, and follows a GET answered with status 200 whose body was
    served to its end and stands in the file at the path; without a
    response there is an error, and if a file changed then it is the one
    at the path, created after an answer with status 200. *)
Theorem download_attachment_success_is_complete env outside apiKey args w :
  let url := DownloadAttachmentArguments_URL args in
  let path := DownloadAttachmentArguments_FilePath args in
  let req := {| Download_URL := url;
                Download_ContentType := "application/json";
                Download_Authorization := apiKey |} in
  let out := tool_download_attachment env outside apiKey args w in
  match fst out with
  | (Some response, e) =>
      e = None
      /\ TextContent response
         = Text ("Successfully downloaded attachment to " +:+ path)
      /\ exists served,
           fetch outside (downloads w) req = FetchReturned served
           /\ Served_StatusCode served = 200
           /\ Served_BodyError served = None
           /\ files (snd out) = <[ path := Served_Body served ]> (files w)
  | (None, e) =>
      e <> None
      /\ (files (snd out) = files w
          \/ exists served,
               fetch outside (downloads w) req = FetchReturned served
               /\ Served_StatusCode served = 200
               /\ os_Create_error outside path = None
               /\ files (snd out)
                  = <[ path := fst (io_Copy outside path served) ]> (files w))
  end.
Proof.
  cbv zeta. unfold tool_download_attachment.
  destruct (String.prefix upload_prefix (DownloadAttachmentArguments_URL args));
    cbn [negb]; [|split; [discriminate|now left]].
  destruct (url_Parse_error env (DownloadAttachmentArguments_URL args));
    [split; [discriminate|now left]|].
  destruct (fetch outside (downloads w) _) as [err|resp] eqn:Hfetch;
    [split; [discriminate|now left]|].
  destruct (Served_StatusCode resp =? StatusOK) eqn:Hstatus; cbn [negb];
    [|split; [discriminate|now left]].
  apply Z.eqb_eq in Hstatus.
  destruct (os_Create_error outside (DownloadAttachmentArguments_FilePath args))
    eqn:Hcreate; [split; [discriminate|now left]|].
  destruct (io_Copy outside _ resp) as [written [err|]] eqn:Hcopy;
    cbn [fst snd files TextContent].
  - split; [discriminate|]. right. exists resp.
    split; [reflexivity|]. split; [exact Hstatus|]. split; [reflexivity|].
    rewrite Hcopy. reflexivity.
  - destruct (io_Copy_complete _ _ _ _ Hcopy) as [-> Hbody].
    split; [reflexivity|]. split; [rewrite download_success_text; reflexivity|].
    exists resp. split; [reflexivity|]. split; [exact Hstatus|].
    split; [exact Hbody|reflexivity].
Qed.


(** ** The embedded documents *)

Lemma take_element_free (l : list ascii) :
  Forall (fun ch => is_separator ch = false) (take_element l).
Proof.
  induction l as [|ch l IH]; simpl; [constructor|].
  destruct (is_separator ch) eqn:E; constructor; assumption.
Qed.

Lemma take_element_app (l rest : list ascii) :
  Forall (fun ch => is_separator ch = false) l ->
  take_element (l ++ "/"%char :: rest) = l.
Proof.
  induction 1 as [|ch l Hch _ IH]; simpl; [reflexivity|].
  rewrite Hch, IH. reflexivity.
Qed.

Lemma list_ascii_of_string_app (s t : string) :
  list_ascii_of_string (s +:+ t)
  = (list_ascii_of_string s ++ list_ascii_of_string t)%list.
Proof.
  induction s as [|ch s IH]; [reflexivity|].
  change (ch :: list_ascii_of_string (s +:+ t)
          = ch :: (list_ascii_of_string s ++ list_ascii_of_string t)%list).
  rewrite IH. reflexivity.
Qed.

(** The last element of a path holds no separator, unless the path is
    made of separators only. *)
Lemma filepath_Base_element (path : string) :
  filepath_Base path = "/"
  \/ (filepath_Base path <> "" /\ separator_free (filepath_Base path)).
Proof.
  unfold filepath_Base. destruct path as [|ch path].
  { right. split; [discriminate|]. repeat constructor. }
  set (stripped := drop_separators _).
  pose proof (take_element_free stripped) as Hfree.
  apply Forall_rev in Hfree.
  destruct (rev (take_element stripped)) as [|x last]; [now left|].
  right. split; [discriminate|].
  unfold separator_free. rewrite list_ascii_of_string_of_list_ascii.
  exact Hfree.
Qed.

Lemma take_element_all (l : list ascii) :
  Forall (fun ch => is_separator ch = false) l -> take_element l = l.
Proof.
  induction 1 as [|ch l Hch _ IH]; simpl; [reflexivity|].
  rewrite Hch, IH. reflexivity.
Qed.

Lemma drop_separators_none (l rest : list ascii) :
  l <> [] -> Forall (fun ch => is_separator ch = false) l ->
  drop_separators (l ++ rest) = (l ++ rest)%list.
Proof.
  intros Hne Hfree. destruct Hfree as [|ch l Hch _]; [congruence|].
  simpl. rewrite Hch. reflexivity.
Qed.

Lemma rev_characters (name : string) :
  name <> "" -> separator_free name ->
  rev (list_ascii_of_string name) <> []
  /\ Forall (fun ch => is_separator ch = false) (rev (list_ascii_of_string name)).
Proof.
  intros Hne Hfree. split; [|apply Forall_rev, Hfree].
  intros H. apply (f_equal (@rev ascii)) in H. rewrite rev_involutive in H.
  destruct name; [congruence|discriminate H].
Qed.

Lemma last_element (name : string) (l : list ascii) :
  name <> "" -> l = list_ascii_of_string name ->
  match l with
  | [] => "/"
  | a :: l' => string_of_list_ascii (a :: l')
  end = name.
Proof.
  intros Hne ->. destruct (list_ascii_of_string name) as [|y ys] eqn:Hy.
  { destruct name; [congruence|discriminate Hy]. }
  rewrite <- Hy. apply string_of_list_ascii_of_string.
Qed.

(** A name without separator is its own last element. *)
Lemma filepath_Base_name (name : string) :
  name <> "" -> separator_free name -> filepath_Base name = name.
Proof.
  intros Hne Hfree. unfold filepath_Base.
  destruct (rev_characters name Hne Hfree) as [Hnil Hrev].
  destruct name as [|ch rest] eqn:E; [congruence|]. rewrite <- E in *.
  cbv zeta.
  rewrite <- (app_nil_r (rev (list_ascii_of_string name))).
  rewrite (drop_separators_none _ [] Hnil Hrev), app_nil_r.
  rewrite (take_element_all _ Hrev), rev_involutive.
  apply last_element; [exact Hne|reflexivity].
Qed.

(** The directory part of a filename is dropped. *)
Lemma filepath_Base_drops_directory (dir name : string) :
  name <> "" -> separator_free name ->
  filepath_Base (dir +:+ "/" +:+ name) = name.
Proof.
  intros Hne Hfree. unfold filepath_Base.
  destruct (rev_characters name Hne Hfree) as [Hnil Hrev].
  assert (Hpath : list_ascii_of_string (dir +:+ "/" +:+ name)
                  = (list_ascii_of_string dir
                     ++ "/"%char :: list_ascii_of_string name)%list)
    by (rewrite !list_ascii_of_string_app; reflexivity).
  destruct (dir +:+ "/" +:+ name) as [|ch path] eqn:E.
  { destruct dir; discriminate E. }
  rewrite Hpath. clear E Hpath ch path. cbv zeta.
  rewrite rev_app_distr. cbn [rev]. rewrite <- app_assoc. cbn [app].
  rewrite (drop_separators_none _ _ Hnil Hrev).
  rewrite (take_element_app _ _ Hrev), rev_involutive.
  apply last_element; [exact Hne|reflexivity].
Qed.

(** X18.  [getGraphQLQuery] reads nothing outside the directory of the
    embedded documents: whatever the filename, the file it opens is
    "graphql/" followed by one path element, which holds no separator
    (or is the root "/", which names no file), and the document it
    returns is the content of that file. *)
Theorem getGraphQLQuery_stays_in_graphql_directory env filename :
  exists name,
    (name = "/" \/ (name <> "" /\ separator_free name))
    /\ getGraphQLQuery env filename
       = match graphqlFS env !! ("graphql/" +:+ name) with
         | Some data => (data, None)
         | None =>
             ("", Some (LibraryError
                          ("open graphql/" +:+ name +:+ ": file does not exist")))
         end.
Proof.
  exists (filepath_Base filename). split; [apply filepath_Base_element|].
  reflexivity.
Qed.

(** X19.  [getGraphQLQuery] ignores the directory part of a filename:
    a name without separator loads the same document whatever directory
    is written before it. *)
Theorem getGraphQLQuery_ignores_directory env dir name :
  name <> "" -> separator_free name ->
  getGraphQLQuery env (dir +:+ "/" +:+ name) = getGraphQLQuery env name
  /\ getGraphQLQuery env name
     = match graphqlFS env !! ("graphql/" +:+ name) with
       | Some data => (data, None)
       | None =>
           ("", Some (LibraryError
                        ("open graphql/" +:+ name +:+ ": file does not exist")))
       end.
Proof.
  intros Hne Hfree.
  assert (Hdir := filepath_Base_drops_directory dir name Hne Hfree).
  assert (Hname := filepath_Base_name name Hne Hfree).
  unfold getGraphQLQuery. cbv zeta. rewrite Hdir, Hname. split; reflexivity.
Qed.

(** An instance: a filename that climbs out of the directory loads the
    document of its last element. *)
Lemma getGraphQLQuery_ignores_directory_witness :
  getGraphQLQuery sample_env "../../etc/get_issue.graphql"
  = ("query GetIssue", None).
Proof.
  assert (Hfree : separator_free "get_issue.graphql")
    by (repeat constructor).
  destruct (getGraphQLQuery_ignores_directory sample_env "../../etc"
              "get_issue.graphql" ltac:(discriminate) Hfree) as [H _].
  etransitivity; [exact H|]. vm_compute. reflexivity.
Defined.

(** ** Building a client *)

Lemma apply_options (specs : list OptionSpec) (key url : string)
    (h : list Request -> Request -> RoundTrip) :
  fold_left (fun client opt => opt client) (option_of <$> specs)
    {| apiKey := key; apiURL := url; httpCli := h |}
  = {| apiKey := key; apiURL := last_URL specs url;
       httpCli := last_HTTPClient specs h |}.
Proof.
  revert url h. induction specs as [|[u|h'] specs IH]; intros url h.
  - reflexivity.
  - rewrite fmap_cons. cbn [fold_left option_of WithURL apiKey apiURL httpCli
                             last_URL last_HTTPClient]. apply IH.
  - rewrite fmap_cons. cbn [fold_left option_of WithHTTPClient apiKey apiURL
                             httpCli last_URL last_HTTPClient]. apply IH.
Qed.

(** X20.  [NewClient] applies its options in order: the client keeps the
    API key it was given, its URL is the one of the last [WithURL] among
    the options, or the default URL when there is none, and its HTTP
    client the one of the last [WithHTTPClient], or the default client. *)
Theorem NewClient_last_option_wins DefaultClient key specs :
  NewClient DefaultClient key (option_of <$> specs)
  = {| apiKey := key;
       apiURL := last_URL specs DefaultAPIURL;
       httpCli := last_HTTPClient specs DefaultClient |}.
Proof. unfold NewClient. apply apply_options. Qed.

(** ** Where the requests go *)

Lemma to_endpoint_NewRequest c reqBody : to_endpoint c (NewRequest c reqBody).
Proof. repeat split. Qed.

(** Settling [sends_only] for an operation that calls [ExecuteGraphQL]
    once, when every request built by [NewRequest] is as wanted. *)
Ltac only_requests H :=
  cbv zeta;
  lazymatch goal with
  | |- sends_only _ (match getGraphQLQuery ?env ?f with _ => _ end) =>
      destruct (getGraphQLQuery env f) as [? [?|]]; [apply sends_only_ret|]
  | |- _ => idtac
  end;
  apply sends_only_bind;
  [ apply sends_only_exec, H
  | intros ?; apply sends_only_quiet; quiet_cases ].

Lemma GetIssue_sends_only_built (P : Request -> Prop) env c issueID opts :
  (forall reqBody, P (NewRequest c reqBody)) ->
  sends_only P (GetIssue env c issueID opts).
Proof.
  intros H. unfold GetIssue. cbv zeta.
  destruct (getGraphQLQuery env "get_issue.graphql") as [query [err|]];
    [apply sends_only_ret|].
  apply sends_only_bind; [apply sends_only_exec, H|].
  intros [[resp|] [err|]];
    try solve [apply sends_only_quiet; first [apply quiet_ret|apply quiet_panic]].
  destruct (as_map (index (Data resp) "issue")) as [issueData|];
    [|apply sends_only_ret].
  destruct opts as [o|]; [|apply sends_only_ret].
  destruct (IncludeChildren o); [|apply sends_only_ret].
  apply sends_only_bind.
  - unfold GetIssueChildren. only_requests H.
  - intros [children [err|]]; apply sends_only_ret.
Qed.

(** X21.  The API key goes nowhere but to the URL of the client: every
    request of every operation is a POST of JSON to that URL, with the
    API key as its Authorization header. *)
Theorem operations_send_only_to_the_endpoint env c :
  (forall teamID opts,
     sends_only (to_endpoint c) (GetTeamIssues env c teamID opts))
  /\ (forall issueID opts,
        sends_only (to_endpoint c) (GetIssue env c issueID opts))
  /\ (forall issueID opts,
        sends_only (to_endpoint c) (GetIssueChildren env c issueID opts))
  /\ (forall input, sends_only (to_endpoint c) (CreateIssue env c input))
  /\ (forall issueID input,
        sends_only (to_endpoint c) (UpdateIssue env c issueID input))
  /\ (forall opts, sends_only (to_endpoint c) (GetProjects env c opts))
  /\ (forall projectID, sends_only (to_endpoint c) (GetProject env c projectID))
  /\ (forall input, sends_only (to_endpoint c) (CreateProject env c input))
  /\ (forall projectID input,
        sends_only (to_endpoint c) (UpdateProject env c projectID input))
  /\ (forall projectID opts,
        sends_only (to_endpoint c) (GetProjectIssues env c projectID opts))
  /\ sends_only (to_endpoint c) (GetViewer env c)
  /\ sends_only (to_endpoint c) (GetTeams env c)
  /\ (forall teamID opts,
        sends_only (to_endpoint c) (GetTeamProjects env c teamID opts)).
Proof.
  pose proof (to_endpoint_NewRequest c) as H.
  repeat apply conj; intros.
  - unfold GetTeamIssues. only_requests H.
  - apply GetIssue_sends_only_built, H.
  - unfold GetIssueChildren. only_requests H.
  - unfold CreateIssue. only_requests H.
  - unfold UpdateIssue. only_requests H.
  - unfold GetProjects. only_requests H.
  - unfold GetProject. only_requests H.
  - unfold CreateProject. only_requests H.
  - unfold UpdateProject. only_requests H.
  - unfold GetProjectIssues. only_requests H.
  - unfold GetViewer. only_requests H.
  - unfold GetTeams. only_requests H.
  - unfold GetTeamProjects. only_requests H.
Qed.


(** ** The request body can always be encoded *)

Lemma returns_bind_with {A B : Type} (Q : A -> Prop) (P : B -> Prop)
    (m : M A) (k : A -> M B) :
  returns Q m -> (forall a, Q a -> returns P (k a)) -> returns P (m ≫= k).
Proof.
  intros Hm Hk sent. rewrite M_bind_run. specialize (Hm sent).
  destruct (m sent) as [[a|] sent']; [apply (Hk a Hm)|exact I].
Qed.

Lemma ExecuteGraphQL_encoded env c query variables :
  json_Marshal_error (mkGraphQLRequest query variables) = None ->
  returns encoded (ExecuteGraphQL env c query variables).
Proof.
  intros Hm sent.
  destruct (url_Parse_error env (apiURL c)) as [e|] eqn:Hu.
  { unfold ExecuteGraphQL. rewrite Hm, Hu. intros H. exact H. }
  rewrite (ExecuteGraphQL_sends env c query variables sent Hm Hu).
  cbn [fst]. unfold reading, encoded.
  destruct (httpCli c sent _) as [err|resp]; [cbn; tauto|].
  destruct (ResponseBody resp) as [err|result].
  - destruct (StatusCode resp =? StatusOK); cbn; tauto.
  - destruct (Errors result); cbn; tauto.
Qed.

(** Settling [returns encoded] for an operation that calls
    [ExecuteGraphQL] once, given that its variables can be encoded. *)
Ltac encodes Hm :=
  cbv zeta;
  lazymatch goal with
  | |- returns _ (match getGraphQLQuery ?env ?f with _ => _ end) =>
      destruct (getGraphQLQuery env f) as [? [?|]];
      [apply returns_ret; unfold encoded; cbn [snd blames_encoding]; tauto|]
  | |- _ => idtac
  end;
  apply (returns_bind_with encoded);
  [ apply ExecuteGraphQL_encoded, Hm
  | intros [[?|] [?|]] ?;
    repeat lazymatch goal with
           | |- returns _ panic => apply returns_panic
           | |- returns _ (mret _) => apply returns_ret
           | |- returns _ _ => case_match
           end;
    unfold encoded, issue_mutation_result, project_mutation_result in *;
    cbn [snd] in *; try assumption;
    repeat match goal with
           | |- context [as_map ?x] => destruct (as_map x)
           | |- context [as_bool ?x] => destruct (as_bool x) as [[|]|]
           | |- context [as_list ?x] => destruct (as_list x)
           end;
    try solve [cbn [snd blames_encoding]; tauto] ].

Lemma GetIssueChildren_encoded env c issueID opts :
  returns encoded (GetIssueChildren env c issueID opts).
Proof.
  unfold GetIssueChildren.
  assert (Hm : forall query first,
             json_Marshal_error
               (mkGraphQLRequest query
                  (Some (<[ "first" := VInt first ]>
                           {[ "id" := VString issueID ]}))) = None)
    by (intros; apply marshal_ok; auto with marshal).
  encodes Hm.
  rewrite GetIssueChildren_loop_all; destruct (all_objects _);
    cbn [snd blames_encoding]; tauto.
Qed.


Lemma GetIssue_encoded env c issueID opts :
  returns encoded (GetIssue env c issueID opts).
Proof.
  unfold GetIssue. cbv zeta.
  destruct (getGraphQLQuery env "get_issue.graphql") as [query [err|]];
    [apply returns_ret; unfold encoded; cbn [snd blames_encoding]; tauto|].
  apply (returns_bind_with encoded).
  { apply ExecuteGraphQL_encoded, marshal_ok. auto with marshal. }
  intros [[resp|] [err|]] Hr;
    try (apply returns_ret; exact Hr); try apply returns_panic.
  destruct (as_map (index (Data resp) "issue")) as [issueData|];
    [|apply returns_ret; unfold encoded; cbn [snd blames_encoding]; tauto].
  destruct opts as [o|]; [|apply returns_ret; exact I].
  destruct (IncludeChildren o); [|apply returns_ret; exact I].
  apply (returns_bind_with encoded); [apply GetIssueChildren_encoded|].
  intros [children [err|]] Hc; apply returns_ret; [exact Hc|exact I].
Qed.

Lemma GetTeams_loop_encoded nodes acc :
  match GetTeams_loop nodes acc with
  | Returned r => encoded r
  | Panicked => True
  end.
Proof.
  revert acc. induction nodes as [|node nodes IH]; intros acc; simpl.
  - exact I.
  - destruct (as_map node) as [nodeMap|]; [|unfold encoded; cbn; tauto].
    destruct (as_string (index nodeMap "id")); [|exact I].
    destruct (as_string (index nodeMap "name")); [|exact I].
    destruct (as_string (index nodeMap "key")); [|exact I].
    apply IH.
Qed.

(** X22.  No operation fails for its own request body: the variables an
    operation builds can always be encoded, so no operation returns the
    error of a request body that could not be marshalled, neither by
    itself nor as the cause of a failed fetch of the children. *)
Theorem operations_always_encode_their_request env c :
  (forall teamID opts, returns encoded (GetTeamIssues env c teamID opts))
  /\ (forall issueID opts, returns encoded (GetIssue env c issueID opts))
  /\ (forall issueID opts, returns encoded (GetIssueChildren env c issueID opts))
  /\ (forall input, returns encoded (CreateIssue env c input))
  /\ (forall issueID input, returns encoded (UpdateIssue env c issueID input))
  /\ (forall opts, returns encoded (GetProjects env c opts))
  /\ (forall projectID, returns encoded (GetProject env c projectID))
  /\ (forall input, returns encoded (CreateProject env c input))
  /\ (forall projectID input,
        returns encoded (UpdateProject env c projectID input))
  /\ (forall projectID opts,
        returns encoded (GetProjectIssues env c projectID opts))
  /\ returns encoded (GetViewer env c)
  /\ returns encoded (GetTeams env c)
  /\ (forall teamID opts, returns encoded (GetTeamProjects env c teamID opts)).
Proof.
  repeat apply conj; intros.
  - unfold GetTeamIssues.
    assert (Hm : forall query first,
               json_Marshal_error
                 (mkGraphQLRequest query
                    (Some (<[ "first" := VInt first ]>
                             {[ "teamId" := VString teamID ]}))) = None)
      by (intros; apply marshal_ok; auto with marshal).
    encodes Hm.
    rewrite GetTeamIssues_loop_all; destruct (all_objects _);
      cbn [snd blames_encoding]; tauto.
  - apply GetIssue_encoded.
  - apply GetIssueChildren_encoded.
  - unfold CreateIssue.
    pose proof (fun query =>
                  marshal_ok query _ (CreateIssue_variables_supported input)) as Hm.
    encodes Hm.
  - unfold UpdateIssue.
    pose proof (fun query =>
                  marshal_ok query _
                    (UpdateIssue_variables_supported issueID input)) as Hm.
    encodes Hm.
  - unfold GetProjects.
    assert (Hm : forall query first,
               json_Marshal_error
                 (mkGraphQLRequest query
                    (Some (<[ "first" := VInt first ]> ∅))) = None)
      by (intros; apply marshal_ok; auto with marshal).
    encodes Hm.
    rewrite GetProjects_loop_all; destruct (all_objects _);
      cbn [snd blames_encoding]; tauto.
  - unfold GetProject.
    assert (Hm : json_Marshal_error
                   (mkGraphQLRequest GetProject_query
                      (Some {[ "id" := VString projectID ]})) = None)
      by (apply marshal_ok; auto with marshal).
    encodes Hm.
  - unfold CreateProject.
    pose proof (marshal_ok CreateProject_query _
                  (CreateProject_variables_supported input)) as Hm.
    encodes Hm.
  - unfold UpdateProject.
    pose proof (marshal_ok UpdateProject_query _
                  (UpdateProject_variables_supported projectID input)) as Hm.
    encodes Hm.
  - unfold GetProjectIssues.
    assert (Hm : forall query,
               json_Marshal_error
                 (mkGraphQLRequest query
                    (Some {[ "projectId" := VString projectID ]})) = None)
      by (intros; apply marshal_ok; auto with marshal).
    encodes Hm.
  - unfold GetViewer. pose proof (marshal_ok_nil GetViewer_query) as Hm.
    encodes Hm.
  - unfold GetTeams. pose proof (marshal_ok_nil GetTeams_query) as Hm.
    encodes Hm.
    intros sent. apply GetTeams_loop_encoded.
  - unfold GetTeamProjects.
    assert (Hm : forall query,
               json_Marshal_error
                 (mkGraphQLRequest query
                    (Some {[ "teamId" := VString teamID ]})) = None)
      by (intros; apply marshal_ok; auto with marshal).
    encodes Hm.
    rewrite GetTeamProjects_loop_all; destruct (all_objects _);
      cbn [snd blames_encoding]; tauto.
Qed.
